(** * CRPL rhythm detector: a shallow embedding of [crpl/detector.py]

    The detector turns the keystroke events of one text-entry session into a
    fixed-shape profile.  This file embeds [crpl/types.py] and
    [crpl/detector.py] and states the properties of the analysis pipeline.

    Numbers.  Python [int] is [Z].  Python [float] is embedded twice.
    The specification treats all arithmetic as real-valued, and the
    properties of the scans, the counts, the classifications and the ranges
    are stated over exact rationals [Q], every threshold being the decimal
    literal of the code.  Where a property depends on how a float
    operation is rounded (the digits that [round] stores, a computed score
    against a threshold), the functions are embedded again in [B64], with
    every float operation followed by the rounding to binary64 of [F].
    [math.sqrt] and, in [B64], the builtin [sum] on floats are parameters
    of the development, and the properties below hold for every function
    in their place (the comparison with the specification's formula asks
    only that equal numbers have equal roots).  The two clock reads
    ([time.time()] and [datetime.now().isoformat()]) are explicit
    arguments of the operations that perform them.

    Names follow the source.  Where two dictionaries share a key or a key
    is a Rocq name already, the field carries a prefix: [p_timestamp] for
    the profile's ["timestamp"], [bs_], [hs_], [dp_] and [tp_] for the keys
    of a burst segment, a hesitation, a deletion pattern and a trajectory
    point. *)

From Stdlib Require Import List ZArith QArith Qround Qminmax String Ascii Bool.
From Stdlib Require Import Lia Lqa Sorted Qabs.
From Stdlib Require Qcanon.
Import ListNotations.

Open Scope string_scope.
Open Scope list_scope.
Open Scope Q_scope.

(** ** Python built-ins used by the detector *)

Module Py.

(** [x < y], [x > y], [x >= y] and [x == y] on floats. *)
Definition ltb (x y : Q) : bool := negb (Qle_bool y x).
Definition gtb (x y : Q) : bool := ltb y x.
Definition geb (x y : Q) : bool := Qle_bool y x.
Definition eqb (x y : Q) : bool := Qeq_bool x y.

(** [max(a, b)] keeps its first argument unless the second is strictly
    greater; [min(a, b)] unless the second is strictly smaller. *)
Definition max (a b : Q) : Q := if gtb b a then b else a.
Definition min (a b : Q) : Q := if ltb b a then b else a.

(** [max(iterable, default=d)]. *)
Definition max_default (l : list Q) (d : Q) : Q :=
  match l with
  | [] => d
  | x :: xs => fold_left max xs x
  end.

(** [sum(iterable)]: left to right from the integer 0. *)
Definition sum (l : list Q) : Q := fold_left Qplus l 0.

(** [sum(1 for x in l if p(x))]. *)
Definition sum_ones {A : Type} (p : A -> bool) (l : list A) : Z :=
  fold_left (fun acc x => if p x then (acc + 1)%Z else acc) l 0%Z.

(** [len(l)]. *)
Definition len {A : Type} (l : list A) : Z := Z.of_nat (List.length l).

(** Nearest integer, ties to the even neighbour. *)
Definition round_half_even (x : Q) : Z :=
  let f := Qfloor x in
  match Qcompare (x - inject_Z f) (1 # 2) with
  | Lt => f
  | Gt => (f + 1)%Z
  | Eq => if Z.even f then f else (f + 1)%Z
  end.

(** [round(x, ndigits)] on a float: the decimal with [ndigits] places
    nearest to [x], ties to even. *)
Definition round (x : Q) (ndigits : nat) : Q :=
  let p := inject_Z (10 ^ Z.of_nat ndigits) in
  Qred (inject_Z (round_half_even (x * p)) / p).

(** [s in (a, b, ...)] on strings. *)
Definition str_in (s : string) (l : list string) : bool :=
  existsb (String.eqb s) l.

End Py.

(** ** [crpl/types.py] *)

(** [TypingEvent]: a dataclass of two strings and a float. *)
Record TypingEvent : Type := mkTypingEvent {
  event_type : string;
  char : string;
  timestamp : Q
}.

Inductive RhythmType : Type :=
| STEADY_FAST | BURST_FAST | ERRATIC_FAST
| STEADY_SLOW | HESITANT | LABORED
| FLUID | MEASURED | UNEVEN
| BALANCED.

Inductive FluencyLevel : Type :=
| VERY_FLUENT | FLUENT | NORMAL | FL_HESITANT.

Inductive PausePattern : Type :=
| CONTINUOUS | CHOPPY | THOUGHTFUL | CONTEMPLATIVE | MIXED.

(** The [.value] of each enumeration member. *)
Definition RhythmType_value (r : RhythmType) : string :=
  match r with
  | STEADY_FAST => "steady_fast"
  | BURST_FAST => "burst_fast"
  | ERRATIC_FAST => "erratic_fast"
  | STEADY_SLOW => "steady_slow"
  | HESITANT => "hesitant"
  | LABORED => "labored"
  | FLUID => "fluid"
  | MEASURED => "measured"
  | UNEVEN => "uneven"
  | BALANCED => "balanced"
  end%string.

Definition FluencyLevel_value (f : FluencyLevel) : string :=
  match f with
  | VERY_FLUENT => "very_fluent"
  | FLUENT => "fluent"
  | NORMAL => "normal"
  | FL_HESITANT => "hesitant"
  end%string.

Definition PausePattern_value (p : PausePattern) : string :=
  match p with
  | CONTINUOUS => "continuous"
  | CHOPPY => "choppy"
  | THOUGHTFUL => "thoughtful"
  | CONTEMPLATIVE => "contemplative"
  | MIXED => "mixed"
  end%string.

(** ** The result dictionaries of [crpl/detector.py] *)

(** The value of ["pause_pattern"]. *)
Record PauseInfo : Type := mkPauseInfo {
  short_pauses : Z;
  medium_pauses : Z;
  long_pauses : Z;
  pattern : string
}.

(** The value of ["text_rhythm"]. *)
Record TextRhythm : Type := mkTextRhythm {
  sentence_count : Z;
  avg_sentence_length : Q;
  punctuation_rate : Q;
  rhythm_category : string
}.

(** An element of ["deletion_patterns"]. *)
Record DeletionPattern : Type := mkDeletionPattern {
  dp_type : string;
  dp_length : Z
}.

(** An element of ["burst_segments"]. *)
Record BurstSegment : Type := mkBurstSegment {
  bs_start : Z;
  bs_length : Z;
  bs_avg_speed : Q
}.

(** An element of ["hesitations"]. *)
Record Hesitation : Type := mkHesitation {
  hs_location : Z;
  hs_duration : Q;
  hs_severity : string
}.

(** An element of ["typing_trajectory"]. *)
Record TrajectoryPoint : Type := mkTrajectoryPoint {
  tp_type : string;
  tp_char : string;
  tp_time : Q
}.

(** The dictionary returned by [finish_monitoring]. *)
Record Profile : Type := mkProfile {
  p_timestamp : string;
  duration_seconds : Q;
  chars_per_minute : Q;
  pause_pattern : PauseInfo;
  consistency : Q;
  text_rhythm : TextRhythm;
  rhythm_type : string;
  total_keystrokes : Z;
  actual_chars : Z;
  avg_interval : Q;
  deletion_count : Z;
  deletion_ratio : Q;
  deletion_patterns : list DeletionPattern;
  modification_count : Z;
  modifications : list unit;
  burst_count : Z;
  burst_segments : list BurstSegment;
  max_burst_speed : Q;
  hesitation_count : Z;
  hesitation_locations : list Z;
  hesitations : list Hesitation;
  fluency_score : Q;
  fluency_level : string;
  typing_trajectory : list TrajectoryPoint;
  keystroke_ratio : Q
}.

(** The final text is a Python [str]: a sequence of code points. *)
Definition text : Type := list N.

Definition text_of_string (s : string) : text :=
  map N_of_ascii (list_ascii_of_string s).

(** ** [crpl/detector.py]: class [RhythmDetector] *)

(** The instance attributes set by [__init__]. *)
Record RhythmDetector : Type := mkRhythmDetector {
  events : list TypingEvent;
  is_monitoring : bool;
  start_time : option Q
}.

(** [__init__]. *)
Definition __init__ : RhythmDetector :=
  {| events := []; is_monitoring := false; start_time := None |}.

(** Class constants. *)
Definition SHORT_PAUSE_MIN : Q := 2.0.
Definition SHORT_PAUSE_MAX : Q := 5.0.
Definition MEDIUM_PAUSE_MIN : Q := 5.0.
Definition MEDIUM_PAUSE_MAX : Q := 15.0.
Definition LONG_PAUSE_MIN : Q := 15.0.
Definition HESITATION_THRESHOLD : Q := 3.0.
Definition BURST_INTERVAL_MAX : Q := 0.15.
Definition BURST_MIN_LENGTH : Z := 5.

(** [start_monitoring]; [now] is the value of [time.time()]. *)
Definition start_monitoring (now : Q) (self : RhythmDetector) : RhythmDetector :=
  {| events := []; is_monitoring := true; start_time := Some now |}.

(** [record_keystroke]; [now] is the value of [time.time()]. *)
Definition record_keystroke (now : Q) (c : string) (ty : string)
    (self : RhythmDetector) : RhythmDetector :=
  if negb (is_monitoring self) then self
  else
    {| events := events self ++ [mkTypingEvent ty c now];
       is_monitoring := is_monitoring self;
       start_time := start_time self |}.

(** Truth value of [self.start_time]: [None] and [0.0] are false. *)
Definition start_time_truthy (t : option Q) : bool :=
  match t with
  | None => false
  | Some v => negb (Py.eqb v 0)
  end.

(** The interval loop of [_analyze]:
    [type_events[i].timestamp - type_events[i-1].timestamp] for
    [i] in [range(1, len(type_events))]. *)
Fixpoint intervals_of (type_events : list TypingEvent) : list Q :=
  match type_events with
  | [] => []
  | prev :: rest =>
      match rest with
      | [] => []
      | cur :: _ => (timestamp cur - timestamp prev) :: intervals_of rest
      end
  end.

Definition _analyze_pauses (intervals : list Q) : PauseInfo :=
  let short_pauses :=
    Py.sum_ones (fun i => Py.geb i SHORT_PAUSE_MIN && Py.ltb i SHORT_PAUSE_MAX)
      intervals in
  let medium_pauses :=
    Py.sum_ones (fun i => Py.geb i MEDIUM_PAUSE_MIN && Py.ltb i MEDIUM_PAUSE_MAX)
      intervals in
  let long_pauses := Py.sum_ones (fun i => Py.geb i LONG_PAUSE_MIN) intervals in
  let pattern :=
    if (long_pauses >? 0)%Z then CONTEMPLATIVE
    else if (medium_pauses >? 0)%Z then THOUGHTFUL
    else if (short_pauses >? 0)%Z then CHOPPY
    else CONTINUOUS in
  {| short_pauses := short_pauses;
     medium_pauses := medium_pauses;
     long_pauses := long_pauses;
     pattern := PausePattern_value pattern |}.

(** The pattern loop of [_analyze_deletions]: [patterns] and [consecutive]
    are the two loop variables. *)
Fixpoint deletion_scan (evs : list TypingEvent)
    (patterns : list DeletionPattern) (consecutive : Z) : list DeletionPattern :=
  match evs with
  | [] => patterns
  | e :: rest =>
      if Py.str_in (event_type e) ["backspace"; "delete"]%string
      then deletion_scan rest patterns (consecutive + 1)%Z
      else
        deletion_scan rest
          (if (consecutive >=? 3)%Z
           then patterns ++ [mkDeletionPattern "consecutive" consecutive]
           else patterns)
          0%Z
  end.

Definition _analyze_deletions (self : RhythmDetector)
    : Z * Q * list DeletionPattern :=
  let deletion_events :=
    filter (fun e => Py.str_in (event_type e)
                       ["backspace"; "delete"; "composition_delete"]%string)
           (events self) in
  let deletion_count := Py.len deletion_events in
  let deletion_ratio :=
    match events self with
    | [] => 0
    | _ => inject_Z deletion_count / inject_Z (Py.len (events self))
    end in
  (deletion_count, deletion_ratio, deletion_scan (events self) [] 0%Z).

Definition _analyze_modifications (self : RhythmDetector) : Z * list unit :=
  let mod_events :=
    filter (fun e => String.eqb (event_type e) "selection") (events self) in
  (Py.len mod_events, []).

(** The loop variables of [_detect_bursts]. *)
Record BurstScan : Type := mkBurstScan {
  bursts : list BurstSegment;
  current_burst_length : Z;
  current_burst_time : Q;
  burst_start : Z
}.

(** The record appended when a burst is long enough. *)
Definition burst_record (s : BurstScan) : BurstSegment :=
  let avg_speed :=
    if Py.gtb (current_burst_time s) 0
    then inject_Z (current_burst_length s) / current_burst_time s
    else 0 in
  {| bs_start := burst_start s;
     bs_length := current_burst_length s;
     bs_avg_speed := Py.round avg_speed 1 |}.

(** The [for i, interval in enumerate(intervals)] loop. *)
Fixpoint burst_loop (i : Z) (intervals : list Q) (s : BurstScan) : BurstScan :=
  match intervals with
  | [] => s
  | interval :: rest =>
      burst_loop (i + 1)%Z rest
        (if Py.ltb interval BURST_INTERVAL_MAX
         then
           {| bursts := bursts s;
              current_burst_length := (current_burst_length s + 1)%Z;
              current_burst_time := current_burst_time s + interval;
              burst_start :=
                if (current_burst_length s =? 0)%Z then i else burst_start s |}
         else
           {| bursts :=
                if (current_burst_length s >=? BURST_MIN_LENGTH)%Z
                then bursts s ++ [burst_record s]
                else bursts s;
              current_burst_length := 0%Z;
              current_burst_time := 0;
              burst_start := burst_start s |})
  end.

Definition _detect_bursts (intervals : list Q) : Z * list BurstSegment * Q :=
  let s := burst_loop 0%Z intervals (mkBurstScan [] 0%Z 0 0%Z) in
  let bursts :=
    if (current_burst_length s >=? BURST_MIN_LENGTH)%Z
    then bursts s ++ [burst_record s]
    else bursts s in
  let max_speed := Py.max_default (map bs_avg_speed bursts) 0 in
  (Py.len bursts, bursts, max_speed).

(** The loop of [_map_hesitations]; the two lists grow together. *)
Fixpoint hesitation_loop (i : Z) (intervals : list Q)
    (locations : list Z) (hesitations : list Hesitation)
    : list Z * list Hesitation :=
  match intervals with
  | [] => (locations, hesitations)
  | interval :: rest =>
      if Py.geb interval HESITATION_THRESHOLD
      then
        let severity :=
          if Py.geb interval 10 then "very_long"
          else if Py.geb interval 5 then "long"
          else "medium" in
        hesitation_loop (i + 1)%Z rest
          (locations ++ [i])
          (hesitations ++ [mkHesitation i (Py.round interval 2) severity])
      else hesitation_loop (i + 1)%Z rest locations hesitations
  end%string.

Definition _map_hesitations (intervals : list Q)
    : Z * list Z * list Hesitation :=
  let '(locations, hesitations) := hesitation_loop 0%Z intervals [] [] in
  (Py.len hesitations, locations, hesitations).

Definition _calculate_fluency (consistency deletion_ratio : Q)
    (pause_pattern : PauseInfo) (hesitation_count : Z) : Q * string :=
  let stability_score := consistency in
  let deletion_score := Py.max 0 (1 - deletion_ratio * 2) in
  let pause_penalty :=
    inject_Z (short_pauses pause_pattern
              + medium_pauses pause_pattern * 2
              + long_pauses pause_pattern * 3) / 10 in
  let pause_score := Py.max 0 (1 - pause_penalty) in
  let hesitation_score := Py.max 0 (1 - inject_Z hesitation_count / 5) in
  let fluency_score :=
    0.30 * stability_score + 0.30 * deletion_score
    + 0.20 * pause_score + 0.20 * hesitation_score in
  let level :=
    if Py.geb fluency_score 0.8 then VERY_FLUENT
    else if Py.geb fluency_score 0.6 then FLUENT
    else if Py.geb fluency_score 0.4 then NORMAL
    else FL_HESITANT in
  (fluency_score, FluencyLevel_value level).

Definition _classify_rhythm_type (cpm consistency : Q) (pause_pattern : string)
    : string :=
  if Py.gtb cpm 120 then
    if Py.gtb consistency 0.7 then
      if String.eqb pause_pattern "continuous"
      then RhythmType_value STEADY_FAST
      else RhythmType_value BURST_FAST
    else RhythmType_value ERRATIC_FAST
  else if Py.ltb cpm 60 then
    if Py.gtb consistency 0.7 then RhythmType_value STEADY_SLOW
    else if Py.str_in pause_pattern ["thoughtful"; "contemplative"]%string
    then RhythmType_value HESITANT
    else RhythmType_value LABORED
  else
    if Py.gtb consistency 0.7 then RhythmType_value FLUID
    else if String.eqb pause_pattern "thoughtful"
    then RhythmType_value MEASURED
    else RhythmType_value UNEVEN.

(** *** Text rhythm *)

(** The character class [[.!?。！？]] of the sentence splitter. *)
Definition is_sentence_end (c : N) : bool :=
  existsb (N.eqb c) [46; 33; 63; 12290; 65281; 65311]%N.

(** The character class [[.,!?;:，。！？；：～~]] of the punctuation count. *)
Definition is_punctuation (c : N) : bool :=
  existsb (N.eqb c)
    [46; 44; 33; 63; 59; 58; 65292; 12290; 65281; 65311; 65307; 65306;
     65374; 126]%N.

(** The characters removed by [str.strip()]. *)
Definition is_space (c : N) : bool :=
  ((9 <=? c) && (c <=? 13) || (28 <=? c) && (c <=? 32)
   || (c =? 133) || (c =? 160) || (c =? 5760)
   || (8192 <=? c) && (c <=? 8202)
   || (c =? 8232) || (c =? 8233) || (c =? 8239) || (c =? 8287)
   || (c =? 12288))%N.

(** [re.split(r'[.!?。！？]+', text)]: [piece] is the fragment being read,
    [in_match] tells whether the previous character was a separator. *)
Fixpoint re_split (t : text) (piece : text) (in_match : bool) : list text :=
  match t with
  | [] => [piece]
  | c :: rest =>
      if is_sentence_end c
      then if in_match then re_split rest [] true
           else piece :: re_split rest [] true
      else re_split rest (piece ++ [c]) false
  end.

Fixpoint lstrip (t : text) : text :=
  match t with
  | [] => []
  | c :: rest => if is_space c then lstrip rest else t
  end.

Definition strip (t : text) : text := rev (lstrip (rev (lstrip t))).

(** Truth value of a string: non-empty. *)
Definition str_truthy (t : text) : bool :=
  match t with [] => false | _ => true end.

Definition _analyze_text_rhythm (txt : text) : TextRhythm :=
  let sentences := re_split txt [] false in
  let sentences := map strip (filter (fun s => str_truthy (strip s)) sentences) in
  let sentence_count :=
    if (Py.len sentences =? 0)%Z then 1%Z else Py.len sentences in
  let avg_sentence_length := inject_Z (Py.len txt) / inject_Z sentence_count in
  let punctuation := filter is_punctuation txt in
  let punctuation_rate :=
    if str_truthy txt
    then inject_Z (Py.len punctuation) / inject_Z (Py.len txt)
    else 0 in
  let category :=
    if Py.ltb avg_sentence_length 20 && Py.ltb punctuation_rate 0.05
    then "concise"
    else if Py.ltb avg_sentence_length 20 && Py.geb punctuation_rate 0.05
    then "staccato"
    else if Py.geb avg_sentence_length 50 && Py.ltb punctuation_rate 0.05
    then "flowing"
    else if Py.geb avg_sentence_length 50 && Py.geb punctuation_rate 0.08
    then "complex"
    else if Py.geb punctuation_rate 0.08
    then "punctuated"
    else "balanced" in
  {| sentence_count := sentence_count;
     avg_sentence_length := Py.round avg_sentence_length 1;
     punctuation_rate := Py.round punctuation_rate 3;
     rhythm_category := category |}%string.

(** *** The empty result *)

(** [_empty_result]; [now_iso] is [datetime.now().isoformat()]. *)
Definition _empty_result (now_iso : string) : Profile :=
  {| p_timestamp := now_iso;
     duration_seconds := 0;
     chars_per_minute := 0;
     pause_pattern :=
       {| short_pauses := 0; medium_pauses := 0; long_pauses := 0;
          pattern := "continuous" |};
     consistency := 0;
     text_rhythm :=
       {| sentence_count := 0; avg_sentence_length := 0;
          punctuation_rate := 0; rhythm_category := "balanced" |};
     rhythm_type := "balanced";
     total_keystrokes := 0;
     actual_chars := 0;
     avg_interval := 0;
     deletion_count := 0;
     deletion_ratio := 0;
     deletion_patterns := [];
     modification_count := 0;
     modifications := [];
     burst_count := 0;
     burst_segments := [];
     max_burst_speed := 0;
     hesitation_count := 0;
     hesitation_locations := [];
     hesitations := [];
     fluency_score := 0;
     fluency_level := "normal";
     typing_trajectory := [];
     keystroke_ratio := 0 |}%string.

(** *** The analysis *)

Section Detector.

(** [math.sqrt]. *)
Variable sqrt : Q -> Q.

Definition _calculate_consistency (intervals : list Q) : Q :=
  if (Py.len intervals <? 2)%Z then 0.0
  else
    let mean := Py.sum intervals / inject_Z (Py.len intervals) in
    if Py.eqb mean 0 then 0.0
    else
      let variance :=
        Py.sum (map (fun x => (x - mean) ^ 2) intervals)
        / inject_Z (Py.len intervals) in
      let std_dev := sqrt variance in
      let cv := std_dev / mean in
      Py.max 0.0 (Py.min 1.0 (1 - cv / 2)).

(** The intervals of a session: the filter and the interval loop at the
    head of [_analyze]. *)
Definition session_intervals (self : RhythmDetector) : list Q :=
  let type_events :=
    filter (fun e => Py.str_in (event_type e)
                       ["type"; "composition"; "composition_confirm"]%string)
           (events self) in
  intervals_of type_events.

(** [_analyze].  [start] is the float held by [self.start_time] (the guard
    of [finish_monitoring] excludes [None]); [now_iso] is
    [datetime.now().isoformat()]. *)
Definition _analyze (self : RhythmDetector) (start : Q) (final_text : text)
    (end_time : Q) (now_iso : string) : Profile :=
  let duration := end_time - start in
  let total_keystrokes := Py.len (events self) in
  let actual_chars := Py.len final_text in
  let intervals := session_intervals self in
  let avg_interval :=
    match intervals with
    | [] => 0
    | _ => Py.sum intervals / inject_Z (Py.len intervals)
    end in
  let cpm :=
    if Py.gtb duration 0 then inject_Z actual_chars / duration * 60 else 0 in
  let consistency := _calculate_consistency intervals in
  let pause_pattern := _analyze_pauses intervals in
  let '(deletion_count, deletion_ratio, deletion_patterns) :=
    _analyze_deletions self in
  let '(modification_count, modifications) := _analyze_modifications self in
  let '(burst_count, burst_segments, max_burst_speed) :=
    _detect_bursts intervals in
  let '(hesitation_count, hesitation_locations, hesitations) :=
    _map_hesitations intervals in
  let '(fluency_score, fluency_level) :=
    _calculate_fluency consistency deletion_ratio pause_pattern
      hesitation_count in
  let rhythm_type :=
    _classify_rhythm_type cpm consistency (pattern pause_pattern) in
  let text_rhythm := _analyze_text_rhythm final_text in
  let keystroke_ratio :=
    if (actual_chars >? 0)%Z
    then inject_Z total_keystrokes / inject_Z actual_chars
    else 0 in
  {| p_timestamp := now_iso;
     duration_seconds := Py.round duration 2;
     chars_per_minute := Py.round cpm 1;
     pause_pattern := pause_pattern;
     consistency := Py.round consistency 3;
     text_rhythm := text_rhythm;
     rhythm_type := rhythm_type;
     total_keystrokes := total_keystrokes;
     actual_chars := actual_chars;
     avg_interval := Py.round avg_interval 3;
     deletion_count := deletion_count;
     deletion_ratio := Py.round deletion_ratio 3;
     deletion_patterns := deletion_patterns;
     modification_count := modification_count;
     modifications := modifications;
     burst_count := burst_count;
     burst_segments := burst_segments;
     max_burst_speed := Py.round max_burst_speed 1;
     hesitation_count := hesitation_count;
     hesitation_locations := hesitation_locations;
     hesitations := hesitations;
     fluency_score := Py.round fluency_score 3;
     fluency_level := fluency_level;
     typing_trajectory :=
       map (fun e => mkTrajectoryPoint (event_type e) (char e) (timestamp e))
           (events self);
     keystroke_ratio := Py.round keystroke_ratio 2 |}.

(** [finish_monitoring]; [end_time] is the value of [time.time()] and
    [now_iso] that of [datetime.now().isoformat()].  The result is the
    detector after the call and the returned dictionary. *)
Definition finish_monitoring (end_time : Q) (now_iso : string)
    (final_text : text) (self : RhythmDetector) : RhythmDetector * Profile :=
  let self' :=
    {| events := events self; is_monitoring := false;
       start_time := start_time self |} in
  match events self', start_time self' with
  | [], _ => (self', _empty_result now_iso)
  | _ :: _, None => (self', _empty_result now_iso)
  | _ :: _, Some start =>
      if negb (start_time_truthy (Some start))
      then (self', _empty_result now_iso)
      else (self', _analyze self' start final_text end_time now_iso)
  end.

End Detector.

(** ** Notions of the specification *)

(** A rational stand-in for [math.sqrt], exact to fifteen decimals, used
    where a closed example needs a concrete function. *)
Definition sqrt_approx (q : Q) : Q :=
  Z.sqrt (Qfloor (q * inject_Z (10 ^ 30))) # 10 ^ 15.

(** The fixed default of an empty session, field by field. *)
Definition is_empty_default (p : Profile) : Prop :=
  duration_seconds p = 0 /\ chars_per_minute p = 0 /\ consistency p = 0
  /\ avg_interval p = 0 /\ deletion_ratio p = 0 /\ max_burst_speed p = 0
  /\ fluency_score p = 0 /\ keystroke_ratio p = 0
  /\ total_keystrokes p = 0%Z /\ actual_chars p = 0%Z
  /\ deletion_count p = 0%Z /\ modification_count p = 0%Z
  /\ burst_count p = 0%Z /\ hesitation_count p = 0%Z
  /\ short_pauses (pause_pattern p) = 0%Z
  /\ medium_pauses (pause_pattern p) = 0%Z
  /\ long_pauses (pause_pattern p) = 0%Z
  /\ pattern (pause_pattern p) = "continuous"
  /\ sentence_count (text_rhythm p) = 0%Z
  /\ avg_sentence_length (text_rhythm p) = 0
  /\ punctuation_rate (text_rhythm p) = 0
  /\ rhythm_category (text_rhythm p) = "balanced"
  /\ rhythm_type p = "balanced"
  /\ fluency_level p = "normal"
  /\ deletion_patterns p = [] /\ modifications p = []
  /\ burst_segments p = [] /\ hesitation_locations p = []
  /\ hesitations p = [] /\ typing_trajectory p = [].

(** A session that [finish_monitoring] analyses: it has events and a start
    time that Python takes as true. *)
Definition nonempty_session (self : RhythmDetector) : Prop :=
  events self <> [] /\ start_time_truthy (start_time self) = true.

(** [clamp(v, lo, hi)]. *)
Definition clamp (v lo hi : Q) : Q :=
  if Qlt_le_dec v lo then lo else if Qlt_le_dec hi v then hi else v.

(** Mean and population variance (divide by the count) of a sequence. *)
Definition total (l : list Q) : Q := fold_right Qplus 0 l.

Definition mean_of (l : list Q) : Q :=
  total l / inject_Z (Z.of_nat (List.length l)).

Definition population_variance (l : list Q) : Q :=
  total (map (fun x => (x - mean_of l) * (x - mean_of l)) l)
  / inject_Z (Z.of_nat (List.length l)).

(** The consistency score as the specification words it. *)
Definition consistency_spec (sqrt : Q -> Q) (l : list Q) : Q :=
  if (List.length l <? 2)%nat then 0
  else if Qeq_dec (mean_of l) 0 then 0
  else clamp (1 - (sqrt (population_variance l) / mean_of l) / 2) 0 1.

(** The pause buckets, in seconds. *)
Definition short_pause (i : Q) : Prop := 2 <= i /\ i < 5.
Definition medium_pause (i : Q) : Prop := 5 <= i /\ i < 15.
Definition long_pause (i : Q) : Prop := 15 <= i.

Definition short_pauseb (i : Q) : bool := Qle_bool 2 i && negb (Qle_bool 5 i).
Definition medium_pauseb (i : Q) : bool := Qle_bool 5 i && negb (Qle_bool 15 i).
Definition long_pauseb (i : Q) : bool := Qle_bool 15 i.

(** A run of consecutive intervals below 150 ms: the index of its first
    interval and the intervals themselves. *)
Record Run : Type := mkRun {
  run_start : Z;
  run_items : list Q
}.

Definition open_run (cur : option Run) : list Run :=
  match cur with
  | Some r => [r]
  | None => []
  end.

(** The maximal runs of a sequence, left to right; [cur] is the run being
    read and [i] the index of the next interval. *)
Fixpoint fast_runs_from (i : Z) (intervals : list Q) (cur : option Run)
    : list Run :=
  match intervals with
  | [] => open_run cur
  | x :: rest =>
      if Qlt_le_dec x (15 # 100)
      then
        fast_runs_from (i + 1)%Z rest
          (Some match cur with
                | Some r => mkRun (run_start r) (run_items r ++ [x])
                | None => mkRun i [x]
                end)
      else open_run cur ++ fast_runs_from (i + 1)%Z rest None
  end.

Definition fast_runs (intervals : list Q) : list Run :=
  fast_runs_from 0%Z intervals None.

(** Speed of a run at full precision: keystrokes per second, 0 when the
    cumulative time is not positive. *)
Definition run_speed (r : Run) : Q :=
  if Qlt_le_dec 0 (Py.sum (run_items r))
  then inject_Z (Py.len (run_items r)) / Py.sum (run_items r)
  else 0.

(** The segment of a run, its speed passed through [rnd]. *)
Definition segment_of_run (rnd : Q -> Q) (r : Run) : BurstSegment :=
  {| bs_start := run_start r;
     bs_length := Py.len (run_items r);
     bs_avg_speed := rnd (run_speed r) |}.

(** The bursts of a sequence: its maximal runs of at least five intervals. *)
Definition bursts_of (rnd : Q -> Q) (intervals : list Q) : list BurstSegment :=
  map (segment_of_run rnd)
      (filter (fun r => (5 <=? Py.len (run_items r))%Z) (fast_runs intervals)).

(** The profile with its generation time erased. *)
Definition without_timestamp (p : Profile) : Profile :=
  {| p_timestamp := EmptyString;
     duration_seconds := duration_seconds p;
     chars_per_minute := chars_per_minute p;
     pause_pattern := pause_pattern p;
     consistency := consistency p;
     text_rhythm := text_rhythm p;
     rhythm_type := rhythm_type p;
     total_keystrokes := total_keystrokes p;
     actual_chars := actual_chars p;
     avg_interval := avg_interval p;
     deletion_count := deletion_count p;
     deletion_ratio := deletion_ratio p;
     deletion_patterns := deletion_patterns p;
     modification_count := modification_count p;
     modifications := modifications p;
     burst_count := burst_count p;
     burst_segments := burst_segments p;
     max_burst_speed := max_burst_speed p;
     hesitation_count := hesitation_count p;
     hesitation_locations := hesitation_locations p;
     hesitations := hesitations p;
     fluency_score := fluency_score p;
     fluency_level := fluency_level p;
     typing_trajectory := typing_trajectory p;
     keystroke_ratio := keystroke_ratio p |}.

(** A log of events of the given types, one every [dt] seconds from [t0]. *)
Fixpoint log_of (tys : list string) (t0 dt : Q) : list TypingEvent :=
  match tys with
  | [] => []
  | ty :: rest => mkTypingEvent ty EmptyString t0 :: log_of rest (Qred (t0 + dt)) dt
  end.

(** What the closing test of [_detect_bursts] leaves in [bursts]. *)
Definition close_burst (s : BurstScan) : list BurstSegment :=
  if (current_burst_length s >=? BURST_MIN_LENGTH)%Z
  then bursts s ++ [burst_record s]
  else bursts s.

(** The loop variables describe the run being read. *)
Definition scan_reads (s : BurstScan) (cur : option Run) : Prop :=
  match cur with
  | None => current_burst_length s = 0%Z /\ current_burst_time s = 0
  | Some r =>
      current_burst_length s = Py.len (run_items r)
      /\ run_items r <> []
      /\ current_burst_time s = Py.sum (run_items r)
      /\ burst_start s = run_start r
  end.

(** [round(v, 1)], the rounding of a segment's speed. *)
Definition round1 (v : Q) : Q := Py.round v 1.

(** A run long enough to be a burst: [BURST_MIN_LENGTH] intervals. *)
Definition long_run (r : Run) : bool := (5 <=? Py.len (run_items r))%Z.

(** The maximal speed at full precision: over the long runs. *)
Definition max_run_speed (intervals : list Q) : Q :=
  Py.max_default (map run_speed (filter long_run (fast_runs intervals))) 0.

(** A run sits in the sequence at its start index, with an interval of at
    least 150 ms (or nothing) on either side. *)
Definition run_at (intervals : list Q) (r : Run) : Prop :=
  exists before after,
    intervals = before ++ run_items r ++ after
    /\ run_start r = Py.len before
    /\ (before = [] \/ exists b y, before = b ++ [y] /\ 0.15 <= y)
    /\ (after = [] \/ exists y a, after = y :: a /\ 0.15 <= y).

(** The severity of a hesitation of [x] seconds. *)
Definition severity_of (x : Q) : string :=
  if Qle_bool 10 x then "very_long"
  else if Qle_bool 5 x then "long"
  else "medium".

(** [enumerate(intervals)] from index [i]. *)
Fixpoint indexed_from (i : Z) (l : list Q) : list (Z * Q) :=
  match l with
  | [] => []
  | x :: rest => (i, x) :: indexed_from (i + 1)%Z rest
  end.

(** The intervals of at least three seconds, with their indices. *)
Definition hesitation_points (intervals : list Q) : list (Z * Q) :=
  filter (fun ix => Qle_bool 3 (snd ix)) (indexed_from 0%Z intervals).

(** The record of a hesitation: its index, its duration to two decimals
    and its severity. *)
Definition hesitation_record (ix : Z * Q) : Hesitation :=
  mkHesitation (fst ix) (Py.round (snd ix) 2) (severity_of (snd ix)).

(** The score of [_calculate_fluency] as the specification words it. *)
Definition fluency_formula (c dr : Q) (s m l h : Z) : Q :=
  0.30 * c
  + 0.30 * Qmax 0 (1 - 2 * dr)
  + 0.20 * Qmax 0 (1 - inject_Z (s + 2 * m + 3 * l) / 10)
  + 0.20 * Qmax 0 (1 - inject_Z h / 5).

(** The level bands, lower bounds included. *)
Definition fluency_band (score : Q) : string :=
  if Qle_bool 0.8 score then "very_fluent"
  else if Qle_bool 0.6 score then "fluent"
  else if Qle_bool 0.4 score then "normal"
  else "hesitant".

(** The events that extend a run of deletions. *)
Definition is_deletion_key (e : TypingEvent) : bool :=
  Py.str_in (event_type e) ["backspace"; "delete"].

(** The detectors that calls of the public methods can produce. *)
Inductive reachable : RhythmDetector -> Prop :=
| reach_init : reachable __init__
| reach_start now self :
    reachable self -> reachable (start_monitoring now self)
| reach_record now c ty self :
    reachable self -> reachable (record_keystroke now c ty self)
| reach_finish sqrt end_time now_iso final_text self :
    reachable self ->
    reachable (fst (finish_monitoring sqrt end_time now_iso final_text self)).

(** ** Notions used for the rest of the detector *)

(** One call of [record_keystroke]: the clock reading, the character and
    the event type. *)
Record Keystroke : Type := mkKeystroke {
  k_time : Q;
  k_char : string;
  k_type : string
}.

(** The event that a call records. *)
Definition event_of (k : Keystroke) : TypingEvent :=
  mkTypingEvent (k_type k) (k_char k) (k_time k).

(** A sequence of calls of [record_keystroke], in order. *)
Definition record_all (ks : list Keystroke) (self : RhythmDetector)
    : RhythmDetector :=
  fold_left (fun s k => record_keystroke (k_time k) (k_char k) (k_type k) s)
            ks self.

(** The event a trajectory point stands for. *)
Definition point_event (tp : TrajectoryPoint) : TypingEvent :=
  mkTypingEvent (tp_type tp) (tp_char tp) (tp_time tp).

(** The three filters of the analysis. *)
Definition is_typing (e : TypingEvent) : bool :=
  Py.str_in (event_type e) ["type"; "composition"; "composition_confirm"].

Definition is_deletion (e : TypingEvent) : bool :=
  Py.str_in (event_type e) ["backspace"; "delete"; "composition_delete"].

Definition is_selection (e : TypingEvent) : bool :=
  String.eqb (event_type e) "selection".

(** The keystrokes covered by a list of deletion patterns. *)
Definition pattern_lengths (ps : list DeletionPattern) : Z :=
  fold_right Z.add 0%Z (map dp_length ps).

(** Segments laid out left to right inside the index range [lo, hi]: each
    one starts at or after [lo] and ends at or before [hi], and the next
    one starts after a gap of at least one interval. *)
Fixpoint segments_within (lo hi : Z) (segs : list BurstSegment) : Prop :=
  match segs with
  | [] => True
  | s :: rest =>
      (lo <= bs_start s)%Z
      /\ (bs_start s + bs_length s <= hi)%Z
      /\ segments_within (bs_start s + bs_length s + 1) hi rest
  end.

(** ** Binary64 arithmetic *)

(** The stored digits of a profile and the tests on a threshold depend on
    how Python rounds every float operation to binary64.  [F] gives that
    rounding on the rationals: a float is the rational it denotes, and an
    operation is the exact operation followed by [F.b64].  Overflow is left
    out (no session reaches 1.8e308); subnormal numbers are rounded as
    binary64 does. *)

Module F.

(** [2^1074]: every binary64 number is an integer multiple of [2^-1074]. *)
Definition scale : Z := 2 ^ 1074.

(** For [a = |x| * 2^1074 >= 0], the exponent of the unit in the last place
    of the 53-bit number nearest to [a]. *)
Definition ulp_exp (a : Q) : Z := Z.max 0 (Z.log2 (Qfloor a) - 52).

(** The multiple of [2^(ulp_exp a)] nearest to [a], ties to even. *)
Definition round_pos (a : Q) : Z :=
  let k := ulp_exp a in
  (Py.round_half_even (a / inject_Z (2 ^ k)) * 2 ^ k)%Z.

(** Round to nearest binary64, ties to even. *)
Definition b64 (x : Q) : Q :=
  if Qlt_le_dec x 0
  then Qred (- (inject_Z (round_pos (- x * inject_Z scale)) / inject_Z scale))
  else Qred (inject_Z (round_pos (x * inject_Z scale)) / inject_Z scale).

(** The unit roundoff [2^-53]: half the distance between 1 and the next
    float. *)
Definition unit_roundoff : Q := 1 # 2 ^ 53.

(** A decimal literal of the source. *)
Definition lit (x : Q) : Q := b64 x.

(** [float(n)]. *)
Definition of_int (n : Z) : Q := b64 (inject_Z n).

(** [a + b], [a - b], [a * b], [a / b] on floats. *)
Definition add (a b : Q) : Q := b64 (a + b).
Definition sub (a b : Q) : Q := b64 (a - b).
Definition mul (a b : Q) : Q := b64 (a * b).
Definition div (a b : Q) : Q := b64 (a / b).

(** [m / n] on two integers: the quotient is rounded once. *)
Definition div_int (m n : Z) : Q := b64 (inject_Z m / inject_Z n).

(** The builtin [sum] on floats, as a plain left-to-right accumulation. *)
Definition sum_fold (l : list Q) : Q := fold_left add l 0.

(** [math.sqrt], to the nearest binary64: the root is first taken to 1200
    binary places. *)
Definition sqrt_b64 (x : Q) : Q :=
  b64 (Z.sqrt (Qfloor (x * inject_Z (4 ^ 1200))) # 2 ^ 1200).

End F.

(** ** [crpl/detector.py] in binary64 *)

(** The functions of the detector that compute on floats, with every float
    operation rounded to binary64.  The stages that only compare intervals
    with whole numbers of seconds ([_analyze_pauses], [_map_hesitations])
    and those that only count events are the ones given above. *)

Module B64.

Definition BURST_INTERVAL_MAX : Q := F.lit 0.15.

(** The interval loop of [_analyze]. *)
Fixpoint intervals_of (type_events : list TypingEvent) : list Q :=
  match type_events with
  | [] => []
  | prev :: rest =>
      match rest with
      | [] => []
      | cur :: _ => F.sub (timestamp cur) (timestamp prev) :: intervals_of rest
      end
  end.

Definition _analyze_deletions (self : RhythmDetector)
    : Z * Q * list DeletionPattern :=
  let deletion_events :=
    filter (fun e => Py.str_in (event_type e)
                       ["backspace"; "delete"; "composition_delete"]%string)
           (events self) in
  let deletion_count := Py.len deletion_events in
  let deletion_ratio :=
    match events self with
    | [] => 0
    | _ => F.div_int deletion_count (Py.len (events self))
    end in
  (deletion_count, deletion_ratio, deletion_scan (events self) [] 0%Z).

(** The record appended when a burst is long enough. *)
Definition burst_record (s : BurstScan) : BurstSegment :=
  let avg_speed :=
    if Py.gtb (current_burst_time s) 0
    then F.div (F.of_int (current_burst_length s)) (current_burst_time s)
    else 0 in
  {| bs_start := burst_start s;
     bs_length := current_burst_length s;
     bs_avg_speed := Py.round avg_speed 1 |}.

(** The [for i, interval in enumerate(intervals)] loop. *)
Fixpoint burst_loop (i : Z) (intervals : list Q) (s : BurstScan) : BurstScan :=
  match intervals with
  | [] => s
  | interval :: rest =>
      burst_loop (i + 1)%Z rest
        (if Py.ltb interval BURST_INTERVAL_MAX
         then
           {| bursts := bursts s;
              current_burst_length := (current_burst_length s + 1)%Z;
              current_burst_time := F.add (current_burst_time s) interval;
              burst_start :=
                if (current_burst_length s =? 0)%Z then i else burst_start s |}
         else
           {| bursts :=
                if (current_burst_length s >=? BURST_MIN_LENGTH)%Z
                then bursts s ++ [burst_record s]
                else bursts s;
              current_burst_length := 0%Z;
              current_burst_time := 0;
              burst_start := burst_start s |})
  end.

Definition _detect_bursts (intervals : list Q) : Z * list BurstSegment * Q :=
  let s := burst_loop 0%Z intervals (mkBurstScan [] 0%Z 0 0%Z) in
  let bursts :=
    if (current_burst_length s >=? BURST_MIN_LENGTH)%Z
    then bursts s ++ [burst_record s]
    else bursts s in
  let max_speed := Py.max_default (map bs_avg_speed bursts) 0 in
  (Py.len bursts, bursts, max_speed).

Definition _calculate_fluency (consistency deletion_ratio : Q)
    (pause_pattern : PauseInfo) (hesitation_count : Z) : Q * string :=
  let stability_score := consistency in
  let deletion_score := Py.max 0 (F.sub 1 (F.mul deletion_ratio 2)) in
  let pause_penalty :=
    F.div_int (short_pauses pause_pattern
               + medium_pauses pause_pattern * 2
               + long_pauses pause_pattern * 3) 10 in
  let pause_score := Py.max 0 (F.sub 1 pause_penalty) in
  let hesitation_score := Py.max 0 (F.sub 1 (F.div_int hesitation_count 5)) in
  let fluency_score :=
    F.add (F.add (F.add (F.mul (F.lit 0.30) stability_score)
                        (F.mul (F.lit 0.30) deletion_score))
                 (F.mul (F.lit 0.20) pause_score))
          (F.mul (F.lit 0.20) hesitation_score) in
  let level :=
    if Py.geb fluency_score (F.lit 0.8) then VERY_FLUENT
    else if Py.geb fluency_score (F.lit 0.6) then FLUENT
    else if Py.geb fluency_score (F.lit 0.4) then NORMAL
    else FL_HESITANT in
  (fluency_score, FluencyLevel_value level).

Definition _classify_rhythm_type (cpm consistency : Q) (pause_pattern : string)
    : string :=
  if Py.gtb cpm 120 then
    if Py.gtb consistency (F.lit 0.7) then
      if String.eqb pause_pattern "continuous"
      then RhythmType_value STEADY_FAST
      else RhythmType_value BURST_FAST
    else RhythmType_value ERRATIC_FAST
  else if Py.ltb cpm 60 then
    if Py.gtb consistency (F.lit 0.7) then RhythmType_value STEADY_SLOW
    else if Py.str_in pause_pattern ["thoughtful"; "contemplative"]%string
    then RhythmType_value HESITANT
    else RhythmType_value LABORED
  else
    if Py.gtb consistency (F.lit 0.7) then RhythmType_value FLUID
    else if String.eqb pause_pattern "thoughtful"
    then RhythmType_value MEASURED
    else RhythmType_value UNEVEN.

Definition _analyze_text_rhythm (txt : text) : TextRhythm :=
  let sentences := re_split txt [] false in
  let sentences := map strip (filter (fun s => str_truthy (strip s)) sentences) in
  let sentence_count :=
    if (Py.len sentences =? 0)%Z then 1%Z else Py.len sentences in
  let avg_sentence_length := F.div_int (Py.len txt) sentence_count in
  let punctuation := filter is_punctuation txt in
  let punctuation_rate :=
    if str_truthy txt
    then F.div_int (Py.len punctuation) (Py.len txt)
    else 0 in
  let category :=
    if Py.ltb avg_sentence_length 20 && Py.ltb punctuation_rate (F.lit 0.05)
    then "concise"
    else if Py.ltb avg_sentence_length 20
            && Py.geb punctuation_rate (F.lit 0.05)
    then "staccato"
    else if Py.geb avg_sentence_length 50
            && Py.ltb punctuation_rate (F.lit 0.05)
    then "flowing"
    else if Py.geb avg_sentence_length 50
            && Py.geb punctuation_rate (F.lit 0.08)
    then "complex"
    else if Py.geb punctuation_rate (F.lit 0.08)
    then "punctuated"
    else "balanced" in
  {| sentence_count := sentence_count;
     avg_sentence_length := Py.round avg_sentence_length 1;
     punctuation_rate := Py.round punctuation_rate 3;
     rhythm_category := category |}%string.

Section Detector.

(** The builtin [sum] on a sequence of floats (CPython accumulates them
    left to right up to 3.11 and with a correction term from 3.12 on) and
    [math.sqrt]. *)
Variable fsum : list Q -> Q.
Variable sqrt : Q -> Q.

Definition _calculate_consistency (intervals : list Q) : Q :=
  if (Py.len intervals <? 2)%Z then 0.0
  else
    let mean := F.div (fsum intervals) (F.of_int (Py.len intervals)) in
    if Py.eqb mean 0 then 0.0
    else
      let variance :=
        F.div (fsum (map (fun x => F.mul (F.sub x mean) (F.sub x mean))
                         intervals))
              (F.of_int (Py.len intervals)) in
      let std_dev := sqrt variance in
      let cv := F.div std_dev mean in
      Py.max 0.0 (Py.min 1.0 (F.sub 1 (F.div cv 2))).

Definition session_intervals (self : RhythmDetector) : list Q :=
  let type_events :=
    filter (fun e => Py.str_in (event_type e)
                       ["type"; "composition"; "composition_confirm"]%string)
           (events self) in
  intervals_of type_events.

(** [_analyze]; [start] is the float held by [self.start_time]. *)
Definition _analyze (self : RhythmDetector) (start : Q) (final_text : text)
    (end_time : Q) (now_iso : string) : Profile :=
  let duration := F.sub end_time start in
  let total_keystrokes := Py.len (events self) in
  let actual_chars := Py.len final_text in
  let intervals := session_intervals self in
  let avg_interval :=
    match intervals with
    | [] => 0
    | _ => F.div (fsum intervals) (F.of_int (Py.len intervals))
    end in
  let cpm :=
    if Py.gtb duration 0
    then F.mul (F.div (F.of_int actual_chars) duration) 60
    else 0 in
  let consistency := _calculate_consistency intervals in
  let pause_pattern := _analyze_pauses intervals in
  let '(deletion_count, deletion_ratio, deletion_patterns) :=
    _analyze_deletions self in
  let '(modification_count, modifications) := _analyze_modifications self in
  let '(burst_count, burst_segments, max_burst_speed) :=
    _detect_bursts intervals in
  let '(hesitation_count, hesitation_locations, hesitations) :=
    _map_hesitations intervals in
  let '(fluency_score, fluency_level) :=
    _calculate_fluency consistency deletion_ratio pause_pattern
      hesitation_count in
  let rhythm_type :=
    _classify_rhythm_type cpm consistency (pattern pause_pattern) in
  let text_rhythm := _analyze_text_rhythm final_text in
  let keystroke_ratio :=
    if (actual_chars >? 0)%Z
    then F.div_int total_keystrokes actual_chars
    else 0 in
  {| p_timestamp := now_iso;
     duration_seconds := Py.round duration 2;
     chars_per_minute := Py.round cpm 1;
     pause_pattern := pause_pattern;
     consistency := Py.round consistency 3;
     text_rhythm := text_rhythm;
     rhythm_type := rhythm_type;
     total_keystrokes := total_keystrokes;
     actual_chars := actual_chars;
     avg_interval := Py.round avg_interval 3;
     deletion_count := deletion_count;
     deletion_ratio := Py.round deletion_ratio 3;
     deletion_patterns := deletion_patterns;
     modification_count := modification_count;
     modifications := modifications;
     burst_count := burst_count;
     burst_segments := burst_segments;
     max_burst_speed := Py.round max_burst_speed 1;
     hesitation_count := hesitation_count;
     hesitation_locations := hesitation_locations;
     hesitations := hesitations;
     fluency_score := Py.round fluency_score 3;
     fluency_level := fluency_level;
     typing_trajectory :=
       map (fun e => mkTrajectoryPoint (event_type e) (char e) (timestamp e))
           (events self);
     keystroke_ratio := Py.round keystroke_ratio 2 |}.

(** [finish_monitoring]. *)
Definition finish_monitoring (end_time : Q) (now_iso : string)
    (final_text : text) (self : RhythmDetector) : RhythmDetector * Profile :=
  let self' :=
    {| events := events self; is_monitoring := false;
       start_time := start_time self |} in
  match events self', start_time self' with
  | [], _ => (self', _empty_result now_iso)
  | _ :: _, None => (self', _empty_result now_iso)
  | _ :: _, Some start =>
      if negb (start_time_truthy (Some start))
      then (self', _empty_result now_iso)
      else (self', _analyze self' start final_text end_time now_iso)
  end.

End Detector.

(** *** Notions of the specification, on floats *)

(** The maximal runs of intervals below the float [0.15]. *)
Fixpoint fast_runs_from (i : Z) (intervals : list Q) (cur : option Run)
    : list Run :=
  match intervals with
  | [] => open_run cur
  | x :: rest =>
      if Qlt_le_dec x BURST_INTERVAL_MAX
      then
        fast_runs_from (i + 1)%Z rest
          (Some match cur with
                | Some r => mkRun (run_start r) (run_items r ++ [x])
                | None => mkRun i [x]
                end)
      else open_run cur ++ fast_runs_from (i + 1)%Z rest None
  end.

Definition fast_runs (intervals : list Q) : list Run :=
  fast_runs_from 0%Z intervals None.

(** The time of a run as the loop accumulates it, and its speed before it
    is rounded to one decimal. *)
Definition run_time (r : Run) : Q := fold_left F.add (run_items r) 0.

Definition run_speed (r : Run) : Q :=
  if Qlt_le_dec 0 (run_time r)
  then F.div (F.of_int (Py.len (run_items r))) (run_time r)
  else 0.

Definition segment_of_run (rnd : Q -> Q) (r : Run) : BurstSegment :=
  {| bs_start := run_start r;
     bs_length := Py.len (run_items r);
     bs_avg_speed := rnd (run_speed r) |}.

Definition max_run_speed (intervals : list Q) : Q :=
  Py.max_default (map run_speed (filter long_run (fast_runs intervals))) 0.

(** The loop variables describe the run being read. *)
Definition scan_reads (s : BurstScan) (cur : option Run) : Prop :=
  match cur with
  | None => current_burst_length s = 0%Z /\ current_burst_time s = 0
  | Some r =>
      current_burst_length s = Py.len (run_items r)
      /\ run_items r <> []
      /\ current_burst_time s = run_time r
      /\ burst_start s = run_start r
  end.

(** The score of [_calculate_fluency] as the specification words it, each
    operation rounded. *)
Definition fluency_formula (c dr : Q) (s m l h : Z) : Q :=
  F.add
    (F.add
       (F.add (F.mul (F.lit 0.30) c)
              (F.mul (F.lit 0.30) (Qmax 0 (F.sub 1 (F.mul 2 dr)))))
       (F.mul (F.lit 0.20)
              (Qmax 0 (F.sub 1 (F.div_int (s + 2 * m + 3 * l) 10)))))
    (F.mul (F.lit 0.20) (Qmax 0 (F.sub 1 (F.div_int h 5)))).

(** The level bands, lower bounds included; the bounds are the floats that
    the literals denote. *)
Definition fluency_band (score : Q) : string :=
  if Qle_bool (F.lit 0.8) score then "very_fluent"
  else if Qle_bool (F.lit 0.6) score then "fluent"
  else if Qle_bool (F.lit 0.4) score then "normal"
  else "hesitant".

End B64.

(** ** Comparisons and rounding *)

Lemma ltb_lt x y : Py.ltb x y = true <-> x < y.
Proof.
  unfold Py.ltb. rewrite negb_true_iff.
  destruct (Qle_bool y x) eqn:E.
  - apply Qle_bool_iff in E. split; [discriminate | lra].
  - split; [intros _ | reflexivity].
    destruct (Qlt_le_dec x y) as [H | H]; [exact H |].
    apply Qle_bool_iff in H. congruence.
Qed.

Lemma ltb_ge x y : Py.ltb x y = false <-> y <= x.
Proof. unfold Py.ltb. rewrite negb_false_iff. apply Qle_bool_iff. Qed.

Lemma gtb_gt x y : Py.gtb x y = true <-> y < x.
Proof. apply ltb_lt. Qed.

Lemma gtb_le x y : Py.gtb x y = false <-> x <= y.
Proof. apply ltb_ge. Qed.

Lemma geb_ge x y : Py.geb x y = true <-> y <= x.
Proof. apply Qle_bool_iff. Qed.

Lemma geb_lt x y : Py.geb x y = false <-> x < y.
Proof.
  rewrite <- ltb_lt. unfold Py.geb, Py.ltb.
  destruct (Qle_bool y x); simpl; intuition congruence.
Qed.

(** Turn every float test in the goal and the context into an order fact. *)
Ltac float_tests :=
  repeat match goal with
  | H : Py.ltb _ _ = true |- _ => apply ltb_lt in H
  | H : Py.ltb _ _ = false |- _ => apply ltb_ge in H
  | H : Py.gtb _ _ = true |- _ => apply gtb_gt in H
  | H : Py.gtb _ _ = false |- _ => apply gtb_le in H
  | H : Py.geb _ _ = true |- _ => apply geb_ge in H
  | H : Py.geb _ _ = false |- _ => apply geb_lt in H
  end.

Lemma max_cases a b : (a < b /\ Py.max a b = b) \/ (b <= a /\ Py.max a b = a).
Proof.
  unfold Py.max. destruct (Py.gtb b a) eqn:E; float_tests; auto.
Qed.

Lemma min_cases a b : (b < a /\ Py.min a b = b) \/ (a <= b /\ Py.min a b = a).
Proof.
  unfold Py.min. destruct (Py.ltb b a) eqn:E; float_tests; auto.
Qed.

Lemma round_half_even_comp x y :
  x == y -> Py.round_half_even x = Py.round_half_even y.
Proof.
  intros E. unfold Py.round_half_even.
  rewrite (Qfloor_comp _ _ E).
  assert (E' : x - inject_Z (Qfloor y) == y - inject_Z (Qfloor y))
    by (rewrite E; reflexivity).
  now rewrite (Qcompare_comp _ _ E' _ _ (Qeq_refl (1 # 2))).
Qed.

Lemma round_half_even_mono x y :
  x <= y -> (Py.round_half_even x <= Py.round_half_even y)%Z.
Proof.
  intros Hxy. unfold Py.round_half_even.
  pose proof (Qfloor_resp_le _ _ Hxy) as Hf.
  pose proof (Qfloor_le x) as Hx1. pose proof (Qlt_floor x) as Hx2.
  pose proof (Qfloor_le y) as Hy1. pose proof (Qlt_floor y) as Hy2.
  rewrite inject_Z_plus in Hx2, Hy2.
  destruct (Z.eq_dec (Qfloor x) (Qfloor y)) as [E | NE].
  - rewrite <- E in *.
    destruct (Qcompare_spec (x - inject_Z (Qfloor x)) (1 # 2)) as [Hx | Hx | Hx];
    destruct (Qcompare_spec (y - inject_Z (Qfloor x)) (1 # 2)) as [Hy | Hy | Hy];
      try destruct (Z.even (Qfloor x)); try lia; exfalso; lra.
  - assert (Qfloor x + 1 <= Qfloor y)%Z by lia.
    destruct (Qcompare (x - inject_Z (Qfloor x)) (1 # 2));
    destruct (Qcompare (y - inject_Z (Qfloor y)) (1 # 2));
      try destruct (Z.even (Qfloor x)); try destruct (Z.even (Qfloor y)); lia.
Qed.

Lemma round_half_even_Z k : Py.round_half_even (inject_Z k) = k.
Proof.
  unfold Py.round_half_even. rewrite Qfloor_Z.
  destruct (Qcompare_spec (inject_Z k - inject_Z k) (1 # 2)) as [H | H | H];
    try reflexivity; exfalso; lra.
Qed.

Lemma pow10_pos n : 0 < inject_Z (10 ^ Z.of_nat n).
Proof.
  assert (0 < 10 ^ Z.of_nat n)%Z by (apply Z.pow_pos_nonneg; lia).
  unfold Qlt; simpl; lia.
Qed.

(** The value of [round(x, n)]: an integer number of units [10^-n]. *)
Lemma round_value x n :
  Py.round x n
  == inject_Z (Py.round_half_even (x * inject_Z (10 ^ Z.of_nat n)))
     / inject_Z (10 ^ Z.of_nat n).
Proof. unfold Py.round. apply Qred_correct. Qed.

(** Rounding keeps the order. *)
Lemma round_mono x y n : x <= y -> Py.round x n <= Py.round y n.
Proof.
  intros H. rewrite !round_value.
  pose proof (pow10_pos n) as Hp.
  set (p := inject_Z (10 ^ Z.of_nat n)) in *.
  assert (Hz : (Py.round_half_even (x * p) <= Py.round_half_even (y * p))%Z).
  { apply round_half_even_mono. nra. }
  apply Qmult_le_compat_r.
  - rewrite <- Zle_Qle. exact Hz.
  - apply Qlt_le_weak, Qinv_lt_0_compat, Hp.
Qed.

Lemma round_comp x y n : x == y -> Py.round x n = Py.round y n.
Proof.
  intros E. unfold Py.round. f_equal. f_equal. f_equal.
  apply round_half_even_comp. now rewrite E.
Qed.

(** A value that already has [n] decimals is left alone. *)
Lemma round_decimal k n :
  Py.round (inject_Z k / inject_Z (10 ^ Z.of_nat n)) n
  == inject_Z k / inject_Z (10 ^ Z.of_nat n).
Proof.
  rewrite round_value.
  pose proof (pow10_pos n) as Hp.
  set (p := inject_Z (10 ^ Z.of_nat n)) in *.
  assert (E : inject_Z k / p * p == inject_Z k) by (field; lra).
  now rewrite (round_half_even_comp _ _ E), round_half_even_Z.
Qed.

(** Rounding twice to the same precision is rounding once. *)
Lemma round_idem x n : Py.round (Py.round x n) n = Py.round x n.
Proof.
  rewrite (round_comp _ _ n (round_value x n)).
  unfold Py.round. apply Qred_complete.
  pose proof (pow10_pos n) as Hp.
  set (p := inject_Z (10 ^ Z.of_nat n)) in *.
  set (k := Py.round_half_even (x * p)).
  assert (E : inject_Z k / p * p == inject_Z k) by (field; lra).
  now rewrite (round_half_even_comp _ _ E), round_half_even_Z.
Qed.

Lemma round_eq_of_Qeq x y n : Py.round x n == Py.round y n -> Py.round x n = Py.round y n.
Proof.
  intros E. unfold Py.round in *. apply Qred_complete.
  now rewrite !Qred_correct in E.
Qed.

Lemma round_zero n : Py.round 0 n = 0.
Proof.
  unfold Py.round.
  assert (E : 0 * inject_Z (10 ^ Z.of_nat n) == inject_Z 0)
    by (change (inject_Z 0) with 0; ring).
  rewrite (round_half_even_comp _ _ E), round_half_even_Z.
  transitivity (Qred 0); [apply Qred_complete | reflexivity].
  change (inject_Z 0) with 0. unfold Qdiv. ring.
Qed.

Lemma round_one n : Py.round 1 n == 1.
Proof.
  pose proof (pow10_pos n) as Hp.
  assert (E : 1 == inject_Z (10 ^ Z.of_nat n) / inject_Z (10 ^ Z.of_nat n))
    by (field; lra).
  rewrite (round_comp _ _ n E), round_decimal. now rewrite <- E.
Qed.

(** Rounding keeps a score inside the unit interval. *)
Lemma round_unit_interval x n : 0 <= x <= 1 -> 0 <= Py.round x n <= 1.
Proof.
  intros [H0 H1]. split.
  - rewrite <- (round_zero n). now apply round_mono.
  - rewrite <- (round_one n). now apply round_mono.
Qed.

(** ** The assembled result *)

(** [_analyze] with its tuple results projected: every field in terms of
    the stage that computes it. *)
Lemma analyze_fields (sqrt : Q -> Q) self start final_text end_time now_iso :
  let intervals := session_intervals self in
  let duration := end_time - start in
  let cpm :=
    if Py.gtb duration 0
    then inject_Z (Py.len final_text) / duration * 60 else 0 in
  let c := _calculate_consistency sqrt intervals in
  let dels := _analyze_deletions self in
  let bs := _detect_bursts intervals in
  let hs := _map_hesitations intervals in
  let fl :=
    _calculate_fluency c (snd (fst dels)) (_analyze_pauses intervals)
      (fst (fst hs)) in
  _analyze sqrt self start final_text end_time now_iso
  = {| p_timestamp := now_iso;
       duration_seconds := Py.round duration 2;
       chars_per_minute := Py.round cpm 1;
       pause_pattern := _analyze_pauses intervals;
       consistency := Py.round c 3;
       text_rhythm := _analyze_text_rhythm final_text;
       rhythm_type :=
         _classify_rhythm_type cpm c (pattern (_analyze_pauses intervals));
       total_keystrokes := Py.len (events self);
       actual_chars := Py.len final_text;
       avg_interval :=
         Py.round
           match intervals with
           | [] => 0
           | _ => Py.sum intervals / inject_Z (Py.len intervals)
           end 3;
       deletion_count := fst (fst dels);
       deletion_ratio := Py.round (snd (fst dels)) 3;
       deletion_patterns := snd dels;
       modification_count := fst (_analyze_modifications self);
       modifications := snd (_analyze_modifications self);
       burst_count := fst (fst bs);
       burst_segments := snd (fst bs);
       max_burst_speed := Py.round (snd bs) 1;
       hesitation_count := fst (fst hs);
       hesitation_locations := snd (fst hs);
       hesitations := snd hs;
       fluency_score := Py.round (fst fl) 3;
       fluency_level := snd fl;
       typing_trajectory :=
         map (fun e => mkTrajectoryPoint (event_type e) (char e) (timestamp e))
             (events self);
       keystroke_ratio :=
         Py.round
           (if (Py.len final_text >? 0)%Z
            then inject_Z (Py.len (events self)) / inject_Z (Py.len final_text)
            else 0) 2 |}.
Proof.
  cbv zeta. unfold _analyze.
  destruct (_analyze_deletions self) as [[dc dr] dp].
  destruct (_analyze_modifications self) as [mc ms].
  destruct (_detect_bursts (session_intervals self)) as [[bc bsg] bm].
  destruct (_map_hesitations (session_intervals self)) as [[hc hl] hh].
  cbn [fst snd].
  destruct (_calculate_fluency _ _ _ _) as [fs fl].
  reflexivity.
Qed.

(** Read the fields of a profile that is given as a record. *)
Ltac profile_fields :=
  cbn [p_timestamp duration_seconds chars_per_minute pause_pattern consistency
       text_rhythm rhythm_type total_keystrokes actual_chars avg_interval
       deletion_count deletion_ratio deletion_patterns modification_count
       modifications burst_count burst_segments max_burst_speed
       hesitation_count hesitation_locations hesitations fluency_score
       fluency_level typing_trajectory keystroke_ratio] in *.

(** ** The session recorder *)

Lemma finish_monitoring_guard (sqrt : Q -> Q) end_time now_iso final_text self :
  events self = [] \/ start_time self = None ->
  snd (finish_monitoring sqrt end_time now_iso final_text self)
  = _empty_result now_iso.
Proof.
  intros [H | H]; unfold finish_monitoring; cbn [events start_time];
    rewrite H; [reflexivity | destruct (events self); reflexivity].
Qed.

Lemma finish_monitoring_analyzes (sqrt : Q -> Q) end_time now_iso final_text self :
  nonempty_session self ->
  exists start,
    start_time self = Some start /\ ~ start == 0
    /\ snd (finish_monitoring sqrt end_time now_iso final_text self)
       = _analyze sqrt
           (mkRhythmDetector (events self) false (start_time self))
           start final_text end_time now_iso.
Proof.
  intros [Hev Hst]. unfold finish_monitoring. cbn [events start_time].
  destruct (events self) as [| e l]; [congruence |].
  destruct (start_time self) as [start |]; [| discriminate].
  exists start. rewrite Hst. cbn [negb snd]. repeat split.
  cbn in Hst. apply negb_true_iff in Hst. intros E.
  apply Qeq_bool_iff in E. unfold Py.eqb in Hst. congruence.
Qed.

Lemma finish_monitoring_state (sqrt : Q -> Q) end_time now_iso final_text self :
  fst (finish_monitoring sqrt end_time now_iso final_text self)
  = mkRhythmDetector (events self) false (start_time self).
Proof.
  unfold finish_monitoring. cbn [events start_time].
  destruct (events self); [reflexivity |].
  destruct (start_time self) as [s |]; [| reflexivity].
  destruct (negb (start_time_truthy (Some s))); reflexivity.
Qed.

(** [_analyze] reads the event log only. *)
Lemma analyze_reads_events (sqrt : Q -> Q) self flag start final_text end_time now_iso :
  _analyze sqrt (mkRhythmDetector (events self) flag (start_time self))
    start final_text end_time now_iso
  = _analyze sqrt self start final_text end_time now_iso.
Proof.
  rewrite !analyze_fields. cbv zeta.
  unfold session_intervals, _analyze_deletions, _analyze_modifications.
  cbn [events]. reflexivity.
Qed.

(** On a non-empty session [finish_monitoring] returns the analysis. *)
Lemma finish_monitoring_nonempty (sqrt : Q -> Q) end_time now_iso final_text self :
  nonempty_session self ->
  exists start,
    start_time self = Some start
    /\ snd (finish_monitoring sqrt end_time now_iso final_text self)
       = _analyze sqrt self start final_text end_time now_iso.
Proof.
  intros H.
  destruct (finish_monitoring_analyzes sqrt end_time now_iso final_text self H)
    as (start & Hs & _ & Ha).
  exists start. split; [exact Hs |].
  now rewrite Ha, analyze_reads_events.
Qed.

(** C1: when the event log is empty or the session was never started,
    [finish_monitoring] returns the fixed empty default (every count and
    number 0, pattern "continuous", category and rhythm type "balanced",
    level "normal", every list empty), whatever [final_text] is. *)
Theorem finish_monitoring_empty_session :
  forall (sqrt : Q -> Q) end_time now_iso final_text self,
    events self = [] \/ start_time self = None ->
    let p := snd (finish_monitoring sqrt end_time now_iso final_text self) in
    is_empty_default p
    /\ forall final_text' end_time',
         snd (finish_monitoring sqrt end_time' now_iso final_text' self) = p.
Proof.
  intros sqrt end_time now_iso final_text self H p. subst p.
  split.
  - rewrite (finish_monitoring_guard _ _ _ _ _ H).
    unfold is_empty_default; cbn. repeat split.
  - intros. now rewrite !(finish_monitoring_guard _ _ _ _ _ H).
Qed.

Lemma finish_monitoring_empty_session_witness :
  let self := start_monitoring 100 __init__ in
  (events self = [] \/ start_time self = None)
  /\ is_empty_default
       (snd (finish_monitoring sqrt_approx 105 "2025-01-01T00:00:00"
               (text_of_string "Hello.") self)).
Proof.
  intro self. split.
  - left. reflexivity.
  - apply (finish_monitoring_empty_session sqrt_approx 105
             "2025-01-01T00:00:00" (text_of_string "Hello.") self).
    left. reflexivity.
Defined.

(** A detector that holds events, or is monitoring, has been started. *)
Lemma reachable_started self :
  reachable self ->
  events self <> [] \/ is_monitoring self = true ->
  exists t, start_time self = Some t.
Proof.
  induction 1 as [| now self _ _ | now c ty self _ IH
                  | sqrt end_time now_iso final_text self _ IH].
  - intros [H | H]; [now elim H | discriminate].
  - intros _. now exists now.
  - unfold record_keystroke.
    destruct (is_monitoring self) eqn:M; cbn [negb].
    + intros _. cbn [start_time]. apply IH. now right.
    + intros [H | H]; [apply IH; now left | congruence].
  - rewrite finish_monitoring_state. cbn [events is_monitoring start_time].
    intros [H | H]; [apply IH; now left | discriminate].
Qed.

(** C10: [finish_monitoring] changes the monitoring flag only; the event log
    and the start time stay (only [start_monitoring] resets them, and
    [record_keystroke] is dropped while idle).  So on a session that has
    events, a second call in a row returns what a first call at the new end
    time would: the full analysis of the same events, not the empty
    default. *)
Theorem finish_monitoring_twice :
  forall (sqrt : Q -> Q) end1 iso1 text1 self,
    let self1 := fst (finish_monitoring sqrt end1 iso1 text1 self) in
    (events self1 = events self /\ start_time self1 = start_time self
     /\ is_monitoring self1 = false)
    /\ (forall now c ty, record_keystroke now c ty self1 = self1)
    /\ (forall now,
          start_monitoring now self1 = mkRhythmDetector [] true (Some now))
    /\ (nonempty_session self ->
        forall end2 iso2 text2,
          let r2 := finish_monitoring sqrt end2 iso2 text2 self1 in
          fst r2 = self1
          /\ snd r2 = snd (finish_monitoring sqrt end2 iso2 text2 self)
          /\ (exists start,
                start_time self = Some start
                /\ snd r2 = _analyze sqrt self start text2 end2 iso2
                /\ duration_seconds (snd r2) = Py.round (end2 - start) 2)
          /\ typing_trajectory (snd r2)
             = map (fun e => mkTrajectoryPoint (event_type e) (char e)
                               (timestamp e))
                   (events self)
          /\ total_keystrokes (snd r2) = Py.len (events self)
          /\ (0 < total_keystrokes (snd r2))%Z
          /\ snd r2 <> _empty_result iso2).
Proof.
  intros sqrt end1 iso1 text1 self self1.
  subst self1. rewrite !finish_monitoring_state.
  cbn [events start_time is_monitoring].
  split; [repeat split |]. split; [reflexivity |]. split; [reflexivity |].
  intros Hne end2 iso2 text2.
  rewrite finish_monitoring_state. cbn [events start_time].
  assert (Hne1 : nonempty_session
                   (mkRhythmDetector (events self) false (start_time self)))
    by exact Hne.
  destruct (finish_monitoring_nonempty sqrt end2 iso2 text2 self Hne)
    as (start & Hs & Han).
  destruct (finish_monitoring_nonempty sqrt end2 iso2 text2 _ Hne1)
    as (start' & Hs' & Han').
  cbn [start_time] in Hs'.
  assert (start' = start) by congruence. subst start'.
  rewrite analyze_reads_events in Han'. rewrite Han'.
  assert (Hpos : (0 < Py.len (events self))%Z).
  { destruct Hne as [Hev _]. unfold Py.len.
    destruct (events self); [congruence | cbn; lia]. }
  assert (Htk : total_keystrokes
                  (_analyze sqrt self start text2 end2 iso2)
                = Py.len (events self))
    by (rewrite analyze_fields; reflexivity).
  split; [reflexivity |]. split; [now rewrite Han |].
  split.
  { exists start. repeat split; [exact Hs |].
    rewrite analyze_fields. reflexivity. }
  split; [rewrite analyze_fields; reflexivity |].
  split; [exact Htk |]. split; [rewrite Htk; exact Hpos |].
  intros E. rewrite E in Htk. cbn in Htk. lia.
Qed.

Lemma finish_monitoring_twice_witness :
  let self :=
    record_keystroke (1012 # 10) "i" "type"
      (record_keystroke 101 "H" "type" (start_monitoring 100 __init__)) in
  nonempty_session self
  /\ snd (finish_monitoring sqrt_approx 110 "2025-01-01T00:00:10"
            (text_of_string "Hi")
            (fst (finish_monitoring sqrt_approx 105 "2025-01-01T00:00:05"
                    (text_of_string "Hi") self)))
     <> _empty_result "2025-01-01T00:00:10".
Proof.
  intro self.
  assert (H : nonempty_session self) by (split; [discriminate | reflexivity]).
  split; [exact H |].
  pose proof (finish_monitoring_twice sqrt_approx
                105 "2025-01-01T00:00:05" (text_of_string "Hi") self) as T.
  cbv zeta in T.
  destruct T as (_ & _ & _ & T).
  specialize (T H 110 "2025-01-01T00:00:10" (text_of_string "Hi")).
  exact (proj2 (proj2 (proj2 (proj2 (proj2 (proj2 T)))))).
Defined.

(** ** Determinism *)

(** C4, as stated, fails: two runs of [finish_monitoring] over the same
    event log, start time, end time and final text, made at different wall
    clock readings, return different profiles. *)
Lemma profile_depends_on_wall_clock :
  let self := mkRhythmDetector (log_of ["type"; "type"] 101 1) true (Some 100) in
  snd (finish_monitoring sqrt_approx 105 "2025-01-01T00:00:05"
         (text_of_string "Hi") self)
  <> snd (finish_monitoring sqrt_approx 105 "2025-01-01T00:00:06"
            (text_of_string "Hi") self).
Proof.
  intros self E.
  apply (f_equal p_timestamp) in E. vm_compute in E. discriminate.
Qed.

(** C4, amended: the profile is determined by the event log, the start and
    end timestamps and the final text in every field but [timestamp], which
    is the wall clock reading taken when the result is assembled. *)
Theorem profile_determined_up_to_timestamp :
  forall (sqrt : Q -> Q) end_time final_text self iso1 iso2,
    without_timestamp
      (snd (finish_monitoring sqrt end_time iso1 final_text self))
    = without_timestamp
        (snd (finish_monitoring sqrt end_time iso2 final_text self))
    /\ p_timestamp (snd (finish_monitoring sqrt end_time iso1 final_text self))
       = iso1.
Proof.
  intros sqrt end_time final_text self iso1 iso2.
  unfold finish_monitoring. cbn [events start_time].
  destruct (events self) as [| e l]; [split; reflexivity |].
  destruct (start_time self) as [start |]; [| split; reflexivity].
  destruct (negb (start_time_truthy (Some start))); [split; reflexivity |].
  cbn [snd]. rewrite !analyze_fields. unfold without_timestamp.
  profile_fields. split; reflexivity.
Qed.

(** ** Consistency *)

Lemma fold_left_Qplus l a : fold_left Qplus l a == a + total l.
Proof.
  revert a. induction l as [| x l IH]; intros a; simpl.
  - ring.
  - rewrite IH. ring.
Qed.

(** Python's left-to-right [sum] is the sum of the sequence. *)
Lemma sum_total l : Py.sum l == total l.
Proof. unfold Py.sum. rewrite fold_left_Qplus. ring. Qed.

Lemma total_map_ext (f g : Q -> Q) l :
  (forall x, f x == g x) -> total (map f l) == total (map g l).
Proof.
  intros E. induction l as [| x l IH]; simpl; [reflexivity |].
  now rewrite IH, E.
Qed.

Lemma total_squares_nonneg m l :
  0 <= total (map (fun x => (x - m) * (x - m)) l).
Proof.
  induction l as [| x l IH]; simpl; [lra |].
  assert (0 <= (x - m) * (x - m)) by (generalize (x - m); intros y; nra).
  lra.
Qed.

Lemma len_lt_2 {A : Type} (l : list A) :
  (Py.len l <? 2)%Z = (List.length l <? 2)%nat.
Proof.
  unfold Py.len.
  destruct (Z.ltb_spec (Z.of_nat (List.length l)) 2);
    destruct (Nat.ltb_spec (List.length l) 2); try reflexivity; lia.
Qed.

(** The mean computed by the code is the mean of the sequence. *)
Lemma code_mean l : Py.sum l / inject_Z (Py.len l) == mean_of l.
Proof. unfold mean_of, Py.len. now rewrite sum_total. Qed.

(** The variance computed by the code is the population variance. *)
Lemma code_variance l :
  Py.sum (map (fun x => (x - Py.sum l / inject_Z (Py.len l)) ^ 2) l)
  / inject_Z (Py.len l)
  == population_variance l.
Proof.
  unfold population_variance. rewrite sum_total.
  rewrite (total_map_ext
             (fun x => (x - Py.sum l / inject_Z (Py.len l)) ^ 2)
             (fun x => (x - mean_of l) * (x - mean_of l))).
  - reflexivity.
  - intros x. rewrite code_mean. reflexivity.
Qed.

(** [math.sqrt] is only called on a non-negative number. *)
Lemma population_variance_nonneg l : 0 <= population_variance l.
Proof.
  unfold population_variance.
  pose proof (total_squares_nonneg (mean_of l) l) as H.
  destruct l as [| x l].
  - vm_compute. discriminate.
  - assert (Hn : 0 < inject_Z (Z.of_nat (List.length (x :: l)))).
    { change 0 with (inject_Z 0). rewrite <- Zlt_Qlt. simpl. lia. }
    apply Qle_shift_div_l; [exact Hn | lra].
Qed.

Lemma clamp_comp v w lo hi : v == w -> clamp v lo hi == clamp w lo hi.
Proof.
  intros E. unfold clamp.
  destruct (Qlt_le_dec v lo), (Qlt_le_dec w lo); try lra.
  destruct (Qlt_le_dec hi v), (Qlt_le_dec hi w); lra.
Qed.

(** [max(0.0, min(1.0, v))] is [clamp(v, 0, 1)]. *)
Lemma max_min_clamp v : Py.max 0.0 (Py.min 1.0 v) == clamp v 0 1.
Proof.
  unfold clamp.
  destruct (max_cases 0.0 (Py.min 1.0 v)) as [[H ->] | [H ->]];
  destruct (min_cases 1.0 v) as [[H' E] | [H' E]]; rewrite E in *;
  destruct (Qlt_le_dec v 0); destruct (Qlt_le_dec 1 v); lra.
Qed.

Lemma clamp_unit_interval v : 0 <= clamp v 0 1 <= 1.
Proof.
  unfold clamp. destruct (Qlt_le_dec v 0); [lra |].
  destruct (Qlt_le_dec 1 v); lra.
Qed.

(** The consistency score lies in the unit interval, whatever [sqrt]
    returns. *)
Lemma consistency_unit_interval (sqrt : Q -> Q) intervals :
  0 <= _calculate_consistency sqrt intervals <= 1.
Proof.
  unfold _calculate_consistency.
  destruct (Py.len intervals <? 2)%Z; [lra |].
  destruct (Py.eqb _ 0); [lra |].
  rewrite max_min_clamp. apply clamp_unit_interval.
Qed.

(** C5: the consistency score is 0.0 for fewer than two intervals or a zero
    mean, and otherwise [clamp(1 - cv/2, 0, 1)] with [cv] the population
    standard deviation (variance divided by the count) over the mean; it
    always lies in [0.0, 1.0]. *)
Theorem calculate_consistency_correct :
  forall (sqrt : Q -> Q),
    Proper (Qeq ==> Qeq) sqrt ->
    forall intervals,
      _calculate_consistency sqrt intervals == consistency_spec sqrt intervals
      /\ ((List.length intervals < 2)%nat \/ mean_of intervals == 0 ->
          _calculate_consistency sqrt intervals == 0)
      /\ ((2 <= List.length intervals)%nat -> ~ mean_of intervals == 0 ->
          _calculate_consistency sqrt intervals
          == clamp (1 - (sqrt (population_variance intervals)
                         / mean_of intervals) / 2) 0 1)
      /\ 0 <= _calculate_consistency sqrt intervals <= 1.
Proof.
  intros sqrt Hsqrt intervals.
  assert (Hspec : _calculate_consistency sqrt intervals
                  == consistency_spec sqrt intervals).
  { unfold _calculate_consistency, consistency_spec.
    rewrite len_lt_2.
    destruct (List.length intervals <? 2)%nat; [reflexivity |].
    unfold Py.eqb.
    destruct (Qeq_bool _ 0) eqn:E; destruct (Qeq_dec (mean_of intervals) 0) as [E' | E'].
    - reflexivity.
    - apply Qeq_bool_iff in E. rewrite code_mean in E. contradiction.
    - apply Qeq_bool_neq in E. rewrite code_mean in E. contradiction.
    - rewrite max_min_clamp. apply clamp_comp.
      now rewrite code_variance, code_mean. }
  split; [exact Hspec |]. split; [| split].
  - intros H. rewrite Hspec. unfold consistency_spec.
    destruct (Nat.ltb_spec (List.length intervals) 2); [reflexivity |].
    destruct (Qeq_dec (mean_of intervals) 0); [reflexivity |].
    destruct H; [lia | contradiction].
  - intros Hlen Hmean. rewrite Hspec. unfold consistency_spec.
    destruct (Nat.ltb_spec (List.length intervals) 2); [lia |].
    destruct (Qeq_dec (mean_of intervals) 0); [contradiction | reflexivity].
  - apply consistency_unit_interval.
Qed.

Lemma sqrt_approx_proper : Proper (Qeq ==> Qeq) sqrt_approx.
Proof.
  intros x y E. unfold sqrt_approx.
  assert (E' : x * inject_Z (10 ^ 30) == y * inject_Z (10 ^ 30))
    by (now rewrite E).
  now rewrite (Qfloor_comp _ _ E').
Qed.

Lemma calculate_consistency_correct_witness :
  Proper (Qeq ==> Qeq) sqrt_approx
  /\ _calculate_consistency sqrt_approx [1; 1; 1; 5]
     == consistency_spec sqrt_approx [1; 1; 1; 5]
  /\ 0 <= _calculate_consistency sqrt_approx [1; 1; 1; 5] <= 1.
Proof.
  pose proof (calculate_consistency_correct sqrt_approx sqrt_approx_proper
                [1; 1; 1; 5]) as T.
  split; [exact sqrt_approx_proper |].
  split; [exact (proj1 T) | exact (proj2 (proj2 (proj2 T)))].
Defined.

(** ** Pauses *)

Lemma sum_ones_from {A : Type} (p : A -> bool) l a :
  fold_left (fun acc x => if p x then (acc + 1)%Z else acc) l a
  = (a + Z.of_nat (List.length (filter p l)))%Z.
Proof.
  revert a. induction l as [| x l IH]; intros a; simpl; [lia |].
  rewrite IH. destruct (p x); simpl; lia.
Qed.

(** [sum(1 for x in l if p(x))] counts the elements that satisfy [p]. *)
Lemma sum_ones_count {A : Type} (p : A -> bool) l :
  Py.sum_ones p l = Z.of_nat (List.length (filter p l)).
Proof. unfold Py.sum_ones. now rewrite sum_ones_from. Qed.

Lemma sum_ones_ext {A : Type} (p q : A -> bool) l :
  (forall x, p x = q x) -> Py.sum_ones p l = Py.sum_ones q l.
Proof.
  intros E. rewrite !sum_ones_count. f_equal. f_equal.
  now apply filter_ext.
Qed.

Lemma sum_ones_pos {A : Type} (p : A -> bool) l :
  (Py.sum_ones p l >? 0)%Z = existsb p l.
Proof.
  rewrite sum_ones_count.
  induction l as [| x l IH]; simpl; [reflexivity |].
  destruct (p x); simpl; [| exact IH].
  destruct (Z.gtb_spec (Z.of_nat (S (List.length (filter p l)))) 0);
    [reflexivity | lia].
Qed.

Lemma short_pauseb_spec i : short_pauseb i = true <-> short_pause i.
Proof.
  unfold short_pauseb, short_pause.
  rewrite andb_true_iff, negb_true_iff, Qle_bool_iff.
  split; intros [H1 H2]; split; try exact H1.
  - destruct (Qlt_le_dec i 5) as [H | H]; [exact H |].
    apply Qle_bool_iff in H. congruence.
  - destruct (Qle_bool 5 i) eqn:E; [| reflexivity].
    apply Qle_bool_iff in E. lra.
Qed.

Lemma medium_pauseb_spec i : medium_pauseb i = true <-> medium_pause i.
Proof.
  unfold medium_pauseb, medium_pause.
  rewrite andb_true_iff, negb_true_iff, Qle_bool_iff.
  split; intros [H1 H2]; split; try exact H1.
  - destruct (Qlt_le_dec i 15) as [H | H]; [exact H |].
    apply Qle_bool_iff in H. congruence.
  - destruct (Qle_bool 15 i) eqn:E; [| reflexivity].
    apply Qle_bool_iff in E. lra.
Qed.

Lemma long_pauseb_spec i : long_pauseb i = true <-> long_pause i.
Proof. apply Qle_bool_iff. Qed.

Lemma existsb_Exists {A : Type} (p : A -> bool) (P : A -> Prop) l :
  (forall x, p x = true <-> P x) -> existsb p l = true <-> Exists P l.
Proof.
  intros H. rewrite existsb_exists, Exists_exists.
  split; intros (x & Hin & Hx); exists x; split; try exact Hin; now apply H.
Qed.

(** The tests of the code are the buckets: the class constants are 2, 5
    and 15 seconds. *)
Lemma analyze_pauses_buckets intervals :
  _analyze_pauses intervals
  = let s := Z.of_nat (List.length (filter short_pauseb intervals)) in
    let m := Z.of_nat (List.length (filter medium_pauseb intervals)) in
    let g := Z.of_nat (List.length (filter long_pauseb intervals)) in
    {| short_pauses := s; medium_pauses := m; long_pauses := g;
       pattern :=
         PausePattern_value
           (if existsb long_pauseb intervals then CONTEMPLATIVE
            else if existsb medium_pauseb intervals then THOUGHTFUL
            else if existsb short_pauseb intervals then CHOPPY
            else CONTINUOUS) |}.
Proof.
  unfold _analyze_pauses. cbv zeta.
  rewrite (sum_ones_ext
             (fun i => Py.geb i SHORT_PAUSE_MIN && Py.ltb i SHORT_PAUSE_MAX)
             short_pauseb),
    (sum_ones_ext
       (fun i => Py.geb i MEDIUM_PAUSE_MIN && Py.ltb i MEDIUM_PAUSE_MAX)
       medium_pauseb),
    (sum_ones_ext (fun i => Py.geb i LONG_PAUSE_MIN) long_pauseb).
  - rewrite !sum_ones_pos, !sum_ones_count. reflexivity.
  - intros i. unfold Py.geb, long_pauseb, LONG_PAUSE_MIN.
    apply Qleb_comp; reflexivity.
  - intros i.
    unfold Py.geb, Py.ltb, medium_pauseb, MEDIUM_PAUSE_MIN, MEDIUM_PAUSE_MAX.
    f_equal; [| f_equal]; apply Qleb_comp; reflexivity.
  - intros i.
    unfold Py.geb, Py.ltb, short_pauseb, SHORT_PAUSE_MIN, SHORT_PAUSE_MAX.
    f_equal; [| f_equal]; apply Qleb_comp; reflexivity.
Qed.

(** C6: the pause classifier counts the intervals of each bucket, short
    [2, 5), medium [5, 15), long [15, oo), an interval below 2 s being in
    none, and picks the pattern by priority: long, then medium, then short,
    else continuous.  The intervals [16, 1] give "contemplative". *)
Theorem analyze_pauses_correct :
  forall intervals,
    let p := _analyze_pauses intervals in
    short_pauses p = Z.of_nat (List.length (filter short_pauseb intervals))
    /\ medium_pauses p = Z.of_nat (List.length (filter medium_pauseb intervals))
    /\ long_pauses p = Z.of_nat (List.length (filter long_pauseb intervals))
    /\ (forall i, (short_pauseb i = true <-> 2 <= i /\ i < 5)
                  /\ (medium_pauseb i = true <-> 5 <= i /\ i < 15)
                  /\ (long_pauseb i = true <-> 15 <= i))
    /\ (forall i, i < 2 -> ~ short_pause i /\ ~ medium_pause i /\ ~ long_pause i)
    /\ (pattern p = "contemplative" <-> Exists long_pause intervals)
    /\ (pattern p = "thoughtful" <->
        ~ Exists long_pause intervals /\ Exists medium_pause intervals)
    /\ (pattern p = "choppy" <->
        ~ Exists long_pause intervals /\ ~ Exists medium_pause intervals
        /\ Exists short_pause intervals)
    /\ (pattern p = "continuous" <->
        ~ Exists long_pause intervals /\ ~ Exists medium_pause intervals
        /\ ~ Exists short_pause intervals)
    /\ pattern (_analyze_pauses [16; 1]) = "contemplative".
Proof.
  intros intervals p. subst p. rewrite analyze_pauses_buckets. cbv zeta.
  cbn [short_pauses medium_pauses long_pauses pattern].
  pose proof (existsb_Exists long_pauseb long_pause intervals long_pauseb_spec) as HL.
  pose proof (existsb_Exists medium_pauseb medium_pause intervals medium_pauseb_spec) as HM.
  pose proof (existsb_Exists short_pauseb short_pause intervals short_pauseb_spec) as HS.
  repeat (split; [reflexivity |]).
  split.
  { intros i. split; [apply short_pauseb_spec |].
    split; [apply medium_pauseb_spec | apply long_pauseb_spec]. }
  split.
  { intros i Hi. unfold short_pause, medium_pause, long_pause. repeat split; lra. }
  assert (Hex : pattern (_analyze_pauses [16; 1]) = "contemplative")
    by (vm_compute; reflexivity).
  destruct (existsb long_pauseb intervals).
  { assert (XL : Exists long_pause intervals) by (now apply HL).
    cbn [PausePattern_value].
    repeat split; intuition (try discriminate; try congruence). }
  assert (NL : ~ Exists long_pause intervals)
    by (intros X; apply HL in X; discriminate).
  destruct (existsb medium_pauseb intervals).
  { assert (XM : Exists medium_pause intervals) by (now apply HM).
    cbn [PausePattern_value].
    repeat split; intuition (try discriminate; try congruence). }
  assert (NM : ~ Exists medium_pause intervals)
    by (intros X; apply HM in X; discriminate).
  destruct (existsb short_pauseb intervals).
  { assert (XS : Exists short_pause intervals) by (now apply HS).
    cbn [PausePattern_value].
    repeat split; intuition (try discriminate; try congruence). }
  assert (NS : ~ Exists short_pause intervals)
    by (intros X; apply HS in X; discriminate).
  cbn [PausePattern_value].
  repeat split; intuition (try discriminate; try congruence).
Qed.

(** ** Bursts *)

Lemma burst_record_segment s r :
  scan_reads s (Some r) -> burst_record s = segment_of_run round1 r.
Proof.
  intros (Hl & _ & Ht & Hs).
  unfold burst_record, segment_of_run, run_speed, round1.
  rewrite Hl, Ht, Hs. f_equal.
  destruct (Py.gtb (Py.sum (run_items r)) 0) eqn:E;
    destruct (Qlt_le_dec 0 (Py.sum (run_items r))); float_tests;
    try reflexivity; exfalso; lra.
Qed.

Lemma close_burst_open s cur :
  scan_reads s cur ->
  close_burst s
  = bursts s ++ map (segment_of_run round1) (filter long_run (open_run cur)).
Proof.
  intros H. unfold close_burst, BURST_MIN_LENGTH. rewrite Z.geb_leb.
  destruct cur as [r |]; cbn [open_run filter].
  - rewrite (burst_record_segment s r H).
    destruct H as (Hl & _). unfold long_run. rewrite Hl.
    destruct (5 <=? Py.len (run_items r))%Z; cbn [map];
      [reflexivity | now rewrite app_nil_r].
  - destruct H as (Hl & _). rewrite Hl. cbn. now rewrite app_nil_r.
Qed.

Lemma len_app_one {A : Type} (l : list A) x :
  Py.len (l ++ [x]) = (Py.len l + 1)%Z.
Proof. unfold Py.len. rewrite length_app. cbn. lia. Qed.

Lemma sum_app_one l x : Py.sum (l ++ [x]) = Py.sum l + x.
Proof. unfold Py.sum. now rewrite fold_left_app. Qed.

Lemma len_zero_nil {A : Type} (l : list A) : Py.len l = 0%Z -> l = [].
Proof. destruct l; [reflexivity | unfold Py.len; cbn; lia]. Qed.

(** The loop of [_detect_bursts] emits the long maximal runs. *)
Lemma burst_loop_runs intervals :
  forall i s cur,
    scan_reads s cur ->
    close_burst (burst_loop i intervals s)
    = bursts s
      ++ map (segment_of_run round1)
           (filter long_run (fast_runs_from i intervals cur)).
Proof.
  induction intervals as [| x rest IH]; intros i s cur H.
  - cbn [burst_loop fast_runs_from]. now apply close_burst_open.
  - cbn [burst_loop fast_runs_from]. unfold BURST_INTERVAL_MAX.
    destruct (Py.ltb x 0.15) eqn:E; destruct (Qlt_le_dec x (15 # 100)) as [L | L];
      float_tests; try (exfalso; lra).
    + erewrite IH; [reflexivity |].
      destruct cur as [r |]; cbn [scan_reads] in *;
        cbn [current_burst_length current_burst_time burst_start bursts
             run_items run_start].
      * destruct H as (Hl & Hn & Ht & Hs). rewrite Hl, Ht, Hs.
        rewrite len_app_one, sum_app_one.
        repeat split; try reflexivity.
        -- destruct (run_items r); [congruence | discriminate].
        -- destruct (Py.len (run_items r) =? 0)%Z eqn:Z0; [| reflexivity].
           apply Z.eqb_eq, len_zero_nil in Z0. congruence.
      * destruct H as (Hl & Ht). rewrite Hl, Ht.
        repeat split; try reflexivity. discriminate.
    + erewrite IH with (cur := None); [| split; reflexivity].
      cbn [bursts]. fold (close_burst s).
      rewrite (close_burst_open s cur H), filter_app, map_app, app_assoc.
      reflexivity.
Qed.

(** [_detect_bursts] returns the bursts of the sequence, each speed rounded
    to one decimal where the record is built, their number and the largest
    of the rounded speeds. *)
Lemma detect_bursts_runs intervals :
  _detect_bursts intervals
  = let segs := bursts_of round1 intervals in
    (Py.len segs, segs, Py.max_default (map bs_avg_speed segs) 0).
Proof.
  unfold _detect_bursts. cbv zeta.
  fold (close_burst (burst_loop 0 intervals (mkBurstScan [] 0%Z 0 0%Z))).
  rewrite (burst_loop_runs intervals 0%Z _ None); [| split; reflexivity].
  reflexivity.
Qed.

(** Rounding commutes with [max]: the larger of two rounded values is the
    rounded larger value. *)
Lemma max_round a b n :
  Py.max (Py.round a n) (Py.round b n) = Py.round (Py.max a b) n.
Proof.
  destruct (max_cases a b) as [[H ->] | [H ->]];
    destruct (max_cases (Py.round a n) (Py.round b n)) as [[H' ->] | [H' ->]];
    try reflexivity.
  - apply round_eq_of_Qeq.
    pose proof (round_mono a b n (Qlt_le_weak _ _ H)). lra.
  - pose proof (round_mono b a n H). lra.
Qed.

Lemma fold_max_round n l :
  forall a,
    fold_left Py.max (map (fun x => Py.round x n) l) (Py.round a n)
    = Py.round (fold_left Py.max l a) n.
Proof.
  induction l as [| x l IH]; intros a; cbn [map fold_left]; [reflexivity |].
  now rewrite max_round, IH.
Qed.

(** The maximum of the rounded values is the rounded maximum. *)
Lemma max_default_round n l :
  Py.max_default (map (fun x => Py.round x n) l) 0
  = Py.round (Py.max_default l 0) n.
Proof.
  destruct l as [| x l]; cbn [map Py.max_default].
  - now rewrite round_zero.
  - apply fold_max_round.
Qed.

Lemma max_speed_rounded_once intervals :
  snd (_detect_bursts intervals) = Py.round (max_run_speed intervals) 1.
Proof.
  rewrite detect_bursts_runs. cbv zeta. cbn [snd].
  unfold bursts_of, max_run_speed. fold long_run.
  rewrite map_map. cbn [segment_of_run bs_avg_speed]. unfold round1.
  rewrite <- max_default_round, map_map. reflexivity.
Qed.

(** *** The runs are the maximal runs *)

(** Every run is a non-empty block of intervals below 150 ms. *)
Lemma fast_runs_from_items intervals :
  forall i cur,
    (forall r, cur = Some r ->
       run_items r <> [] /\ Forall (fun x => x < 0.15) (run_items r)) ->
    Forall (fun r => run_items r <> []
                     /\ Forall (fun x => x < 0.15) (run_items r))
           (fast_runs_from i intervals cur).
Proof.
  induction intervals as [| x rest IH]; intros i cur H; cbn [fast_runs_from].
  - destruct cur as [r |]; cbn; [| constructor].
    constructor; [now apply H | constructor].
  - destruct (Qlt_le_dec x (15 # 100)) as [L | L].
    + apply IH. intros r' E. injection E as <-.
      destruct cur as [r |]; cbn [run_items].
      * destruct (H r eq_refl) as [Hn Hf]. split.
        -- destruct (run_items r); discriminate.
        -- apply Forall_app. split; [exact Hf | now constructor].
      * split; [discriminate | now constructor].
    + apply Forall_app. split.
      * destruct cur as [r |]; cbn; [| constructor].
        constructor; [now apply H | constructor].
      * apply IH. discriminate.
Qed.

Lemma fast_runs_from_at intervals :
  forall i cur done,
    i = Py.len done ->
    match cur with
    | None => done = [] \/ exists b y, done = b ++ [y] /\ 0.15 <= y
    | Some r =>
        exists before,
          done = before ++ run_items r
          /\ run_start r = Py.len before
          /\ (before = [] \/ exists b y, before = b ++ [y] /\ 0.15 <= y)
    end ->
    Forall (run_at (done ++ intervals)) (fast_runs_from i intervals cur).
Proof.
  induction intervals as [| x rest IH]; intros i cur done Hi Hc;
    cbn [fast_runs_from].
  - destruct cur as [r |]; cbn; [| constructor].
    constructor; [| constructor].
    destruct Hc as (before & Hd & Hs & Hb).
    exists before, []. rewrite app_nil_r. repeat split; auto.
    now rewrite app_nil_r.
  - assert (Hi' : (i + 1)%Z = Py.len (done ++ [x]))
      by (rewrite len_app_one; lia).
    replace (done ++ x :: rest) with ((done ++ [x]) ++ rest)
      by (now rewrite <- app_assoc).
    destruct (Qlt_le_dec x (15 # 100)) as [L | L].
    + apply IH; [exact Hi' |].
      destruct cur as [r |]; cbn [run_items run_start].
      * destruct Hc as (before & Hd & Hs & Hb).
        exists before. rewrite Hd, app_assoc. auto.
      * exists done. auto.
    + apply Forall_app. split.
      * destruct cur as [r |]; cbn; [| constructor].
        constructor; [| constructor].
        destruct Hc as (before & Hd & Hs & Hb).
        exists before, (x :: rest). repeat split; auto.
        -- rewrite Hd, <- !app_assoc. reflexivity.
        -- right. exists x, rest. auto.
      * apply IH; [exact Hi' |]. right. exists done, x. auto.
Qed.

(** No interval below 150 ms is left out of the runs, and nothing else is
    in them. *)
Lemma fast_runs_from_cover intervals :
  forall i cur,
    flat_map run_items (fast_runs_from i intervals cur)
    = flat_map run_items (open_run cur)
      ++ filter (fun x => Py.ltb x BURST_INTERVAL_MAX) intervals.
Proof.
  induction intervals as [| x rest IH]; intros i cur;
    cbn [fast_runs_from filter].
  - now rewrite app_nil_r.
  - unfold BURST_INTERVAL_MAX at 1.
    destruct (Py.ltb x 0.15) eqn:E; destruct (Qlt_le_dec x (15 # 100));
      float_tests; try (exfalso; lra).
    + rewrite IH. destruct cur as [r |]; cbn [open_run flat_map run_items];
        rewrite ?app_nil_r, <- ?app_assoc; reflexivity.
    + rewrite flat_map_app, IH. reflexivity.
Qed.

Lemma fast_runs_cover intervals :
  flat_map run_items (fast_runs intervals)
  = filter (fun x => Py.ltb x BURST_INTERVAL_MAX) intervals.
Proof. unfold fast_runs. now rewrite fast_runs_from_cover. Qed.

(** The runs of a sequence are maximal blocks of intervals below 150 ms,
    each at its start index. *)
Lemma fast_runs_maximal intervals :
  Forall (fun r => run_at intervals r
                   /\ run_items r <> []
                   /\ Forall (fun x => x < 0.15) (run_items r))
         (fast_runs intervals).
Proof.
  unfold fast_runs.
  pose proof (fast_runs_from_at intervals 0%Z None [] eq_refl (or_introl eq_refl)) as A.
  pose proof (fast_runs_from_items intervals 0%Z None) as B.
  cbn [app] in A.
  assert (B' := B ltac:(discriminate)).
  rewrite Forall_forall in *. intros r Hr. split; [now apply A | now apply B'].
Qed.



(** ** Hesitations *)

Lemma hesitation_loop_points intervals :
  forall i locations hesitations,
    hesitation_loop i intervals locations hesitations
    = let pts := filter (fun ix => Qle_bool 3 (snd ix))
                        (indexed_from i intervals) in
      (locations ++ map fst pts, hesitations ++ map hesitation_record pts).
Proof.
  induction intervals as [| x rest IH]; intros i locations hesitations;
    cbn [hesitation_loop indexed_from filter].
  - cbn. now rewrite !app_nil_r.
  - unfold HESITATION_THRESHOLD, Py.geb at 1.
    assert (E : Qle_bool 3.0 x = Qle_bool 3 x) by (apply Qleb_comp; reflexivity).
    rewrite E. cbn [snd].
    destruct (Qle_bool 3 x).
    + rewrite IH. cbv zeta. cbn [map fst]. rewrite <- !app_assoc. reflexivity.
    + apply IH.
Qed.

(** [_map_hesitations] lists the intervals of at least three seconds; the
    duration of each record is rounded to two decimals where the record is
    built. *)
Lemma map_hesitations_points intervals :
  _map_hesitations intervals
  = let pts := hesitation_points intervals in
    (Py.len pts, map fst pts, map hesitation_record pts).
Proof.
  unfold _map_hesitations. rewrite hesitation_loop_points. cbv zeta.
  cbn [app]. unfold hesitation_points, Py.len. now rewrite length_map.
Qed.

(** ** Fluency *)

Lemma max_zero_Qmax v : Py.max 0 v == Qmax 0 v.
Proof.
  destruct (max_cases 0 v) as [[H ->] | [H ->]].
  - symmetry. apply Q.max_r. lra.
  - symmetry. apply Q.max_l. exact H.
Qed.

Lemma Qmax_zero_range v : v <= 1 -> 0 <= Qmax 0 v <= 1.
Proof.
  intros H. destruct (Q.max_spec 0 v) as [[? ->] | [? ->]]; lra.
Qed.

Lemma fluency_band_comp x y : x == y -> fluency_band x = fluency_band y.
Proof.
  intros E. unfold fluency_band.
  now rewrite !(Qleb_comp _ _ (Qeq_refl _) _ _ E).
Qed.

Lemma calculate_fluency_formula c dr pp h :
  fst (_calculate_fluency c dr pp h)
  == fluency_formula c dr (short_pauses pp) (medium_pauses pp)
       (long_pauses pp) h
  /\ snd (_calculate_fluency c dr pp h)
     = fluency_band (fst (_calculate_fluency c dr pp h)).
Proof.
  unfold _calculate_fluency, fluency_formula, fluency_band. cbn [fst snd].
  split.
  - rewrite !max_zero_Qmax.
    replace (short_pauses pp + medium_pauses pp * 2 + long_pauses pp * 3)%Z
      with (short_pauses pp + 2 * medium_pauses pp + 3 * long_pauses pp)%Z
      by lia.
    assert (E : 1 - dr * 2 == 1 - 2 * dr) by ring.
    now rewrite E.
  - unfold Py.geb.
    repeat match goal with
           | |- context [Qle_bool ?a ?b] => destruct (Qle_bool a b)
           end; reflexivity.
Qed.

Lemma fluency_formula_range c dr s m l h :
  0 <= c <= 1 -> 0 <= dr -> (0 <= s)%Z -> (0 <= m)%Z -> (0 <= l)%Z ->
  (0 <= h)%Z ->
  0 <= fluency_formula c dr s m l h <= 1.
Proof.
  intros Hc Hdr Hs Hm Hl Hh. unfold fluency_formula.
  assert (Hp : 0 <= inject_Z (s + 2 * m + 3 * l)).
  { change 0 with (inject_Z 0). rewrite <- Zle_Qle. lia. }
  assert (Hq : 0 <= inject_Z h).
  { change 0 with (inject_Z 0). rewrite <- Zle_Qle. lia. }
  pose proof (Qmax_zero_range (1 - 2 * dr)) as A.
  pose proof (Qmax_zero_range (1 - inject_Z (s + 2 * m + 3 * l) / 10)) as B.
  pose proof (Qmax_zero_range (1 - inject_Z h / 5)) as C.
  assert (X : inject_Z (s + 2 * m + 3 * l) / 10
              == inject_Z (s + 2 * m + 3 * l) * (1 # 10)) by reflexivity.
  assert (Y : inject_Z h / 5 == inject_Z h * (1 # 5)) by reflexivity.
  lra.
Qed.

Lemma len_nonneg {A : Type} (l : list A) : (0 <= Py.len l)%Z.
Proof. unfold Py.len. lia. Qed.

Lemma deletion_ratio_exact self :
  events self <> [] ->
  snd (fst (_analyze_deletions self))
  = inject_Z (fst (fst (_analyze_deletions self)))
    / inject_Z (Py.len (events self)).
Proof.
  intros H. unfold _analyze_deletions. cbn [fst snd].
  destruct (events self); [congruence | reflexivity].
Qed.

Lemma deletion_ratio_nonneg self :
  0 <= snd (fst (_analyze_deletions self)).
Proof.
  unfold _analyze_deletions. cbn [fst snd].
  destruct (events self) as [| e l] eqn:E; [lra |].
  apply Qle_shift_div_l.
  - change 0 with (inject_Z 0). rewrite <- Zlt_Qlt. unfold Py.len. cbn. lia.
  - rewrite Qmult_0_l. change 0 with (inject_Z 0). rewrite <- Zle_Qle.
    apply len_nonneg.
Qed.

(** ** Rhythm type *)





(** ** Where the floats are rounded *)

(** C2, as stated, fails: values are rounded before the result is
    assembled.  For five intervals of 60 ms followed by one of 3.14159 s,
    the burst detector hands the assembler the maximal speed 16.7, not the
    full-precision 5 / 0.3, and the hesitation mapper records the duration
    3.14, not 3.14159. *)
Lemma rounding_before_assembly :
  let intervals := [0.06; 0.06; 0.06; 0.06; 0.06; 3.14159] in
  snd (_detect_bursts intervals) = 16.7
  /\ max_run_speed intervals == 50 # 3
  /\ ~ snd (_detect_bursts intervals) == max_run_speed intervals
  /\ map bs_avg_speed (snd (fst (_detect_bursts intervals))) = [16.7]
  /\ map hs_duration (snd (_map_hesitations intervals)) = [157 # 50]
  /\ (157 # 50) == 3.14
  /\ ~ 3.14 == 3.14159.
Proof.
  intros intervals. repeat split; try (vm_compute; reflexivity);
    vm_compute; discriminate.
Qed.

(** ** Deletions *)

(** Deletions at the end of the log add nothing to the patterns: a run is
    only recorded when a later event closes it. *)
Lemma deletion_scan_trailing evs dels :
  Forall (fun e => is_deletion_key e = true) dels ->
  forall patterns consecutive,
    deletion_scan (evs ++ dels) patterns consecutive
    = deletion_scan evs patterns consecutive.
Proof.
  intros Hd. induction evs as [| e evs IH]; intros patterns consecutive.
  - cbn [app deletion_scan]. revert consecutive.
    induction Hd as [| d dels Hk _ IHd]; intros consecutive; [reflexivity |].
    cbn [deletion_scan]. unfold is_deletion_key in Hk. rewrite Hk. apply IHd.
  - cbn [app deletion_scan].
    destruct (Py.str_in (event_type e) ["backspace"; "delete"]); apply IH.
Qed.

(** C3: the claim asks that a run of three or more deletions reaching the
    end of the log be recorded.  The scan of [_analyze_deletions] has no
    step after its loop (unlike [_detect_bursts]), so such a run is lost:
    three backspaces alone give no pattern, although the same run followed
    by one keystroke gives [{consecutive, 3}].  A trailing run of two is not
    recorded either. *)
Theorem trailing_deletion_run_lost :
  snd (_analyze_deletions
         (mkRhythmDetector
            (log_of ["backspace"; "backspace"; "backspace"] 1 1)
            false (Some 0.5)))
  = []
  /\ snd (_analyze_deletions
            (mkRhythmDetector
               (log_of ["backspace"; "backspace"; "backspace"; "type"] 1 1)
               false (Some 0.5)))
     = [mkDeletionPattern "consecutive" 3]
  /\ snd (_analyze_deletions
            (mkRhythmDetector
               (log_of ["type"; "backspace"; "backspace"; "backspace"; "type"]
                  1 1)
               false (Some 0.5)))
     = [mkDeletionPattern "consecutive" 3]
  /\ snd (_analyze_deletions
            (mkRhythmDetector (log_of ["backspace"; "backspace"] 1 1)
               false (Some 0.5)))
     = []
  /\ (forall n t0 dt flag start,
        snd (_analyze_deletions
               (mkRhythmDetector (log_of (repeat "backspace" n) t0 dt)
                  flag start))
        = [])
  /\ deletion_patterns
       (snd (finish_monitoring sqrt_approx 105 "2025-01-01T00:00:05"
               (text_of_string "H")
               (record_keystroke 104 EmptyString "backspace"
                  (record_keystroke 103 EmptyString "backspace"
                     (record_keystroke 102 EmptyString "backspace"
                        (record_keystroke 101 "i" "type"
                           (record_keystroke (1005 # 10) "H" "type"
                              (start_monitoring 100 __init__))))))))
     = [].
Proof.
  repeat split; try (vm_compute; reflexivity).
  intros n t0 dt flag start. unfold _analyze_deletions. cbn [snd events].
  rewrite <- (app_nil_l (log_of _ _ _)).
  rewrite deletion_scan_trailing; [reflexivity |].
  revert t0. induction n as [| n IH]; intros t0; cbn [repeat log_of];
    constructor; [reflexivity | apply IH].
Qed.

(** * The rest of the detector *)

(** ** Recording *)

Lemma record_all_monitoring ks :
  forall self,
    is_monitoring self = true ->
    events (record_all ks self) = events self ++ map event_of ks
    /\ start_time (record_all ks self) = start_time self
    /\ is_monitoring (record_all ks self) = true.
Proof.
  induction ks as [| k ks IH]; intros self M; cbn [record_all fold_left map].
  - rewrite app_nil_r. auto.
  - fold (record_all ks (record_keystroke (k_time k) (k_char k) (k_type k) self)).
    assert (E : record_keystroke (k_time k) (k_char k) (k_type k) self
                = mkRhythmDetector
                    (events self
                     ++ [mkTypingEvent (k_type k) (k_char k) (k_time k)])
                    true (start_time self))
      by (unfold record_keystroke; rewrite M; reflexivity).
    rewrite E.
    destruct (IH (mkRhythmDetector
                    (events self
                     ++ [mkTypingEvent (k_type k) (k_char k) (k_time k)])
                    true (start_time self)) eq_refl) as (He & Hs & Hm).
    cbn [events start_time] in He, Hs.
    rewrite He, Hs, Hm, <- app_assoc. auto.
Qed.

Lemma record_all_started ks now self :
  events (record_all ks (start_monitoring now self)) = map event_of ks
  /\ start_time (record_all ks (start_monitoring now self)) = Some now
  /\ is_monitoring (record_all ks (start_monitoring now self)) = true.
Proof.
  exact (record_all_monitoring ks (start_monitoring now self) eq_refl).
Qed.

(** X1: A run of [record_keystroke] calls appends every event, in order,
    while the detector is monitoring, and changes nothing while it is idle;
    the flag and the start time are never touched. *)
Theorem record_all_log :
  forall ks self,
    events (record_all ks self)
    = (if is_monitoring self
       then events self ++ map event_of ks
       else events self)
    /\ is_monitoring (record_all ks self) = is_monitoring self
    /\ start_time (record_all ks self) = start_time self.
Proof.
  induction ks as [| k ks IH]; intros self; cbn [record_all fold_left map].
  - destruct (is_monitoring self); rewrite ?app_nil_r; auto.
  - fold (record_all ks (record_keystroke (k_time k) (k_char k) (k_type k) self)).
    destruct (IH (record_keystroke (k_time k) (k_char k) (k_type k) self))
      as (He & Hm & Hs).
    rewrite He, Hm, Hs. unfold record_keystroke.
    destruct (is_monitoring self) eqn:M; cbn [negb events is_monitoring start_time].
    + rewrite ?M, <- app_assoc. auto.
    + rewrite ?M. auto.
Qed.

Lemma map_point_event evs :
  map point_event
    (map (fun e => mkTrajectoryPoint (event_type e) (char e) (timestamp e)) evs)
  = evs.
Proof.
  induction evs as [| [ty c t] evs IH]; cbn; [reflexivity |].
  now rewrite IH.
Qed.

(** X2: A session driven through the public methods: after [start_monitoring]
    at a non-zero clock reading and at least one [record_keystroke], the
    profile counts exactly the recorded keystrokes, its trajectory gives
    them back in order, and its duration runs from the start reading to the
    end reading, whatever the detector held before. *)
Theorem recorded_session_profile :
  forall (sqrt : Q -> Q) self now ks end_time now_iso final_text,
    ks <> [] ->
    ~ now == 0 ->
    let p :=
      snd (finish_monitoring sqrt end_time now_iso final_text
             (record_all ks (start_monitoring now self))) in
    total_keystrokes p = Py.len ks
    /\ map point_event (typing_trajectory p) = map event_of ks
    /\ duration_seconds p = Py.round (end_time - now) 2
    /\ actual_chars p = Py.len final_text.
Proof.
  intros sqrt self now ks end_time now_iso final_text Hks Hnow p.
  destruct (record_all_started ks now self) as (He & Hs & _).
  assert (Hne : nonempty_session (record_all ks (start_monitoring now self))).
  { split.
    - rewrite He. destruct ks; [congruence | discriminate].
    - rewrite Hs. cbn. apply negb_true_iff.
      destruct (Py.eqb now 0) eqn:E; [| reflexivity].
      apply Qeq_bool_iff in E. contradiction. }
  destruct (finish_monitoring_nonempty sqrt end_time now_iso final_text _ Hne)
    as (start & Hst & Hp).
  assert (start = now) by congruence. subst start.
  subst p. rewrite Hp, analyze_fields. cbv zeta. profile_fields.
  rewrite He, map_point_event. unfold Py.len. rewrite length_map.
  repeat split.
Qed.

Lemma recorded_session_profile_witness :
  let ks := [mkKeystroke 101 "H" "type"; mkKeystroke 102 "i" "type"] in
  (ks <> [] /\ ~ 100 == 0)
  /\ total_keystrokes
       (snd (finish_monitoring sqrt_approx 105 "2025-01-01T00:00:05"
               (text_of_string "Hi")
               (record_all ks (start_monitoring 100 __init__))))
     = 2%Z.
Proof.
  intro ks.
  assert (H1 : ks <> []) by discriminate.
  assert (H2 : ~ 100 == 0) by discriminate.
  split; [split; assumption |].
  exact (proj1 (recorded_session_profile sqrt_approx __init__ 100 ks 105
                  "2025-01-01T00:00:05" (text_of_string "Hi") H1 H2)).
Defined.

(** X3: The start time is tested for truth, so a session started when the clock
    reads 0.0 counts as never started: whatever was recorded, the result is
    the empty default. *)
Theorem session_started_at_zero :
  forall (sqrt : Q -> Q) self now ks end_time now_iso final_text,
    now == 0 ->
    snd (finish_monitoring sqrt end_time now_iso final_text
           (record_all ks (start_monitoring now self)))
    = _empty_result now_iso.
Proof.
  intros sqrt self now ks end_time now_iso final_text Hnow.
  destruct (record_all_started ks now self) as (He & Hs & _).
  unfold finish_monitoring. cbn [events start_time]. rewrite He, Hs.
  destruct (map event_of ks); [reflexivity |].
  cbn [start_time_truthy]. unfold Py.eqb.
  apply Qeq_bool_iff in Hnow. rewrite Hnow. reflexivity.
Qed.

Lemma session_started_at_zero_witness :
  0 == 0
  /\ snd (finish_monitoring sqrt_approx 5 "1970-01-01T00:00:05"
            (text_of_string "Hi")
            (record_all [mkKeystroke 1 "H" "type"; mkKeystroke 2 "i" "type"]
               (start_monitoring 0 __init__)))
     = _empty_result "1970-01-01T00:00:05".
Proof.
  split; [reflexivity |].
  apply (session_started_at_zero sqrt_approx __init__ 0). reflexivity.
Defined.

(** ** Intervals *)

Lemma intervals_of_length l :
  List.length (intervals_of l) = Nat.pred (List.length l).
Proof.
  induction l as [| a l IH]; [reflexivity |].
  destruct l as [| b l]; [reflexivity |].
  cbn [intervals_of List.length] in *. now rewrite IH.
Qed.

Lemma last_cons {A : Type} (b : A) l a : last (b :: l) a = last l b.
Proof.
  revert a b. induction l as [| c l IH]; intros a b; [reflexivity |].
  change (last (b :: c :: l) a) with (last (c :: l) a).
  now rewrite !IH.
Qed.

Lemma intervals_of_total first rest :
  total (intervals_of (first :: rest))
  == timestamp (last rest first) - timestamp first.
Proof.
  revert first. induction rest as [| b rest IH]; intros first.
  - cbn. ring.
  - change (intervals_of (first :: b :: rest))
      with ((timestamp b - timestamp first) :: intervals_of (b :: rest)).
    cbn [total fold_right]. fold (total (intervals_of (b :: rest))).
    rewrite IH, last_cons. ring.
Qed.

Lemma interval_count self :
  session_intervals self = intervals_of (filter is_typing (events self))
  /\ Py.len (session_intervals self)
     = Z.max 0 (Py.len (filter is_typing (events self)) - 1).
Proof.
  split; [reflexivity |].
  unfold session_intervals. fold is_typing. unfold Py.len.
  rewrite intervals_of_length. lia.
Qed.

(** X4: The interval extractor: [n] typing events give [n - 1] intervals (none
    for zero or one event), and the intervals add up to the time from the
    first typing event to the last. *)
Theorem interval_extraction :
  forall self,
    let typed := filter is_typing (events self) in
    Py.len (session_intervals self) = Z.max 0 (Py.len typed - 1)
    /\ (forall first rest,
          typed = first :: rest ->
          Py.sum (session_intervals self)
          == timestamp (last rest first) - timestamp first).
Proof.
  intros self typed.
  assert (E : session_intervals self = intervals_of typed) by reflexivity.
  rewrite E. split.
  - unfold Py.len. rewrite intervals_of_length. lia.
  - intros first rest ->. rewrite sum_total. apply intervals_of_total.
Qed.

Lemma sorted_map_event ks :
  StronglySorted Qle (map k_time ks) ->
  StronglySorted (fun a b => timestamp a <= timestamp b) (map event_of ks).
Proof.
  induction ks as [| k ks IH]; cbn [map]; intros H; [constructor |].
  apply StronglySorted_inv in H. destruct H as [Hs Hf].
  constructor; [now apply IH |].
  rewrite Forall_map in *. exact Hf.
Qed.

Lemma sorted_filter (p : TypingEvent -> bool) l :
  StronglySorted (fun a b => timestamp a <= timestamp b) l ->
  StronglySorted (fun a b => timestamp a <= timestamp b) (filter p l).
Proof.
  induction l as [| a l IH]; cbn [filter]; intros H; [constructor |].
  apply StronglySorted_inv in H. destruct H as [Hs Hf].
  destruct (p a); [| now apply IH].
  constructor; [now apply IH |].
  rewrite Forall_forall in *. intros x Hx. apply Hf.
  apply filter_In in Hx. tauto.
Qed.

Lemma intervals_of_nonneg l :
  StronglySorted (fun a b => timestamp a <= timestamp b) l ->
  Forall (fun x => 0 <= x) (intervals_of l).
Proof.
  induction l as [| a l IH]; intros H; [constructor |].
  apply StronglySorted_inv in H. destruct H as [Hs Hf].
  destruct l as [| b l]; [constructor |].
  change (intervals_of (a :: b :: l))
    with ((timestamp b - timestamp a) :: intervals_of (b :: l)).
  constructor; [| now apply IH].
  apply Forall_inv in Hf. lra.
Qed.

(** X5: With a clock that never goes back, no interval is negative. *)
Theorem monotone_clock_intervals :
  forall self now ks,
    StronglySorted Qle (map k_time ks) ->
    Forall (fun x => 0 <= x)
           (session_intervals (record_all ks (start_monitoring now self))).
Proof.
  intros self now ks H.
  destruct (record_all_started ks now self) as (He & _).
  unfold session_intervals. rewrite He.
  apply intervals_of_nonneg, sorted_filter, sorted_map_event, H.
Qed.

Lemma monotone_clock_intervals_witness :
  let ks := [mkKeystroke 101 "H" "type"; mkKeystroke 101 "i" "type";
             mkKeystroke 103 "!" "type"] in
  StronglySorted Qle (map k_time ks)
  /\ Forall (fun x => 0 <= x)
            (session_intervals (record_all ks (start_monitoring 100 __init__))).
Proof.
  intro ks.
  assert (H : StronglySorted Qle (map k_time ks)).
  { repeat (constructor; try discriminate). }
  split; [exact H | exact (monotone_clock_intervals __init__ 100 ks H)].
Defined.

(** ** Deletions and modifications *)

Lemma len_filter_le {A : Type} (p : A -> bool) l :
  (0 <= Py.len (filter p l) <= Py.len l)%Z.
Proof.
  unfold Py.len. pose proof (filter_length_le p l). lia.
Qed.

Lemma pattern_lengths_app ps qs :
  pattern_lengths (ps ++ qs) = (pattern_lengths ps + pattern_lengths qs)%Z.
Proof.
  unfold pattern_lengths. rewrite map_app.
  induction (map dp_length ps) as [| x l IH]; cbn; [reflexivity | lia].
Qed.

Lemma len_cons {A : Type} (x : A) l : Py.len (x :: l) = (Py.len l + 1)%Z.
Proof. unfold Py.len. cbn [List.length]. lia. Qed.

(** The scan keeps its patterns well formed and never counts a keystroke
    twice: [consecutive] is the length of the run being read. *)
Lemma deletion_scan_bounds evs :
  forall patterns consecutive,
    (0 <= consecutive)%Z ->
    Forall (fun p => dp_type p = "consecutive" /\ (3 <= dp_length p)%Z)
           patterns ->
    let out := deletion_scan evs patterns consecutive in
    Forall (fun p => dp_type p = "consecutive" /\ (3 <= dp_length p)%Z) out
    /\ (pattern_lengths out
        <= pattern_lengths patterns + consecutive
           + Py.len (filter is_deletion_key evs))%Z.
Proof.
  induction evs as [| e evs IH]; intros patterns consecutive Hc Hp;
    cbn [deletion_scan filter].
  - split; [exact Hp |]. unfold Py.len. cbn. lia.
  - unfold is_deletion_key at 1.
    destruct (Py.str_in (event_type e) ["backspace"; "delete"]).
    + destruct (IH patterns (consecutive + 1)%Z ltac:(lia) Hp) as [A B].
      split; [exact A |]. rewrite len_cons. cbv zeta in B. lia.
    + destruct (Z.geb_spec consecutive 3) as [G | G].
      * assert (Hp' : Forall (fun p => dp_type p = "consecutive"
                                       /\ (3 <= dp_length p)%Z)
                             (patterns ++ [mkDeletionPattern "consecutive" consecutive])).
        { apply Forall_app. split; [exact Hp |].
          constructor; [cbn; split; [reflexivity | lia] | constructor]. }
        destruct (IH _ 0%Z ltac:(lia) Hp') as [A B].
        split; [exact A |]. cbv zeta in B.
        rewrite pattern_lengths_app in B. cbn in B. lia.
      * destruct (IH patterns 0%Z ltac:(lia) Hp) as [A B].
        split; [exact A |]. cbv zeta in B. lia.
Qed.

Lemma deletion_key_is_deletion e :
  is_deletion_key e = true -> is_deletion e = true.
Proof.
  unfold is_deletion_key, is_deletion, Py.str_in. cbn [existsb].
  rewrite !orb_false_r. intros H.
  apply orb_true_iff in H. destruct H as [H | H]; rewrite H;
    rewrite ?orb_true_r; reflexivity.
Qed.

Lemma filter_len_mono {A : Type} (p q : A -> bool) l :
  (forall x, p x = true -> q x = true) ->
  (Py.len (filter p l) <= Py.len (filter q l))%Z.
Proof.
  intros H. induction l as [| x l IH]; cbn [filter]; [lia |].
  destruct (p x) eqn:P.
  - rewrite (H x P), !len_cons. lia.
  - destruct (q x); rewrite ?len_cons; lia.
Qed.

(** X6: The deletion count is at most the number of events and the ratio lies
    in [0, 1], also after rounding; with no events both are 0. *)
Theorem deletion_ratio_bounds :
  forall self,
    let d := _analyze_deletions self in
    (0 <= fst (fst d) <= Py.len (events self))%Z
    /\ 0 <= snd (fst d) <= 1
    /\ 0 <= Py.round (snd (fst d)) 3 <= 1
    /\ (fst (fst d) = Py.len (events self) -> events self <> [] ->
        snd (fst d) == 1)
    /\ (fst (fst d) = 0%Z -> snd (fst d) == 0).
Proof.
  intros self d. subst d. unfold _analyze_deletions. cbn [fst snd].
  pose proof (len_filter_le
                (fun e => Py.str_in (event_type e)
                            ["backspace"; "delete"; "composition_delete"])
                (events self)) as Hc.
  set (c := Py.len (filter _ (events self))) in *.
  assert (Hr : 0 <= match events self with
                    | [] => 0
                    | _ :: _ => inject_Z c / inject_Z (Py.len (events self))
                    end <= 1).
  { destruct (events self) as [| e l] eqn:E; [lra |].
    assert (Hn : 0 < inject_Z (Py.len (e :: l))).
    { change 0 with (inject_Z 0). rewrite <- Zlt_Qlt. rewrite len_cons.
      pose proof (len_nonneg l). lia. }
    split.
    - apply Qle_shift_div_l; [exact Hn |]. rewrite Qmult_0_l.
      change 0 with (inject_Z 0). rewrite <- Zle_Qle. lia.
    - apply Qle_shift_div_r; [exact Hn |]. rewrite Qmult_1_l.
      rewrite <- Zle_Qle. lia. }
  split; [exact Hc |]. split; [exact Hr |].
  split; [now apply round_unit_interval |]. split.
  - intros Hall Hne. destruct (events self) as [| e l] eqn:E; [congruence |].
    rewrite Hall.
    assert (Hn : 0 < inject_Z (Py.len (e :: l))).
    { change 0 with (inject_Z 0). rewrite <- Zlt_Qlt. rewrite len_cons.
      pose proof (len_nonneg l). lia. }
    field. lra.
  - intros Hz. rewrite Hz. destruct (events self); [reflexivity |].
    unfold Qdiv. change (inject_Z 0) with 0. ring.
Qed.

(** X7: Every deletion pattern is a consecutive run of at least three
    keystrokes, and the runs are disjoint: three times their number is at
    most their total length, which is at most the deletion count. *)
Theorem deletion_patterns_bounds :
  forall self,
    let d := _analyze_deletions self in
    Forall (fun p => dp_type p = "consecutive" /\ (3 <= dp_length p)%Z) (snd d)
    /\ (3 * Py.len (snd d) <= pattern_lengths (snd d))%Z
    /\ (pattern_lengths (snd d) <= fst (fst d))%Z.
Proof.
  intros self d. subst d. unfold _analyze_deletions. cbn [fst snd].
  destruct (deletion_scan_bounds (events self) [] 0%Z ltac:(lia)
              ltac:(constructor)) as [A B].
  cbv zeta in B. cbn [pattern_lengths map fold_right] in B.
  split; [exact A |]. split.
  - clear B. induction A as [| p ps [_ Hp] _ IH]; [cbn; lia |].
    rewrite len_cons. unfold pattern_lengths in *. cbn [map fold_right]. lia.
  - pose proof (filter_len_mono is_deletion_key is_deletion (events self)
                  deletion_key_is_deletion) as M.
    unfold is_deletion in M at 1. lia.
Qed.

Lemma typing_not_deletion e : is_typing e = true -> is_deletion e = false.
Proof.
  unfold is_typing, is_deletion, Py.str_in. cbn [existsb].
  rewrite !orb_false_r, !orb_true_iff, !String.eqb_eq.
  intros [H | [H | H]]; rewrite H; reflexivity.
Qed.

Lemma typing_not_selection e : is_typing e = true -> is_selection e = false.
Proof.
  unfold is_typing, is_selection, Py.str_in. cbn [existsb].
  rewrite !orb_false_r, !orb_true_iff, !String.eqb_eq.
  intros [H | [H | H]]; rewrite H; reflexivity.
Qed.

Lemma deletion_not_selection e : is_deletion e = true -> is_selection e = false.
Proof.
  unfold is_deletion, is_selection, Py.str_in. cbn [existsb].
  rewrite !orb_false_r, !orb_true_iff, !String.eqb_eq.
  intros [H | [H | H]]; rewrite H; reflexivity.
Qed.

(** X8: An event is a typing event, a deletion or a selection, never two of
    them, so the three counts of the analysis never exceed the number of
    events; the list of modifications is always empty. *)
Theorem event_classes_disjoint :
  forall self,
    (Py.len (filter is_typing (events self))
     + fst (fst (_analyze_deletions self))
     + fst (_analyze_modifications self)
     <= Py.len (events self))%Z
    /\ (0 <= fst (_analyze_modifications self))%Z
    /\ snd (_analyze_modifications self) = [].
Proof.
  intros self. unfold _analyze_deletions, _analyze_modifications.
  cbn [fst snd]. fold is_deletion. fold is_selection.
  split; [| split; [apply len_filter_le | reflexivity]].
  induction (events self) as [| e l IH]; cbn [filter]; [cbn; lia |].
  rewrite (len_cons e l).
  destruct (is_typing e) eqn:T.
  - rewrite (typing_not_deletion e T), (typing_not_selection e T), len_cons.
    lia.
  - destruct (is_deletion e) eqn:D.
    + rewrite (deletion_not_selection e D), len_cons. lia.
    + destruct (is_selection e); rewrite ?len_cons; lia.
Qed.

(** ** Pauses and hesitations *)

Lemma pause_tests x :
  (short_pauseb x = true <-> 2 <= x /\ x < 5)
  /\ (medium_pauseb x = true <-> 5 <= x /\ x < 15)
  /\ (long_pauseb x = true <-> 15 <= x).
Proof.
  split; [apply short_pauseb_spec |].
  split; [apply medium_pauseb_spec | apply long_pauseb_spec].
Qed.

Lemma Qle_bool_false a b : Qle_bool a b = false <-> b < a.
Proof.
  split; intros H.
  - destruct (Qlt_le_dec b a) as [L | L]; [exact L |].
    apply Qle_bool_iff in L. congruence.
  - destruct (Qle_bool a b) eqn:E; [| reflexivity].
    apply Qle_bool_iff in E. lra.
Qed.

(** Decide every bucket test on [x] and keep the order facts. *)
Ltac bucket_cases x :=
  let S := fresh "S" in let M := fresh "M" in let L := fresh "L" in
  destruct (pause_tests x) as (S & M & L);
  destruct (short_pauseb x); destruct (medium_pauseb x);
  destruct (long_pauseb x);
  repeat match goal with
         | H : true = true <-> _ |- _ =>
             let F := fresh "F" in
             assert (F := proj1 H eq_refl); clear H
         | H : false = true <-> _ |- _ =>
             let F := fresh "F" in
             assert (F := fun X => Bool.diff_false_true (proj2 H X)); clear H
         end.

Lemma pauses_partition intervals :
  (Py.len (filter short_pauseb intervals)
   + Py.len (filter medium_pauseb intervals)
   + Py.len (filter long_pauseb intervals)
   = Py.len (filter (fun x => Qle_bool 2 x) intervals))%Z.
Proof.
  induction intervals as [| x l IH]; cbn [filter]; [reflexivity |].
  destruct (Qle_bool 2 x) eqn:E;
    [apply Qle_bool_iff in E | apply Qle_bool_false in E];
    bucket_cases x; rewrite ?len_cons; try lia; exfalso;
    destruct (Qlt_le_dec x 5); destruct (Qlt_le_dec x 15);
    intuition lra.
Qed.

Lemma pattern_labels intervals :
  let p := _analyze_pauses intervals in
  In (pattern p) ["contemplative"; "thoughtful"; "choppy"; "continuous"]
  /\ (pattern p = "continuous" <->
      (short_pauses p + medium_pauses p + long_pauses p = 0)%Z).
Proof.
  intros p. subst p. rewrite analyze_pauses_buckets. cbv zeta.
  cbn [short_pauses medium_pauses long_pauses pattern].
  fold (Py.len (filter short_pauseb intervals)).
  fold (Py.len (filter medium_pauseb intervals)).
  fold (Py.len (filter long_pauseb intervals)).
  pose proof (len_filter_le short_pauseb intervals) as Hs.
  pose proof (len_filter_le medium_pauseb intervals) as Hm.
  pose proof (len_filter_le long_pauseb intervals) as Hl.
  pose proof (sum_ones_pos long_pauseb intervals) as EL.
  pose proof (sum_ones_pos medium_pauseb intervals) as EM.
  pose proof (sum_ones_pos short_pauseb intervals) as ES.
  rewrite sum_ones_count in EL, EM, ES.
  fold (Py.len (filter long_pauseb intervals)) in EL.
  fold (Py.len (filter medium_pauseb intervals)) in EM.
  fold (Py.len (filter short_pauseb intervals)) in ES.
  rewrite <- EL, <- EM, <- ES.
  destruct (Z.gtb_spec (Py.len (filter long_pauseb intervals)) 0);
    [| destruct (Z.gtb_spec (Py.len (filter medium_pauseb intervals)) 0);
       [| destruct (Z.gtb_spec (Py.len (filter short_pauseb intervals)) 0)]];
    cbn [PausePattern_value In];
    (split; [tauto |]);
    split; intros; try discriminate; try reflexivity; lia.
Qed.

(** X9: The three buckets are disjoint: the pause counts add up to the number
    of intervals of at least two seconds.  The pattern is one of four
    labels, never "mixed", and it is "continuous" exactly when the three
    counts are 0. *)
Theorem pause_counts_partition :
  forall intervals,
    let p := _analyze_pauses intervals in
    (0 <= short_pauses p)%Z /\ (0 <= medium_pauses p)%Z
    /\ (0 <= long_pauses p)%Z
    /\ (short_pauses p + medium_pauses p + long_pauses p
        = Py.len (filter (fun x => Qle_bool 2 x) intervals))%Z
    /\ (short_pauses p + medium_pauses p + long_pauses p
        <= Py.len intervals)%Z
    /\ In (pattern p) ["contemplative"; "thoughtful"; "choppy"; "continuous"]
    /\ pattern p <> "mixed"
    /\ (pattern p = "continuous" <->
        (short_pauses p + medium_pauses p + long_pauses p = 0)%Z).
Proof.
  intros intervals p.
  destruct (pattern_labels intervals) as [HI HC]. fold p in HI, HC.
  assert (HM : pattern p <> "mixed").
  { intros E. rewrite E in HI. cbn in HI.
    repeat (destruct HI as [HI | HI]; try discriminate). exact HI. }
  revert HI HC HM. subst p. rewrite analyze_pauses_buckets. cbv zeta.
  cbn [short_pauses medium_pauses long_pauses pattern].
  fold (Py.len (filter short_pauseb intervals)).
  fold (Py.len (filter medium_pauseb intervals)).
  fold (Py.len (filter long_pauseb intervals)).
  intros HI HC HM.
  pose proof (len_filter_le short_pauseb intervals) as Hs.
  pose proof (len_filter_le medium_pauseb intervals) as Hm.
  pose proof (len_filter_le long_pauseb intervals) as Hl.
  pose proof (pauses_partition intervals) as Hp.
  pose proof (len_filter_le (fun x => Qle_bool 2 x) intervals) as H2.
  repeat (split; [lia |]). auto.
Qed.

Lemma indexed_from_snd l : forall k, map snd (indexed_from k l) = l.
Proof.
  induction l as [| x l IH]; intros k; cbn; [reflexivity |]. now rewrite IH.
Qed.

Lemma indexed_from_In l :
  forall k i x,
    In (i, x) (indexed_from k l) <->
    (k <= i)%Z /\ nth_error l (Z.to_nat (i - k)) = Some x.
Proof.
  induction l as [| y l IH]; intros k i x; cbn [indexed_from In].
  - split; [tauto |]. intros [_ H]. destruct (Z.to_nat (i - k)); discriminate.
  - rewrite IH. split.
    + intros [E | [Hk Hn]].
      * injection E as <- <-. split; [lia |].
        now replace (Z.to_nat (k - k)) with 0%nat by lia.
      * split; [lia |].
        replace (Z.to_nat (i - k)) with (S (Z.to_nat (i - (k + 1)))) by lia.
        exact Hn.
    + intros [Hk Hn].
      destruct (Z.eq_dec i k) as [-> | Hne].
      * left. replace (Z.to_nat (k - k)) with 0%nat in Hn by lia.
        cbn in Hn. congruence.
      * right. split; [lia |].
        replace (Z.to_nat (i - k)) with (S (Z.to_nat (i - (k + 1)))) in Hn
          by lia.
        exact Hn.
Qed.

Lemma indexed_from_sorted l :
  forall k,
    StronglySorted Z.lt (map fst (indexed_from k l))
    /\ Forall (fun i => (k <= i)%Z) (map fst (indexed_from k l)).
Proof.
  induction l as [| x l IH]; intros k; cbn [indexed_from map fst].
  - split; constructor.
  - destruct (IH (k + 1)%Z) as [S F]. split.
    + constructor; [exact S |].
      eapply Forall_impl; [| exact F]. cbn. intros; lia.
    + constructor; [lia |].
      eapply Forall_impl; [| exact F]. cbn. intros; lia.
Qed.

Lemma sorted_filter_fst (p : Z * Q -> bool) l :
  StronglySorted Z.lt (map fst l) ->
  StronglySorted Z.lt (map fst (filter p l)).
Proof.
  induction l as [| a l IH]; cbn [filter map]; intros H; [constructor |].
  apply StronglySorted_inv in H. destruct H as [Hs Hf].
  destruct (p a); [| now apply IH].
  cbn [map]. constructor; [now apply IH |].
  rewrite Forall_forall in *. intros i Hi. apply Hf.
  apply in_map_iff in Hi. destruct Hi as (ix & <- & Hin).
  apply in_map. apply filter_In in Hin. tauto.
Qed.

Lemma severity_of_cases x :
  (severity_of x = "very_long" /\ 10 <= x)
  \/ (severity_of x = "long" /\ 5 <= x /\ x < 10)
  \/ (severity_of x = "medium" /\ x < 5).
Proof.
  unfold severity_of.
  destruct (Qle_bool 10 x) eqn:A;
    [apply Qle_bool_iff in A; now left | apply Qle_bool_false in A].
  destruct (Qle_bool 5 x) eqn:B;
    [apply Qle_bool_iff in B | apply Qle_bool_false in B]; auto.
Qed.

(** X10: The hesitation mapper reports exactly the intervals of at least three
    seconds: the count is the number of records, the locations are the
    records' locations in increasing order, every record points at such an
    interval and holds its duration rounded to two decimals and its
    severity ("very_long" from 10 s, "long" from 5 s, else "medium"), and
    no such interval is missed. *)
Theorem hesitation_map_structure :
  forall intervals,
    let r := _map_hesitations intervals in
    fst (fst r) = Py.len (snd r)
    /\ snd (fst r) = map hs_location (snd r)
    /\ StronglySorted Z.lt (snd (fst r))
    /\ Forall (fun h =>
                 exists x,
                   (0 <= hs_location h)%Z
                   /\ nth_error intervals (Z.to_nat (hs_location h)) = Some x
                   /\ 3 <= x
                   /\ hs_duration h = Py.round x 2
                   /\ ((hs_severity h = "very_long" /\ 10 <= x)
                       \/ (hs_severity h = "long" /\ 5 <= x /\ x < 10)
                       \/ (hs_severity h = "medium" /\ x < 5)))
              (snd r)
    /\ (forall i x,
          nth_error intervals i = Some x -> 3 <= x ->
          In (Z.of_nat i) (snd (fst r))).
Proof.
  intros intervals r. subst r. rewrite map_hesitations_points. cbv zeta.
  cbn [fst snd]. unfold hesitation_points.
  set (pts := filter (fun ix => Qle_bool 3 (snd ix)) (indexed_from 0 intervals)).
  split; [unfold Py.len; now rewrite length_map |].
  split; [rewrite map_map; reflexivity |].
  split; [apply sorted_filter_fst, indexed_from_sorted |].
  split.
  - apply Forall_forall. intros h Hh. apply in_map_iff in Hh.
    destruct Hh as ([i x] & <- & Hin). subst pts.
    apply filter_In in Hin. destruct Hin as [Hin H3]. cbn [snd] in H3.
    apply indexed_from_In in Hin. destruct Hin as [Hi Hn].
    rewrite Z.sub_0_r in Hn. apply Qle_bool_iff in H3.
    exists x. cbn [hesitation_record hs_location hs_duration hs_severity fst snd].
    repeat split; try assumption. apply severity_of_cases.
  - intros i x Hn H3. apply in_map_iff. exists (Z.of_nat i, x).
    split; [reflexivity |]. subst pts. apply filter_In. split.
    + apply indexed_from_In. split; [lia |].
      now rewrite Z.sub_0_r, Nat2Z.id.
    + cbn [snd]. now apply Qle_bool_iff.
Qed.

Lemma filter_indexed_len (p : Q -> bool) l :
  forall k,
    Py.len (filter (fun ix => p (snd ix)) (indexed_from k l))
    = Py.len (filter p l).
Proof.
  induction l as [| x l IH]; intros k; cbn [indexed_from filter snd];
    [reflexivity |].
  destruct (p x); rewrite ?len_cons, IH; reflexivity.
Qed.

Lemma hesitations_le_pauses intervals :
  (Py.len (filter (fun x => Qle_bool 3 x) intervals)
   <= Py.len (filter (fun x => Qle_bool 2 x) intervals))%Z.
Proof.
  apply filter_len_mono. intros x H. apply Qle_bool_iff in H.
  apply Qle_bool_iff. lra.
Qed.

Lemma severity_not_medium x :
  negb (String.eqb (severity_of x) "medium") = Qle_bool 5 x.
Proof.
  unfold severity_of.
  destruct (Qle_bool 10 x) eqn:A; destruct (Qle_bool 5 x) eqn:B;
    try reflexivity.
  apply Qle_bool_iff in A. apply Qle_bool_false in B. exfalso; lra.
Qed.

Lemma long_hesitations_len l :
  forall k,
    Py.len (filter (fun h => negb (String.eqb (hs_severity h) "medium"))
              (map hesitation_record
                 (filter (fun ix => Qle_bool 3 (snd ix)) (indexed_from k l))))
    = (Py.len (filter medium_pauseb l) + Py.len (filter long_pauseb l))%Z.
Proof.
  induction l as [| x l IH]; intros k; cbn [indexed_from filter snd];
    [reflexivity |].
  destruct (Qle_bool 3 x) eqn:E;
    [apply Qle_bool_iff in E | apply Qle_bool_false in E].
  - cbn [map filter hesitation_record hs_severity snd].
    rewrite severity_not_medium.
    destruct (Qle_bool 5 x) eqn:F;
      [apply Qle_bool_iff in F | apply Qle_bool_false in F];
      bucket_cases x; rewrite ?len_cons, IH; try lia; exfalso;
      destruct (Qlt_le_dec x 15); intuition lra.
  - bucket_cases x; rewrite ?len_cons, IH; try lia; exfalso; intuition lra.
Qed.

(** X11: Hesitations and pauses agree: every hesitation (3 s or more) is counted
    as a pause, so the hesitation count is at most the sum of the three
    pause counts; the hesitations of severity "long" or "very_long" are
    exactly the medium and long pauses; and a session with a hesitation
    never has the pattern "continuous". *)
Theorem hesitations_and_pauses :
  forall intervals,
    let r := _map_hesitations intervals in
    let p := _analyze_pauses intervals in
    fst (fst r) = Py.len (filter (fun x => Qle_bool 3 x) intervals)
    /\ (fst (fst r)
        <= short_pauses p + medium_pauses p + long_pauses p)%Z
    /\ (Py.len (filter (fun h => negb (String.eqb (hs_severity h) "medium"))
                  (snd r))
        = medium_pauses p + long_pauses p)%Z
    /\ ((0 < fst (fst r))%Z -> pattern p <> "continuous").
Proof.
  intros intervals r p.
  destruct (pattern_labels intervals) as [_ HC]. fold p in HC.
  revert HC. subst r p. rewrite map_hesitations_points, analyze_pauses_buckets.
  cbv zeta. cbn [fst snd short_pauses medium_pauses long_pauses pattern].
  fold (Py.len (filter short_pauseb intervals)).
  fold (Py.len (filter medium_pauseb intervals)).
  fold (Py.len (filter long_pauseb intervals)).
  unfold hesitation_points. intros HC.
  rewrite (filter_indexed_len (fun x => Qle_bool 3 x) intervals 0).
  pose proof (hesitations_le_pauses intervals) as H32.
  pose proof (pauses_partition intervals) as HP.
  split; [reflexivity |]. split; [lia |].
  split; [apply long_hesitations_len |].
  intros Hpos E. apply HC in E. lia.
Qed.

(** ** Burst segments *)

Lemma segments_within_weaken segs :
  forall lo lo' hi,
    (lo' <= lo)%Z -> segments_within lo hi segs -> segments_within lo' hi segs.
Proof.
  destruct segs as [| s rest]; intros lo lo' hi H; cbn [segments_within];
    [auto |].
  intros (A & B & C). repeat split; [lia | exact B | exact C].
Qed.

Lemma fast_runs_from_within (rnd : Q -> Q) intervals :
  forall i cur,
    match cur with
    | None => True
    | Some r => (run_start r + Py.len (run_items r) = i)%Z
    end ->
    segments_within
      match cur with None => i | Some r => run_start r end
      (i + Py.len intervals)
      (map (segment_of_run rnd) (fast_runs_from i intervals cur)).
Proof.
  induction intervals as [| x rest IH]; intros i cur Hc;
    cbn [fast_runs_from].
  - destruct cur as [r |];
      cbn [open_run map segments_within segment_of_run bs_start bs_length];
      [| exact I].
    unfold Py.len in *. cbn [List.length]. repeat split; lia.
  - rewrite len_cons.
    destruct (Qlt_le_dec x (15 # 100)) as [L | L].
    + destruct cur as [r |].
      * specialize (IH (i + 1)%Z (Some (mkRun (run_start r) (run_items r ++ [x])))).
        cbn [run_start run_items] in IH. rewrite len_app_one in IH.
        replace (i + (Py.len rest + 1))%Z with (i + 1 + Py.len rest)%Z by lia.
        apply IH. lia.
      * specialize (IH (i + 1)%Z (Some (mkRun i [x]))).
        cbn [run_start run_items] in IH.
        replace (i + (Py.len rest + 1))%Z with (i + 1 + Py.len rest)%Z by lia.
        apply IH. unfold Py.len. cbn. lia.
    + specialize (IH (i + 1)%Z None I). cbn in IH.
      replace (i + (Py.len rest + 1))%Z with (i + 1 + Py.len rest)%Z by lia.
      destruct cur as [r |]; cbn [open_run app map segments_within].
      * cbn [segment_of_run bs_start bs_length].
        pose proof (len_nonneg rest).
        repeat split; try lia.
        eapply segments_within_weaken; [| exact IH]. lia.
      * eapply segments_within_weaken; [| exact IH]. lia.
Qed.

Lemma segments_within_filter (rnd : Q -> Q) (p : Run -> bool) rs :
  forall lo hi,
    segments_within lo hi (map (segment_of_run rnd) rs) ->
    segments_within lo hi (map (segment_of_run rnd) (filter p rs)).
Proof.
  induction rs as [| r rs IH]; intros lo hi; cbn [filter map segments_within];
    [auto |].
  intros (A & B & C). cbn [segment_of_run bs_start bs_length] in *.
  destruct (p r); cbn [map segments_within].
  - cbn [segment_of_run bs_start bs_length]. repeat split; auto.
  - apply IH. eapply segments_within_weaken; [| exact C].
    pose proof (len_nonneg (run_items r)). lia.
Qed.

Lemma segments_within_count segs :
  forall lo hi,
    Forall (fun s => (5 <= bs_length s)%Z) segs ->
    segments_within lo hi segs ->
    segs <> [] ->
    (lo + 6 * Py.len segs <= hi + 1)%Z.
Proof.
  induction segs as [| s rest IH]; intros lo hi Hf Hw Hne; [congruence |].
  apply Forall_cons_iff in Hf. destruct Hf as [H5 Hf].
  cbn [segments_within] in Hw. destruct Hw as (A & B & C).
  rewrite len_cons. destruct rest as [| s' rest'].
  - cbn. lia.
  - specialize (IH _ _ Hf C ltac:(discriminate)). lia.
Qed.

(** X12: The burst segments lie inside the interval sequence, left to right,
    each at least five intervals long and separated from the next by at
    least one interval; so [n] bursts need at least [6 n - 1] intervals,
    and [burst_count] is the number of segments. *)
Theorem burst_segments_layout :
  forall intervals,
    let r := _detect_bursts intervals in
    fst (fst r) = Py.len (snd (fst r))
    /\ segments_within 0 (Py.len intervals) (snd (fst r))
    /\ Forall (fun s => (5 <= bs_length s)%Z) (snd (fst r))
    /\ (6 * fst (fst r) <= Py.len intervals + 1)%Z.
Proof.
  intros intervals r. subst r. rewrite detect_bursts_runs. cbv zeta.
  cbn [fst snd]. unfold bursts_of. fold long_run.
  set (segs := map (segment_of_run round1) (filter long_run (fast_runs intervals))).
  assert (Hw : segments_within 0 (Py.len intervals) segs).
  { subst segs. apply segments_within_filter.
    exact (fast_runs_from_within round1 intervals 0%Z None I). }
  assert (H5 : Forall (fun s => (5 <= bs_length s)%Z) segs).
  { subst segs. apply Forall_forall. intros s Hs.
    apply in_map_iff in Hs. destruct Hs as (r & <- & Hr).
    apply filter_In in Hr. destruct Hr as [_ Hr].
    cbn [segment_of_run bs_length]. unfold long_run in Hr.
    now apply Z.leb_le in Hr. }
  split; [reflexivity |]. split; [exact Hw |]. split; [exact H5 |].
  destruct segs as [| s rest] eqn:E.
  - pose proof (len_nonneg intervals). cbn. lia.
  - pose proof (segments_within_count (s :: rest) 0 (Py.len intervals) H5 Hw
                  ltac:(discriminate)). lia.
Qed.

Lemma sum_between l b :
  l <> [] ->
  Forall (fun x => 0 < x /\ x < b) l ->
  0 < Py.sum l /\ Py.sum l < b * inject_Z (Py.len l).
Proof.
  intros Hne Hf. rewrite sum_total.
  induction Hf as [| x l [H0 Hb] Hf IH]; [congruence |].
  rewrite len_cons, inject_Z_plus. cbn [total fold_right].
  fold (total l). change (inject_Z 1) with 1.
  destruct l as [| y l].
  - unfold Py.len. cbn [List.length total fold_right].
    change (inject_Z (Z.of_nat 0)) with 0. lra.
  - destruct (IH ltac:(discriminate)) as [A B]. lra.
Qed.

Lemma fold_max_ge l :
  forall a, a <= fold_left Py.max l a
            /\ Forall (fun x => x <= fold_left Py.max l a) l.
Proof.
  induction l as [| y l IH]; intros a; cbn [fold_left].
  - split; [lra | constructor].
  - destruct (IH (Py.max a y)) as [A B].
    destruct (max_cases a y) as [[H E] | [H E]]; rewrite E in *.
    + split; [lra |]. constructor; [exact A | exact B].
    + split; [exact A |]. constructor; [lra | exact B].
Qed.

Lemma max_default_ge l d :
  Forall (fun x => x <= Py.max_default l d) l.
Proof.
  destruct l as [| a l]; [constructor |]. cbn [Py.max_default].
  destruct (fold_max_ge l a) as [A B]. constructor; assumption.
Qed.

Lemma run_items_in intervals r x :
  In r (fast_runs intervals) -> In x (run_items r) -> In x intervals.
Proof.
  intros Hr Hx.
  assert (H : In x (flat_map run_items (fast_runs intervals)))
    by (apply in_flat_map; exists r; auto).
  rewrite fast_runs_cover in H. apply filter_In in H. tauto.
Qed.

(** X13: When every interval is positive, a burst is faster than one keystroke
    per 150 ms: each segment's speed, and the maximal speed when there is a
    burst, is at least 6.7 keystrokes per second. *)
Theorem burst_speed_floor :
  forall intervals,
    Forall (fun x => 0 < x) intervals ->
    let r := _detect_bursts intervals in
    Forall (fun s => 6.7 <= bs_avg_speed s) (snd (fst r))
    /\ ((0 < fst (fst r))%Z -> 6.7 <= snd r).
Proof.
  intros intervals Hpos r. subst r. rewrite detect_bursts_runs. cbv zeta.
  cbn [fst snd]. unfold bursts_of. fold long_run.
  set (segs := map (segment_of_run round1) (filter long_run (fast_runs intervals))).
  assert (Hs : Forall (fun s => 6.7 <= bs_avg_speed s) segs).
  { subst segs. apply Forall_forall. intros s Hs.
    apply in_map_iff in Hs. destruct Hs as (r & <- & Hr).
    apply filter_In in Hr. destruct Hr as [Hr _].
    pose proof (fast_runs_maximal intervals) as M.
    rewrite Forall_forall in M. destruct (M r Hr) as (_ & Hne & Hfast).
    assert (Hb : Forall (fun x => 0 < x /\ x < 0.15) (run_items r)).
    { rewrite Forall_forall in *. intros x Hx. split; [| now apply Hfast].
      apply Hpos. eapply run_items_in; eauto. }
    destruct (sum_between _ _ Hne Hb) as [S0 S1].
    cbn [segment_of_run bs_avg_speed]. unfold round1, run_speed.
    destruct (Qlt_le_dec 0 (Py.sum (run_items r))) as [_ | C];
      [| exfalso; lra].
    assert (E : 6.7 = Py.round (20 # 3) 1) by (vm_compute; reflexivity).
    rewrite E. apply round_mono.
    apply Qle_shift_div_l; [exact S0 |]. lra. }
  split; [exact Hs |].
  intros Hn. destruct segs as [| s rest] eqn:E; [cbn in Hn; lia |].
  pose proof (max_default_ge (map bs_avg_speed (s :: rest)) 0) as G.
  apply Forall_inv in G. apply Forall_inv in Hs. lra.
Qed.

Lemma burst_speed_floor_witness :
  Forall (fun x => 0 < x) [0.1; 0.1; 0.1; 0.1; 0.1; 0.12]
  /\ 6.7 <= snd (_detect_bursts [0.1; 0.1; 0.1; 0.1; 0.1; 0.12]).
Proof.
  assert (H : Forall (fun x => 0 < x) [0.1; 0.1; 0.1; 0.1; 0.1; 0.12])
    by (repeat constructor).
  split; [exact H |].
  apply (proj2 (burst_speed_floor _ H)). reflexivity.
Defined.

(** ** Text rhythm *)

Lemma re_split_concat t :
  forall piece in_match,
    (in_match = true -> piece = []) ->
    List.concat (re_split t piece in_match)
    = piece ++ filter (fun c => negb (is_sentence_end c)) t.
Proof.
  induction t as [| c t IH]; intros piece in_match Hp; cbn [re_split filter].
  - cbn. reflexivity.
  - destruct (is_sentence_end c); cbn [negb].
    + destruct in_match.
      * rewrite (Hp eq_refl). now apply IH.
      * cbn [List.concat]. rewrite IH by reflexivity. reflexivity.
    + rewrite IH by discriminate. rewrite <- app_assoc. reflexivity.
Qed.

Lemma re_split_length t :
  forall piece in_match,
    (1 <= Py.len (re_split t piece in_match)
     <= 1 + Py.len (filter is_sentence_end t))%Z.
Proof.
  induction t as [| c t IH]; intros piece in_match; cbn [re_split filter].
  - unfold Py.len. cbn. lia.
  - destruct (is_sentence_end c).
    + rewrite (len_cons c). pose proof (IH [] true).
      destruct in_match; rewrite ?len_cons; lia.
    + apply IH.
Qed.

Lemma nonempty_pieces_le (ps : list text) :
  (Py.len (filter str_truthy ps) <= Py.len (List.concat ps))%Z.
Proof.
  induction ps as [| p ps IH]; cbn [filter List.concat];
    [unfold Py.len; cbn; lia |].
  unfold Py.len in *. rewrite length_app.
  destruct p as [| c p]; cbn [str_truthy List.length]; lia.
Qed.

Lemma strip_truthy s : str_truthy (strip s) = true -> str_truthy s = true.
Proof. destruct s; [discriminate | reflexivity]. Qed.

(** The sentences found in a text. *)
Lemma sentence_bounds txt :
  let n := Py.len (map strip
                     (filter (fun s => str_truthy (strip s))
                        (re_split txt [] false))) in
  (0 <= n)%Z
  /\ (n <= 1 + Py.len (filter is_sentence_end txt))%Z
  /\ (n <= Py.len txt)%Z.
Proof.
  intros n. subst n. unfold Py.len at 1 2 4. rewrite length_map.
  fold (Py.len (filter (fun s => str_truthy (strip s)) (re_split txt [] false))).
  pose proof (len_filter_le (fun s => str_truthy (strip s))
                (re_split txt [] false)) as A.
  pose proof (re_split_length txt [] false) as B.
  pose proof (filter_len_mono (fun s => str_truthy (strip s)) str_truthy
                (re_split txt [] false) strip_truthy) as C.
  pose proof (nonempty_pieces_le (re_split txt [] false)) as D.
  rewrite re_split_concat in D by discriminate. cbn [app] in D.
  pose proof (len_filter_le (fun c => negb (is_sentence_end c)) txt) as E.
  repeat split; lia.
Qed.

Lemma round_nonneg x n : 0 <= x -> 0 <= Py.round x n.
Proof.
  intros H. pose proof (round_mono 0 x n H) as M.
  rewrite round_zero in M. exact M.
Qed.

Lemma round_integer k n : Py.round (inject_Z k) n == inject_Z k.
Proof.
  pose proof (pow10_pos n) as Hp.
  assert (E : inject_Z k
              == inject_Z (k * 10 ^ Z.of_nat n) / inject_Z (10 ^ Z.of_nat n)).
  { rewrite inject_Z_mult. field. lra. }
  rewrite (round_comp _ _ n E), round_decimal. now rewrite <- E.
Qed.

Lemma ratio_unit_interval a b :
  (0 <= a <= b)%Z -> (0 < b)%Z -> 0 <= inject_Z a / inject_Z b <= 1.
Proof.
  intros Ha Hb.
  assert (Hn : 0 < inject_Z b)
    by (change 0 with (inject_Z 0); rewrite <- Zlt_Qlt; lia).
  split.
  - apply Qle_shift_div_l; [exact Hn |]. rewrite Qmult_0_l.
    change 0 with (inject_Z 0). rewrite <- Zle_Qle. lia.
  - apply Qle_shift_div_r; [exact Hn |]. rewrite Qmult_1_l.
    rewrite <- Zle_Qle. lia.
Qed.

(** X14: The text analyzer on any text: at least one sentence is counted, at
    most one more than the number of sentence-ending characters and, for a
    non-empty text, at most one per character; the punctuation rate lies in
    [0, 1], the average sentence length between 0 and the length of the
    text; and the category is one of six labels. *)
Theorem text_rhythm_bounds :
  forall txt,
    let tr := _analyze_text_rhythm txt in
    (1 <= sentence_count tr)%Z
    /\ (sentence_count tr <= 1 + Py.len (filter is_sentence_end txt))%Z
    /\ (sentence_count tr <= Z.max 1 (Py.len txt))%Z
    /\ 0 <= punctuation_rate tr <= 1
    /\ 0 <= avg_sentence_length tr <= inject_Z (Py.len txt)
    /\ In (rhythm_category tr)
          ["concise"; "staccato"; "flowing"; "complex"; "punctuated";
           "balanced"].
Proof.
  intros txt tr. subst tr. unfold _analyze_text_rhythm. cbv zeta.
  cbn [sentence_count punctuation_rate avg_sentence_length rhythm_category].
  destruct (sentence_bounds txt) as (S0 & S1 & S2). cbv zeta in S0, S1, S2.
  set (n := Py.len (map strip (filter (fun s => str_truthy (strip s))
                                 (re_split txt [] false)))) in *.
  pose proof (len_filter_le is_sentence_end txt) as T.
  pose proof (len_nonneg txt) as L.
  set (sc := if (n =? 0)%Z then 1%Z else n).
  assert (Hsc : (1 <= sc)%Z /\ (sc <= 1 + Py.len (filter is_sentence_end txt))%Z
                /\ (sc <= Z.max 1 (Py.len txt))%Z).
  { subst sc. destruct (Z.eqb_spec n 0); lia. }
  destruct Hsc as (H1 & H2 & H3).
  split; [exact H1 |]. split; [exact H2 |]. split; [exact H3 |].
  assert (Hsq : 0 < inject_Z sc)
    by (change 0 with (inject_Z 0); rewrite <- Zlt_Qlt; lia).
  assert (Hlq : 0 <= inject_Z (Py.len txt))
    by (change 0 with (inject_Z 0); rewrite <- Zle_Qle; lia).
  split; [| split].
  - apply round_unit_interval.
    destruct txt as [| c t] eqn:E; cbn [str_truthy]; [lra |].
    rewrite <- E. apply ratio_unit_interval.
    + apply len_filter_le.
    + rewrite E, len_cons. pose proof (len_nonneg t). lia.
  - split.
    + apply round_nonneg.
      apply Qle_shift_div_l; [exact Hsq | lra].
    + pose proof (round_integer (Py.len txt) 1) as RI.
      assert (H : inject_Z (Py.len txt) / inject_Z sc <= inject_Z (Py.len txt)).
      { apply Qle_shift_div_r; [exact Hsq |].
        assert (1 <= inject_Z sc)
          by (change 1 with (inject_Z 1); rewrite <- Zle_Qle; lia).
        nra. }
      pose proof (round_mono _ _ 1 H). lra.
  - repeat match goal with
           | |- context [if ?b then _ else _] => destruct b
           end; cbn [In]; tauto.
Qed.

(** ** Speed: degenerate sessions *)

Lemma slow_band cpm c pat :
  cpm < 60 ->
  In (_classify_rhythm_type cpm c pat) ["steady_slow"; "hesitant"; "labored"].
Proof.
  intros H. unfold _classify_rhythm_type.
  destruct (Py.gtb cpm 120) eqn:A; destruct (Py.ltb cpm 60) eqn:B;
    float_tests; try (exfalso; lra).
  destruct (Py.gtb c 0.7); [cbn; tauto |].
  destruct (Py.str_in pat ["thoughtful"; "contemplative"]); cbn; tauto.
Qed.

Lemma round_integer_eq k n : Py.round (inject_Z k) n = inject_Z k.
Proof.
  pose proof (round_integer k n) as E. unfold Py.round in *.
  rewrite Qred_correct in E. apply Qred_complete in E. rewrite E.
  apply Qcanon.Qred_identity. cbn. apply Z.gcd_1_r.
Qed.

(** X16: A non-empty session whose final text is empty: no characters, speed 0
    and keystroke ratio 0, a slow rhythm type, and a text rhythm of one
    sentence of length 0 in the category "concise" (not the 0 sentences
    and "balanced" of the empty default). *)
Theorem empty_final_text :
  forall (sqrt : Q -> Q) end_time now_iso self,
    nonempty_session self ->
    let p := snd (finish_monitoring sqrt end_time now_iso [] self) in
    actual_chars p = 0%Z
    /\ chars_per_minute p = 0
    /\ keystroke_ratio p = 0
    /\ text_rhythm p = mkTextRhythm 1 0 0 "concise"
    /\ In (rhythm_type p) ["steady_slow"; "hesitant"; "labored"]
    /\ text_rhythm p <> text_rhythm (_empty_result now_iso).
Proof.
  intros sqrt end_time now_iso self Hne p.
  destruct (finish_monitoring_nonempty sqrt end_time now_iso [] self Hne)
    as (start & Hs & Hp).
  subst p. rewrite Hp, analyze_fields. cbv zeta. profile_fields.
  set (cpm := if Py.gtb (end_time - start) 0
              then inject_Z (Py.len []) / (end_time - start) * 60 else 0).
  assert (Hc : cpm == 0).
  { subst cpm. destruct (Py.gtb (end_time - start) 0); [| reflexivity].
    unfold Py.len. cbn [List.length]. change (inject_Z (Z.of_nat 0)) with 0.
    unfold Qdiv. ring. }
  split; [reflexivity |].
  split; [rewrite (round_comp _ _ 1 Hc); apply round_zero |].
  split; [reflexivity |]. split; [reflexivity |].
  split; [apply slow_band; lra | discriminate].
Qed.

Lemma empty_final_text_witness :
  let self :=
    record_keystroke 102 EmptyString "backspace"
      (record_keystroke 101 "H" "type" (start_monitoring 100 __init__)) in
  nonempty_session self
  /\ text_rhythm
       (snd (finish_monitoring sqrt_approx 105 "2025-01-01T00:00:05" [] self))
     = mkTextRhythm 1 0 0 "concise".
Proof.
  intro self.
  assert (H : nonempty_session self) by (split; [discriminate | reflexivity]).
  split; [exact H |].
  exact (proj1 (proj2 (proj2 (proj2
           (empty_final_text sqrt_approx 105 "2025-01-01T00:00:05" self H))))).
Defined.

(** X17: A session whose end reading is not after its start reading (a clock
    set back, or no time elapsed): the speed is 0 whatever the text, the
    duration is not positive, and the rhythm type is a slow one. *)
Theorem nonpositive_duration :
  forall (sqrt : Q -> Q) end_time now_iso final_text self start,
    nonempty_session self ->
    start_time self = Some start ->
    end_time <= start ->
    let p := snd (finish_monitoring sqrt end_time now_iso final_text self) in
    chars_per_minute p = 0
    /\ duration_seconds p <= 0
    /\ In (rhythm_type p) ["steady_slow"; "hesitant"; "labored"].
Proof.
  intros sqrt end_time now_iso final_text self start Hne Hst Hle p.
  destruct (finish_monitoring_nonempty sqrt end_time now_iso final_text self Hne)
    as (start' & Hs & Hp).
  assert (start' = start) by congruence. subst start'.
  subst p. rewrite Hp, analyze_fields. cbv zeta. profile_fields.
  destruct (Py.gtb (end_time - start) 0) eqn:G; float_tests;
    [exfalso; lra |].
  split; [apply round_zero |]. split.
  - rewrite <- (round_zero 2). apply round_mono. lra.
  - apply slow_band. lra.
Qed.

Lemma nonpositive_duration_witness :
  let self :=
    record_keystroke 101 "H" "type" (start_monitoring 100 __init__) in
  (nonempty_session self /\ start_time self = Some 100 /\ 99 <= 100)
  /\ chars_per_minute
       (snd (finish_monitoring sqrt_approx 99 "2025-01-01T00:00:05"
               (text_of_string "H") self))
     = 0.
Proof.
  intro self.
  assert (H : nonempty_session self) by (split; [discriminate | reflexivity]).
  assert (L : 99 <= 100) by discriminate.
  split; [split; [exact H | split; [reflexivity | exact L]] |].
  exact (proj1 (nonpositive_duration sqrt_approx 99 "2025-01-01T00:00:05"
                  (text_of_string "H") self 100 H eq_refl L)).
Defined.

(** X18: When the number of keystrokes is a whole multiple [k] of the number of
    characters of the final text, the keystroke ratio is exactly [k]. *)
Theorem keystroke_ratio_multiple :
  forall (sqrt : Q -> Q) end_time now_iso final_text self k,
    nonempty_session self ->
    final_text <> [] ->
    Py.len (events self) = (k * Py.len final_text)%Z ->
    keystroke_ratio
      (snd (finish_monitoring sqrt end_time now_iso final_text self))
    = inject_Z k.
Proof.
  intros sqrt end_time now_iso final_text self k Hne Htxt Hk.
  destruct (finish_monitoring_nonempty sqrt end_time now_iso final_text self Hne)
    as (start & Hs & Hp).
  rewrite Hp, analyze_fields. cbv zeta. profile_fields.
  assert (Hpos : (0 < Py.len final_text)%Z).
  { destruct final_text; [congruence |]. rewrite len_cons.
    pose proof (len_nonneg final_text). lia. }
  destruct (Z.gtb_spec (Py.len final_text) 0) as [_ | C]; [| lia].
  rewrite Hk, <- (round_integer_eq k 2). apply round_comp.
  rewrite inject_Z_mult. field.
  change 0 with (inject_Z 0). rewrite inject_Z_injective. lia.
Qed.

Lemma keystroke_ratio_multiple_witness :
  let self :=
    mkRhythmDetector
      (log_of ["composition"; "composition"; "composition";
               "composition_confirm"; "composition"; "composition";
               "composition"; "composition_confirm"] 1 0.2)
      true (Some 0.5) in
  (nonempty_session self /\ text_of_string "ab" <> []
   /\ Py.len (events self) = (4 * Py.len (text_of_string "ab"))%Z)
  /\ keystroke_ratio
       (snd (finish_monitoring sqrt_approx 5 "2025-01-01T00:00:05"
               (text_of_string "ab") self))
     = 4.
Proof.
  intro self.
  assert (H : nonempty_session self) by (split; [discriminate | reflexivity]).
  assert (T : text_of_string "ab" <> []) by discriminate.
  assert (K : Py.len (events self) = (4 * Py.len (text_of_string "ab"))%Z)
    by reflexivity.
  split; [split; [exact H | split; [exact T | exact K]] |].
  exact (keystroke_ratio_multiple sqrt_approx 5 "2025-01-01T00:00:05"
           (text_of_string "ab") self 4 H T K).
Defined.

(** ** Rhythm type: from the label back to the inputs *)

(** X19: The rhythm type is one of nine labels, never "balanced", and the label
    tells the speed band and the consistency: the three fast labels mean
    more than 120 characters per minute, the three slow ones fewer than 60,
    and "steady_fast", "burst_fast", "steady_slow" and "fluid" mean a
    consistency above 0.7. *)
Theorem rhythm_type_band :
  forall cpm c pat,
    let r := _classify_rhythm_type cpm c pat in
    In r ["steady_fast"; "burst_fast"; "erratic_fast"; "steady_slow";
          "hesitant"; "labored"; "fluid"; "measured"; "uneven"]
    /\ r <> "balanced"
    /\ (In r ["steady_fast"; "burst_fast"; "erratic_fast"] <-> 120 < cpm)
    /\ (In r ["steady_slow"; "hesitant"; "labored"] <-> cpm < 60)
    /\ (In r ["fluid"; "measured"; "uneven"] <-> 60 <= cpm /\ cpm <= 120)
    /\ (In r ["steady_fast"; "burst_fast"; "steady_slow"; "fluid"]
        <-> 0.7 < c).
Proof.
  intros cpm c pat r. subst r. unfold _classify_rhythm_type.
  destruct (Py.gtb cpm 120) eqn:A; destruct (Py.ltb cpm 60) eqn:B;
    destruct (Py.gtb c 0.7) eqn:C; float_tests; try (exfalso; lra);
    destruct (String.eqb pat "continuous");
    destruct (Py.str_in pat ["thoughtful"; "contemplative"]);
    destruct (String.eqb pat "thoughtful");
    cbn [RhythmType_value In];
    repeat split; intros;
    repeat match goal with
           | H : _ \/ _ |- _ => destruct H
           | H : False |- _ => destruct H
           | H : _ /\ _ |- _ => destruct H
           end;
    try discriminate; try lra; try tauto.
Qed.

(** ** Ranges of the profile *)

Lemma run_speed_nonneg r : 0 <= run_speed r.
Proof.
  unfold run_speed.
  destruct (Qlt_le_dec 0 (Py.sum (run_items r))) as [H | H]; [| lra].
  apply Qle_shift_div_l; [exact H |]. rewrite Qmult_0_l.
  change 0 with (inject_Z 0). rewrite <- Zle_Qle. apply len_nonneg.
Qed.

Lemma max_default_nonneg l :
  Forall (fun x => 0 <= x) l -> 0 <= Py.max_default l 0.
Proof.
  intros H. destruct l as [| a l]; [cbn; lra |].
  pose proof (max_default_ge (a :: l) 0) as G.
  apply Forall_inv in G. apply Forall_inv in H. lra.
Qed.

Lemma max_speed_nonneg intervals : 0 <= snd (_detect_bursts intervals).
Proof.
  rewrite detect_bursts_runs. cbv zeta. cbn [snd].
  apply max_default_nonneg. unfold bursts_of.
  rewrite map_map. apply Forall_forall. intros v Hv.
  apply in_map_iff in Hv. destruct Hv as (r & <- & _).
  cbn [segment_of_run bs_avg_speed]. unfold round1.
  apply round_nonneg, run_speed_nonneg.
Qed.

Lemma deletion_ratio_le_one self : snd (fst (_analyze_deletions self)) <= 1.
Proof.
  unfold _analyze_deletions. cbn [fst snd].
  destruct (events self) as [| e l] eqn:E; [lra |]. rewrite <- E.
  apply ratio_unit_interval.
  - apply len_filter_le.
  - rewrite E, len_cons. pose proof (len_nonneg l). lia.
Qed.

(** X20: The numbers of a non-empty session's profile stay in range: the
    consistency and the deletion ratio in [0, 1]; speed, keystroke ratio
    and maximal burst speed not negative; the keystroke count positive, the
    other counts not negative, and deletions plus modifications at most the
    keystroke count. *)
Theorem profile_ranges :
  forall (sqrt : Q -> Q) end_time now_iso final_text self,
    nonempty_session self ->
    let p := snd (finish_monitoring sqrt end_time now_iso final_text self) in
    0 <= consistency p <= 1
    /\ 0 <= deletion_ratio p <= 1
    /\ 0 <= chars_per_minute p
    /\ 0 <= keystroke_ratio p
    /\ 0 <= max_burst_speed p
    /\ (0 < total_keystrokes p)%Z
    /\ (0 <= actual_chars p)%Z
    /\ (0 <= deletion_count p)%Z
    /\ (0 <= modification_count p)%Z
    /\ (deletion_count p + modification_count p <= total_keystrokes p)%Z
    /\ (0 <= burst_count p)%Z
    /\ (0 <= hesitation_count p)%Z.
Proof.
  intros sqrt end_time now_iso final_text self Hne p.
  destruct (finish_monitoring_nonempty sqrt end_time now_iso final_text self Hne)
    as (start & Hs & Hp).
  subst p. rewrite Hp, analyze_fields. cbv zeta. profile_fields.
  pose proof (len_nonneg final_text) as Lt.
  pose proof (len_nonneg (events self)) as Le.
  assert (Qt : 0 <= inject_Z (Py.len final_text))
    by (change 0 with (inject_Z 0); rewrite <- Zle_Qle; exact Lt).
  assert (Qe : 0 <= inject_Z (Py.len (events self)))
    by (change 0 with (inject_Z 0); rewrite <- Zle_Qle; exact Le).
  split; [apply round_unit_interval, consistency_unit_interval |].
  split.
  { apply round_unit_interval. split;
      [apply deletion_ratio_nonneg | apply deletion_ratio_le_one]. }
  split.
  { apply round_nonneg.
    destruct (Py.gtb (end_time - start) 0) eqn:G; float_tests; cbv iota;
      [| lra].
    assert (0 <= inject_Z (Py.len final_text) / (end_time - start)).
    { apply Qle_shift_div_l; [exact G | lra]. }
    lra. }
  split.
  { apply round_nonneg.
    destruct (Z.gtb_spec (Py.len final_text) 0) as [G | G]; cbv iota; [| lra].
    apply Qle_shift_div_l; [| lra].
    change 0 with (inject_Z 0). rewrite <- Zlt_Qlt. exact G. }
  split.
  { apply round_nonneg, max_speed_nonneg. }
  split.
  { destruct Hne as [Hev _]. destruct (events self); [congruence |].
    rewrite len_cons. pose proof (len_nonneg l). lia. }
  split; [exact Lt |].
  unfold _analyze_deletions, _analyze_modifications. cbn [fst snd].
  fold is_deletion. fold is_selection.
  pose proof (len_filter_le is_deletion (events self)) as Hd.
  pose proof (len_filter_le is_selection (events self)) as Hm.
  split; [lia |]. split; [lia |].
  split.
  { clear. induction (events self) as [| e l IH]; cbn [filter];
      [unfold Py.len; cbn; lia |].
    rewrite (len_cons e l).
    destruct (is_deletion e) eqn:D.
    - rewrite (deletion_not_selection e D), len_cons. lia.
    - destruct (is_selection e); rewrite ?len_cons; lia. }
  rewrite detect_bursts_runs, map_hesitations_points. cbv zeta. cbn [fst].
  split; apply len_nonneg.
Qed.

Lemma profile_ranges_witness :
  let self :=
    record_keystroke 102 EmptyString "backspace"
      (record_keystroke 101 "H" "type" (start_monitoring 100 __init__)) in
  nonempty_session self
  /\ 0 <= deletion_ratio
            (snd (finish_monitoring sqrt_approx 105 "2025-01-01T00:00:05"
                    (text_of_string "H") self)) <= 1.
Proof.
  intro self.
  assert (H : nonempty_session self) by (split; [discriminate | reflexivity]).
  split; [exact H |].
  exact (proj1 (proj2 (profile_ranges sqrt_approx 105 "2025-01-01T00:00:05"
                         (text_of_string "H") self H))).
Defined.

(** ** Consistency: a negative mean *)

(** X22: Timestamps out of order can make the mean interval negative; the
    score is then the highest, 1 (for a square root that is never
    negative): the negative coefficient of variation is clamped from
    above. *)
Theorem consistency_negative_mean :
  forall (sqrt : Q -> Q),
    (forall x, 0 <= sqrt x) ->
    forall intervals,
      (2 <= List.length intervals)%nat ->
      mean_of intervals < 0 ->
      _calculate_consistency sqrt intervals == 1.
Proof.
  intros sqrt Hpos intervals Hlen Hmean.
  unfold _calculate_consistency. rewrite len_lt_2.
  destruct (Nat.ltb_spec (List.length intervals) 2) as [L | _]; [lia |].
  pose proof (code_mean intervals) as Em.
  set (mean := Py.sum intervals / inject_Z (Py.len intervals)) in *.
  unfold Py.eqb. destruct (Qeq_bool mean 0) eqn:E;
    [apply Qeq_bool_iff in E; exfalso; lra |].
  set (sd := sqrt _). pose proof (Hpos (Py.sum
    (map (fun x => (x - mean) ^ 2) intervals) / inject_Z (Py.len intervals)))
    as Hsd. fold sd in Hsd.
  assert (Hcv : sd / mean <= 0).
  { assert (Hm : mean < 0) by lra.
    assert (0 <= sd / - mean) by (apply Qle_shift_div_l; lra).
    assert (sd / - mean == - (sd / mean)) by (field; lra).
    lra. }
  assert (Hh : sd / mean / 2 == sd / mean * (1 # 2)) by reflexivity.
  destruct (min_cases 1.0 (1 - sd / mean / 2)) as [[A ->] | [A ->]];
    [exfalso; lra |].
  destruct (max_cases 0.0 1.0) as [[B ->] | [B ->]];
    [reflexivity | exfalso; lra].
Qed.

Lemma sqrt_approx_nonneg x : 0 <= sqrt_approx x.
Proof.
  unfold sqrt_approx, Qle. cbn [Qnum Qden].
  pose proof (Z.sqrt_nonneg (Qfloor (x * inject_Z (10 ^ 30)))). lia.
Qed.

Lemma consistency_negative_mean_witness :
  let intervals : list Q := [1; -5] in
  ((forall x, 0 <= sqrt_approx x) /\ (2 <= List.length intervals)%nat
   /\ mean_of intervals < 0)
  /\ _calculate_consistency sqrt_approx intervals == 1.
Proof.
  intro intervals.
  assert (L : (2 <= List.length intervals)%nat) by (cbn; lia).
  assert (M : mean_of intervals < 0) by reflexivity.
  split; [split; [exact sqrt_approx_nonneg | split; [exact L | exact M]] |].
  exact (consistency_negative_mean sqrt_approx sqrt_approx_nonneg intervals
           L M).
Defined.

(** ** Fluency: caps and monotonicity *)

Lemma max_zero_mono a b : a <= b -> Py.max 0 a <= Py.max 0 b.
Proof.
  intros H.
  destruct (max_cases 0 a) as [[? ->] | [? ->]];
    destruct (max_cases 0 b) as [[? ->] | [? ->]]; lra.
Qed.

Lemma max_zero_bounds v : 0 <= Py.max 0 v /\ (v <= 1 -> Py.max 0 v <= 1)
                          /\ (v <= 0 -> Py.max 0 v == 0).
Proof.
  destruct (max_cases 0 v) as [[? ->] | [? ->]]; repeat split; intros; lra.
Qed.

(** The score of [_calculate_fluency], its three penalties named. *)
Lemma fluency_score_parts c dr pp h :
  fst (_calculate_fluency c dr pp h)
  = 0.30 * c
    + 0.30 * Py.max 0 (1 - dr * 2)
    + 0.20 * Py.max 0 (1 - inject_Z (short_pauses pp + medium_pauses pp * 2
                                     + long_pauses pp * 3) / 10)
    + 0.20 * Py.max 0 (1 - inject_Z h / 5).
Proof. reflexivity. Qed.

Lemma fluency_level_not_top c dr pp h :
  fst (_calculate_fluency c dr pp h) < 0.8 ->
  snd (_calculate_fluency c dr pp h) <> "very_fluent".
Proof.
  intros H. unfold _calculate_fluency in *. cbn [fst snd] in *.
  destruct (Py.geb _ 0.8) eqn:E; float_tests; [exfalso; lra |].
  repeat match goal with
         | |- context [if ?b then _ else _] => destruct b
         end; discriminate.
Qed.

Lemma fluency_cap c dr pp h :
  c <= 1 -> 0 <= dr ->
  (0 <= short_pauses pp)%Z -> (0 <= medium_pauses pp)%Z ->
  (0 <= long_pauses pp)%Z -> (0 <= h)%Z ->
  c <= 0 \/ 1 # 2 <= dr
  \/ (5 <= h /\ h <= short_pauses pp + medium_pauses pp + long_pauses pp)%Z ->
  fst (_calculate_fluency c dr pp h) <= 0.7.
Proof.
  intros Hc Hdr Hs Hm Hl Hh Hcase. rewrite fluency_score_parts.
  set (pen := inject_Z (short_pauses pp + medium_pauses pp * 2
                        + long_pauses pp * 3)).
  assert (Hpen : 0 <= pen)
    by (subst pen; change 0 with (inject_Z 0); rewrite <- Zle_Qle; lia).
  assert (Hq : 0 <= inject_Z h)
    by (change 0 with (inject_Z 0); rewrite <- Zle_Qle; lia).
  assert (X : pen / 10 == pen * (1 # 10)) by reflexivity.
  assert (Y : inject_Z h / 5 == inject_Z h * (1 # 5)) by reflexivity.
  destruct (max_zero_bounds (1 - dr * 2)) as (D0 & D1 & Dz).
  destruct (max_zero_bounds (1 - pen / 10)) as (P0 & P1 & Pz).
  destruct (max_zero_bounds (1 - inject_Z h / 5)) as (H0 & H1 & Hz).
  specialize (D1 ltac:(lra)). specialize (P1 ltac:(lra)).
  specialize (H1 ltac:(lra)).
  destruct Hcase as [C | [C | [C1 C2]]].
  - lra.
  - specialize (Dz ltac:(lra)). lra.
  - assert (5 <= inject_Z h)
      by (change 5 with (inject_Z 5); rewrite <- Zle_Qle; lia).
    assert (5 <= pen)
      by (subst pen; change 5 with (inject_Z 5); rewrite <- Zle_Qle; lia).
    specialize (Hz ltac:(lra)).
    assert (Py.max 0 (1 - pen / 10) <= 1 # 2).
    { destruct (max_cases 0 (1 - pen / 10)) as [[? ->] | [? ->]]; lra. }
    lra.
Qed.

Lemma hesitation_count_le_pauses intervals :
  (0 <= fst (fst (_map_hesitations intervals))
   <= short_pauses (_analyze_pauses intervals)
      + medium_pauses (_analyze_pauses intervals)
      + long_pauses (_analyze_pauses intervals))%Z.
Proof.
  rewrite map_hesitations_points, analyze_pauses_buckets. cbv zeta.
  cbn [fst short_pauses medium_pauses long_pauses].
  fold (Py.len (filter short_pauseb intervals)).
  fold (Py.len (filter medium_pauseb intervals)).
  fold (Py.len (filter long_pauseb intervals)).
  unfold hesitation_points.
  rewrite (filter_indexed_len (fun x => Qle_bool 3 x) intervals 0).
  pose proof (hesitations_le_pauses intervals).
  pose proof (pauses_partition intervals).
  pose proof (len_filter_le (fun x => Qle_bool 3 x) intervals).
  lia.
Qed.

Lemma pause_counts_nonneg intervals :
  (0 <= short_pauses (_analyze_pauses intervals))%Z
  /\ (0 <= medium_pauses (_analyze_pauses intervals))%Z
  /\ (0 <= long_pauses (_analyze_pauses intervals))%Z.
Proof.
  rewrite analyze_pauses_buckets. cbn. repeat split; lia.
Qed.

Lemma few_typed_no_intervals self :
  (Py.len (filter is_typing (events self)) <= 1)%Z ->
  session_intervals self = [].
Proof.
  intros H. unfold session_intervals. fold is_typing.
  destruct (filter is_typing (events self)) as [| a [| b l]];
    try reflexivity.
  rewrite !len_cons in H. pose proof (len_nonneg l). lia.
Qed.

Lemma two_typed_consistency (sqrt : Q -> Q) self :
  (Py.len (filter is_typing (events self)) <= 2)%Z ->
  _calculate_consistency sqrt (session_intervals self) = 0.0.
Proof.
  intros H. unfold _calculate_consistency.
  destruct (interval_count self) as [_ L]. fold is_typing in L.
  destruct (Z.ltb_spec (Py.len (session_intervals self)) 2) as [_ | G];
    [reflexivity | lia].
Qed.

(** X23: Three things keep a session from being "very_fluent", its score then
    being at most 0.7: deletions making up half of the keystrokes or more;
    five hesitations or more; at most two typing events (no consistency
    can be measured). *)
Theorem fluency_caps :
  forall (sqrt : Q -> Q) end_time now_iso final_text self,
    nonempty_session self ->
    let p := snd (finish_monitoring sqrt end_time now_iso final_text self) in
    ((total_keystrokes p <= 2 * deletion_count p)%Z
     \/ (5 <= hesitation_count p)%Z
     \/ (Py.len (filter is_typing (events self)) <= 2)%Z) ->
    fluency_score p <= 0.7 /\ fluency_level p <> "very_fluent".
Proof.
  intros sqrt end_time now_iso final_text self Hne p Hcase.
  destruct (finish_monitoring_nonempty sqrt end_time now_iso final_text self Hne)
    as (start & Hs & Hp).
  subst p. rewrite Hp, analyze_fields in *. cbv zeta in *. profile_fields.
  set (c := _calculate_consistency sqrt (session_intervals self)) in *.
  set (dr := snd (fst (_analyze_deletions self))) in *.
  set (pp := _analyze_pauses (session_intervals self)) in *.
  set (h := fst (fst (_map_hesitations (session_intervals self)))) in *.
  destruct (pause_counts_nonneg (session_intervals self)) as (Ps & Pm & Pl).
  pose proof (hesitation_count_le_pauses (session_intervals self)) as Hh.
  fold pp in Ps, Pm, Pl, Hh. fold h in Hh.
  assert (Hcap : fst (_calculate_fluency c dr pp h) <= 0.7).
  { apply fluency_cap; try assumption; try lia.
    - apply consistency_unit_interval.
    - apply deletion_ratio_nonneg.
    - destruct Hcase as [C | [C | C]].
      + right; left. destruct Hne as [Hev _].
        subst dr. rewrite (deletion_ratio_exact self Hev).
        assert (Hn : 0 < inject_Z (Py.len (events self))).
        { change 0 with (inject_Z 0). rewrite <- Zlt_Qlt.
          destruct (events self) as [| e l]; [congruence |].
          rewrite len_cons. pose proof (len_nonneg l). lia. }
        apply Qle_shift_div_l; [exact Hn |].
        assert (E : (1 # 2) * inject_Z (Py.len (events self))
                    <= (1 # 2) * inject_Z (2 * fst (fst (_analyze_deletions self))))
          by (apply Qmult_le_l; [reflexivity | rewrite <- Zle_Qle; exact C]).
        rewrite inject_Z_mult in E. change (inject_Z 2) with 2 in E. lra.
      + right; right. lia.
      + left. subst c. rewrite (two_typed_consistency sqrt self C). lra. }
  split.
  - assert (E : 0.7 = Py.round 0.7 3) by (vm_compute; reflexivity).
    rewrite E. now apply round_mono.
  - apply fluency_level_not_top. lra.
Qed.

Lemma fluency_caps_witness :
  let self :=
    record_keystroke 102 EmptyString "backspace"
      (record_keystroke 101 "H" "type" (start_monitoring 100 __init__)) in
  (nonempty_session self
   /\ (Py.len (filter is_typing (events self)) <= 2)%Z)
  /\ fluency_level
       (snd (finish_monitoring sqrt_approx 105 "2025-01-01T00:00:05"
               (text_of_string "H") self))
     <> "very_fluent".
Proof.
  intro self.
  assert (H : nonempty_session self) by (split; [discriminate | reflexivity]).
  assert (T : (Py.len (filter is_typing (events self)) <= 2)%Z)
    by discriminate.
  split; [split; [exact H | exact T] |].
  exact (proj2 (fluency_caps sqrt_approx 105 "2025-01-01T00:00:05"
                  (text_of_string "H") self H (or_intror (or_intror T)))).
Defined.

(** X24: The fluency score never rises when the typing gets worse: it grows
    with the consistency and shrinks with the deletion ratio, with each
    pause count and with the hesitation count. *)
Theorem fluency_monotone :
  forall c c' dr dr' pp pp' h h',
    c <= c' ->
    dr' <= dr ->
    (short_pauses pp' <= short_pauses pp)%Z ->
    (medium_pauses pp' <= medium_pauses pp)%Z ->
    (long_pauses pp' <= long_pauses pp)%Z ->
    (h' <= h)%Z ->
    fst (_calculate_fluency c dr pp h) <= fst (_calculate_fluency c' dr' pp' h').
Proof.
  intros c c' dr dr' pp pp' h h' Hc Hdr Hs Hm Hl Hh.
  rewrite !fluency_score_parts.
  assert (Hpen : inject_Z (short_pauses pp' + medium_pauses pp' * 2
                           + long_pauses pp' * 3)
                 <= inject_Z (short_pauses pp + medium_pauses pp * 2
                              + long_pauses pp * 3))
    by (rewrite <- Zle_Qle; lia).
  assert (Hq : inject_Z h' <= inject_Z h) by (rewrite <- Zle_Qle; exact Hh).
  set (pen := inject_Z (short_pauses pp + _ + _)) in *.
  set (pen' := inject_Z (short_pauses pp' + _ + _)) in *.
  assert (X : pen / 10 == pen * (1 # 10)) by reflexivity.
  assert (X' : pen' / 10 == pen' * (1 # 10)) by reflexivity.
  assert (Y : inject_Z h / 5 == inject_Z h * (1 # 5)) by reflexivity.
  assert (Y' : inject_Z h' / 5 == inject_Z h' * (1 # 5)) by reflexivity.
  pose proof (max_zero_mono (1 - dr * 2) (1 - dr' * 2) ltac:(lra)).
  pose proof (max_zero_mono (1 - pen / 10) (1 - pen' / 10) ltac:(lra)).
  pose proof (max_zero_mono (1 - inject_Z h / 5) (1 - inject_Z h' / 5)
                ltac:(lra)).
  lra.
Qed.

Lemma fluency_monotone_witness :
  (0.5 <= 0.9 /\ 0.1 <= 0.3
   /\ (short_pauses (mkPauseInfo 1 0 0 "choppy")
       <= short_pauses (mkPauseInfo 2 1 0 "thoughtful"))%Z
   /\ (medium_pauses (mkPauseInfo 1 0 0 "choppy")
       <= medium_pauses (mkPauseInfo 2 1 0 "thoughtful"))%Z
   /\ (long_pauses (mkPauseInfo 1 0 0 "choppy")
       <= long_pauses (mkPauseInfo 2 1 0 "thoughtful"))%Z
   /\ (0 <= 2)%Z)
  /\ fst (_calculate_fluency 0.5 0.3 (mkPauseInfo 2 1 0 "thoughtful") 2)
     <= fst (_calculate_fluency 0.9 0.1 (mkPauseInfo 1 0 0 "choppy") 0).
Proof.
  assert (A : 0.5 <= 0.9) by discriminate.
  assert (B : 0.1 <= 0.3) by discriminate.
  assert (C : (1 <= 2)%Z) by lia.
  assert (D : (0 <= 1)%Z) by lia.
  assert (E : (0 <= 0)%Z) by lia.
  assert (F : (0 <= 2)%Z) by lia.
  split; [repeat split; assumption |].
  exact (fluency_monotone 0.5 0.9 0.3 0.1 (mkPauseInfo 2 1 0 "thoughtful")
           (mkPauseInfo 1 0 0 "choppy") 2 0 A B C D E F).
Defined.

(** ** Sessions without intervals *)

(** X25: A non-empty session with at most one typing event (only deletions or
    selections, say) has no interval: the average interval and the
    consistency are 0, there is no pause, no burst and no hesitation, and
    the rhythm type is the inconsistent label of its speed band. *)
Theorem no_intervals_profile :
  forall (sqrt : Q -> Q) end_time now_iso final_text self,
    nonempty_session self ->
    (Py.len (filter is_typing (events self)) <= 1)%Z ->
    let p := snd (finish_monitoring sqrt end_time now_iso final_text self) in
    avg_interval p = 0
    /\ consistency p = 0
    /\ pause_pattern p = mkPauseInfo 0 0 0 "continuous"
    /\ burst_count p = 0%Z /\ burst_segments p = []
    /\ max_burst_speed p = 0
    /\ hesitation_count p = 0%Z /\ hesitation_locations p = []
    /\ hesitations p = []
    /\ In (rhythm_type p) ["erratic_fast"; "labored"; "uneven"].
Proof.
  intros sqrt end_time now_iso final_text self Hne Hfew p.
  destruct (finish_monitoring_nonempty sqrt end_time now_iso final_text self Hne)
    as (start & Hs & Hp).
  subst p. rewrite Hp, analyze_fields. cbv zeta. profile_fields.
  rewrite (few_typed_no_intervals self Hfew).
  repeat (split; [reflexivity |]).
  unfold _classify_rhythm_type. cbn [_analyze_pauses pattern].
  change (_calculate_consistency sqrt []) with 0.0.
  change (Py.gtb 0.0 0.7) with false. cbv iota.
  destruct (Py.gtb _ 120); [cbn; tauto |].
  destruct (Py.ltb _ 60); cbn; tauto.
Qed.

Lemma no_intervals_profile_witness :
  let self :=
    record_keystroke 103 EmptyString "backspace"
      (record_keystroke 102 EmptyString "backspace"
         (record_keystroke 101 "H" "type" (start_monitoring 100 __init__))) in
  (nonempty_session self
   /\ (Py.len (filter is_typing (events self)) <= 1)%Z)
  /\ consistency
       (snd (finish_monitoring sqrt_approx 105 "2025-01-01T00:00:05"
               [] self))
     = 0.
Proof.
  intro self.
  assert (H : nonempty_session self) by (split; [discriminate | reflexivity]).
  assert (T : (Py.len (filter is_typing (events self)) <= 1)%Z)
    by discriminate.
  split; [split; [exact H | exact T] |].
  exact (proj1 (proj2 (no_intervals_profile sqrt_approx 105
                         "2025-01-01T00:00:05" [] self H T))).
Defined.

(** * The detector in binary64 *)

(** ** Rounding to binary64 *)

Lemma pow2_pos k : (0 <= k)%Z -> (0 < 2 ^ k)%Z.
Proof. intros H. apply Z.pow_pos_nonneg; lia. Qed.

Lemma pow2_Qpos k : (0 <= k)%Z -> 0 < inject_Z (2 ^ k).
Proof.
  intros H. change 0 with (inject_Z 0). rewrite <- Zlt_Qlt. now apply pow2_pos.
Qed.

Lemma ulp_exp_nonneg a : (0 <= F.ulp_exp a)%Z.
Proof. unfold F.ulp_exp. lia. Qed.

Lemma floor_nonneg a : 0 <= a -> (0 <= Qfloor a)%Z.
Proof.
  intros H. change 0%Z with (Qfloor 0). now apply Qfloor_resp_le.
Qed.

(** A non-negative number is below [2^53] units in its last place. *)
Lemma ulp_exp_upper a : 0 <= a -> a < inject_Z (2 ^ (F.ulp_exp a + 53)).
Proof.
  intros Ha. pose proof (floor_nonneg a Ha) as Ht.
  apply Qlt_le_trans with (inject_Z (Qfloor a + 1)); [apply Qlt_floor |].
  rewrite <- Zle_Qle. unfold F.ulp_exp.
  destruct (Z.eq_dec (Qfloor a) 0) as [E | NE].
  - rewrite E. simpl. lia.
  - destruct (Z.log2_spec (Qfloor a)) as [_ Hu]; [lia |].
    destruct (Z.max_spec 0 (Z.log2 (Qfloor a) - 52)) as [[Hc ->] | [Hc ->]].
    + replace (Z.log2 (Qfloor a) - 52 + 53)%Z with (Z.succ (Z.log2 (Qfloor a)))
        by lia.
      lia.
    + assert (2 ^ Z.succ (Z.log2 (Qfloor a)) <= 2 ^ (0 + 53))%Z
        by (apply Z.pow_le_mono_r; lia).
      lia.
Qed.

(** Above the lowest binade it holds at least [2^52] of them. *)
Lemma ulp_exp_lower a :
  0 <= a -> (0 < F.ulp_exp a)%Z -> inject_Z (2 ^ (F.ulp_exp a + 52)) <= a.
Proof.
  intros Ha Hk. pose proof (floor_nonneg a Ha) as Ht.
  apply Qle_trans with (inject_Z (Qfloor a)); [| apply Qfloor_le].
  rewrite <- Zle_Qle. unfold F.ulp_exp in *.
  destruct (Z.max_spec 0 (Z.log2 (Qfloor a) - 52)) as [[Hc E] | [Hc E]];
    rewrite E in *; [| lia].
  replace (Z.log2 (Qfloor a) - 52 + 52)%Z with (Z.log2 (Qfloor a)) by lia.
  assert (Qfloor a <> 0)%Z by (intros Z0; rewrite Z0 in Hk; simpl in Hk; lia).
  apply Z.log2_spec. lia.
Qed.

Lemma ulp_exp_mono a b : a <= b -> (F.ulp_exp a <= F.ulp_exp b)%Z.
Proof.
  intros H. unfold F.ulp_exp.
  pose proof (Z.log2_le_mono _ _ (Qfloor_resp_le _ _ H)). lia.
Qed.

Lemma ulp_exp_comp a b : a == b -> F.ulp_exp a = F.ulp_exp b.
Proof. intros E. unfold F.ulp_exp. now rewrite (Qfloor_comp _ _ E). Qed.

Lemma round_pos_comp a b : a == b -> F.round_pos a = F.round_pos b.
Proof.
  intros E. unfold F.round_pos. rewrite (ulp_exp_comp _ _ E).
  f_equal. apply round_half_even_comp. now rewrite E.
Qed.

Lemma round_pos_nonneg a : 0 <= a -> (0 <= F.round_pos a)%Z.
Proof.
  intros Ha. unfold F.round_pos.
  pose proof (ulp_exp_nonneg a) as Hk.
  pose proof (pow2_pos _ Hk) as Hp. pose proof (pow2_Qpos _ Hk) as Hq.
  apply Z.mul_nonneg_nonneg; [| lia].
  rewrite <- (round_half_even_Z 0). apply round_half_even_mono.
  change (inject_Z 0) with 0. apply Qle_shift_div_l; [exact Hq | lra].
Qed.

(** Rounding keeps the order: inside a binade by the rounding of the
    significand, across binades because a power of two is kept. *)
Lemma round_pos_mono a b :
  0 <= a -> a <= b -> (F.round_pos a <= F.round_pos b)%Z.
Proof.
  intros Ha Hab. assert (Hb : 0 <= b) by lra.
  pose proof (ulp_exp_mono _ _ Hab) as Hk.
  pose proof (ulp_exp_nonneg a) as Hka.
  pose proof (pow2_Qpos _ Hka) as Hqa.
  pose proof (pow2_pos _ Hka) as Hpa.
  destruct (Z.eq_dec (F.ulp_exp a) (F.ulp_exp b)) as [E | NE].
  - unfold F.round_pos. rewrite <- E.
    apply Z.mul_le_mono_nonneg_r; [lia |].
    apply round_half_even_mono.
    apply Qmult_le_compat_r; [exact Hab |].
    apply Qlt_le_weak, Qinv_lt_0_compat, Hqa.
  - assert (Hlt : (F.ulp_exp a + 1 <= F.ulp_exp b)%Z) by lia.
    assert (Hkb : (0 < F.ulp_exp b)%Z) by lia.
    pose proof (ulp_exp_upper a Ha) as Hu.
    pose proof (ulp_exp_lower b Hb Hkb) as Hl.
    assert (Hqb : 0 < inject_Z (2 ^ F.ulp_exp b)) by (apply pow2_Qpos; lia).
    assert (Hpb : (0 < 2 ^ F.ulp_exp b)%Z) by (apply pow2_pos; lia).
    apply Z.le_trans with (2 ^ (F.ulp_exp a + 53))%Z.
    + unfold F.round_pos. rewrite Z.pow_add_r by lia.
      rewrite (Z.mul_comm (2 ^ F.ulp_exp a)).
      apply Z.mul_le_mono_nonneg_r; [lia |].
      rewrite <- (round_half_even_Z (2 ^ 53)). apply round_half_even_mono.
      apply Qle_shift_div_r; [exact Hqa |].
      rewrite <- inject_Z_mult, Z.mul_comm, <- Z.pow_add_r by lia.
      now apply Qlt_le_weak.
    + apply Z.le_trans with (2 ^ (F.ulp_exp b + 52))%Z.
      * apply Z.pow_le_mono_r; lia.
      * unfold F.round_pos. rewrite Z.pow_add_r by lia.
        rewrite (Z.mul_comm (2 ^ F.ulp_exp b)).
        apply Z.mul_le_mono_nonneg_r; [lia |].
        rewrite <- (round_half_even_Z (2 ^ 52)). apply round_half_even_mono.
        apply Qle_shift_div_l; [exact Hqb |].
        rewrite <- inject_Z_mult, Z.mul_comm, <- Z.pow_add_r by lia.
        exact Hl.
Qed.

Lemma scale_pos : 0 < inject_Z F.scale.
Proof. apply pow2_Qpos. lia. Qed.

(** The value of [b64 x] on either side of zero. *)
Lemma b64_nonneg_value x :
  0 <= x ->
  F.b64 x == inject_Z (F.round_pos (x * inject_Z F.scale)) / inject_Z F.scale.
Proof.
  intros Hx. unfold F.b64.
  destruct (Qlt_le_dec x 0) as [H | H]; [lra |]. apply Qred_correct.
Qed.

Lemma b64_neg_value x :
  x < 0 ->
  F.b64 x
  == - (inject_Z (F.round_pos (- x * inject_Z F.scale)) / inject_Z F.scale).
Proof.
  intros Hx. unfold F.b64.
  destruct (Qlt_le_dec x 0) as [H | H]; [| lra]. apply Qred_correct.
Qed.

Lemma b64_comp x y : x == y -> F.b64 x = F.b64 y.
Proof.
  intros E. unfold F.b64.
  destruct (Qlt_le_dec x 0) as [Hx | Hx]; destruct (Qlt_le_dec y 0) as [Hy | Hy];
    try (exfalso; lra); apply Qred_complete;
    (rewrite (round_pos_comp (- x * inject_Z F.scale) (- y * inject_Z F.scale))
       by (now rewrite E))
    || (rewrite (round_pos_comp (x * inject_Z F.scale) (y * inject_Z F.scale))
          by (now rewrite E));
    reflexivity.
Qed.

Lemma b64_zero : F.b64 0 = 0.
Proof. vm_compute. reflexivity. Qed.

Lemma b64_one : F.b64 1 = 1.
Proof. vm_compute. reflexivity. Qed.

Lemma b64_sign_nonneg x : 0 <= x -> 0 <= F.b64 x.
Proof.
  intros Hx. rewrite (b64_nonneg_value x Hx).
  pose proof scale_pos as Hs.
  apply Qle_shift_div_l; [exact Hs |].
  assert (0 <= x * inject_Z F.scale) by nra.
  pose proof (round_pos_nonneg _ H) as Hr.
  rewrite Zle_Qle in Hr. change (inject_Z 0) with 0 in Hr. lra.
Qed.

Lemma b64_sign_nonpos x : x <= 0 -> F.b64 x <= 0.
Proof.
  intros Hx. destruct (Qlt_le_dec x 0) as [H | H].
  - rewrite (b64_neg_value x H).
    pose proof scale_pos as Hs.
    assert (H' : 0 <= - x * inject_Z F.scale) by nra.
    pose proof (round_pos_nonneg _ H') as Hr.
    rewrite Zle_Qle in Hr. change (inject_Z 0) with 0 in Hr.
    assert (0 <= inject_Z (F.round_pos (- x * inject_Z F.scale)) / inject_Z F.scale)
      by (apply Qle_shift_div_l; [exact Hs | lra]).
    lra.
  - assert (E : x == 0) by lra. rewrite (b64_comp _ _ E), b64_zero. lra.
Qed.

(** Rounding to binary64 keeps the order. *)
Lemma b64_mono x y : x <= y -> F.b64 x <= F.b64 y.
Proof.
  intros Hxy. pose proof scale_pos as Hs.
  destruct (Qlt_le_dec y 0) as [Hy | Hy].
  - assert (Hx : x < 0) by lra.
    rewrite (b64_neg_value x Hx), (b64_neg_value y Hy).
    assert (Hm : (F.round_pos (- y * inject_Z F.scale)
                  <= F.round_pos (- x * inject_Z F.scale))%Z)
      by (apply round_pos_mono; nra).
    rewrite Zle_Qle in Hm.
    apply Qopp_le_compat.
    apply Qmult_le_compat_r; [exact Hm |].
    apply Qlt_le_weak, Qinv_lt_0_compat, Hs.
  - destruct (Qlt_le_dec x 0) as [Hx | Hx].
    + apply Qle_trans with 0;
        [apply b64_sign_nonpos; lra | now apply b64_sign_nonneg].
    + rewrite (b64_nonneg_value x Hx), (b64_nonneg_value y Hy).
      assert (Hm : (F.round_pos (x * inject_Z F.scale)
                    <= F.round_pos (y * inject_Z F.scale))%Z)
        by (apply round_pos_mono; nra).
      rewrite Zle_Qle in Hm.
      apply Qmult_le_compat_r; [exact Hm |].
      apply Qlt_le_weak, Qinv_lt_0_compat, Hs.
Qed.

(** ** The assembled result, in binary64 *)

Lemma analyze_fields_b64 (fsum sqrt : _ -> Q) self start final_text end_time now_iso :
  let intervals := B64.session_intervals self in
  let duration := F.sub end_time start in
  let cpm :=
    if Py.gtb duration 0
    then F.mul (F.div (F.of_int (Py.len final_text)) duration) 60 else 0 in
  let c := B64._calculate_consistency fsum sqrt intervals in
  let dels := B64._analyze_deletions self in
  let bs := B64._detect_bursts intervals in
  let hs := _map_hesitations intervals in
  let fl :=
    B64._calculate_fluency c (snd (fst dels)) (_analyze_pauses intervals)
      (fst (fst hs)) in
  B64._analyze fsum sqrt self start final_text end_time now_iso
  = {| p_timestamp := now_iso;
       duration_seconds := Py.round duration 2;
       chars_per_minute := Py.round cpm 1;
       pause_pattern := _analyze_pauses intervals;
       consistency := Py.round c 3;
       text_rhythm := B64._analyze_text_rhythm final_text;
       rhythm_type :=
         B64._classify_rhythm_type cpm c (pattern (_analyze_pauses intervals));
       total_keystrokes := Py.len (events self);
       actual_chars := Py.len final_text;
       avg_interval :=
         Py.round
           match intervals with
           | [] => 0
           | _ => F.div (fsum intervals) (F.of_int (Py.len intervals))
           end 3;
       deletion_count := fst (fst dels);
       deletion_ratio := Py.round (snd (fst dels)) 3;
       deletion_patterns := snd dels;
       modification_count := fst (_analyze_modifications self);
       modifications := snd (_analyze_modifications self);
       burst_count := fst (fst bs);
       burst_segments := snd (fst bs);
       max_burst_speed := Py.round (snd bs) 1;
       hesitation_count := fst (fst hs);
       hesitation_locations := snd (fst hs);
       hesitations := snd hs;
       fluency_score := Py.round (fst fl) 3;
       fluency_level := snd fl;
       typing_trajectory :=
         map (fun e => mkTrajectoryPoint (event_type e) (char e) (timestamp e))
             (events self);
       keystroke_ratio :=
         Py.round
           (if (Py.len final_text >? 0)%Z
            then F.div_int (Py.len (events self)) (Py.len final_text)
            else 0) 2 |}.
Proof.
  cbv zeta. unfold B64._analyze.
  destruct (B64._analyze_deletions self) as [[dc dr] dp].
  destruct (_analyze_modifications self) as [mc ms].
  destruct (B64._detect_bursts (B64.session_intervals self)) as [[bc bsg] bm].
  destruct (_map_hesitations (B64.session_intervals self)) as [[hc hl] hh].
  cbn [fst snd].
  destruct (B64._calculate_fluency _ _ _ _) as [fs fl].
  reflexivity.
Qed.

(** On a non-empty session [finish_monitoring] returns the analysis. *)
Lemma finish_monitoring_nonempty_b64 (fsum sqrt : _ -> Q) end_time now_iso final_text self :
  nonempty_session self ->
  exists start,
    start_time self = Some start
    /\ snd (B64.finish_monitoring fsum sqrt end_time now_iso final_text self)
       = B64._analyze fsum sqrt self start final_text end_time now_iso.
Proof.
  intros [Hev Hst]. unfold B64.finish_monitoring. cbn [events start_time].
  destruct (events self) as [| e l] eqn:Ev; [congruence |].
  destruct (start_time self) as [start |]; [| discriminate].
  exists start. rewrite Hst. cbn [negb snd]. split; [reflexivity |].
  rewrite !analyze_fields_b64. cbv zeta.
  unfold B64.session_intervals, B64._analyze_deletions, _analyze_modifications.
  cbn [events]. rewrite Ev. reflexivity.
Qed.

(** ** Bursts, in binary64 *)

Lemma burst_record_segment_b64 s r :
  B64.scan_reads s (Some r) ->
  B64.burst_record s = B64.segment_of_run round1 r.
Proof.
  intros (Hl & _ & Ht & Hs).
  unfold B64.burst_record, B64.segment_of_run, B64.run_speed, round1.
  rewrite Hl, Ht, Hs. f_equal.
  destruct (Py.gtb (B64.run_time r) 0) eqn:E;
    destruct (Qlt_le_dec 0 (B64.run_time r)); float_tests;
    try reflexivity; exfalso; lra.
Qed.

(** What the closing test of [_detect_bursts] leaves in [bursts]. *)
Lemma close_burst_open_b64 s cur :
  B64.scan_reads s cur ->
  (if (current_burst_length s >=? BURST_MIN_LENGTH)%Z
   then bursts s ++ [B64.burst_record s] else bursts s)
  = bursts s
    ++ map (B64.segment_of_run round1) (filter long_run (open_run cur)).
Proof.
  intros H. unfold BURST_MIN_LENGTH. rewrite Z.geb_leb.
  destruct cur as [r |]; cbn [open_run filter].
  - rewrite (burst_record_segment_b64 s r H).
    destruct H as (Hl & _). unfold long_run. rewrite Hl.
    destruct (5 <=? Py.len (run_items r))%Z; cbn [map];
      [reflexivity | now rewrite app_nil_r].
  - destruct H as (Hl & _). rewrite Hl. cbn. now rewrite app_nil_r.
Qed.

Lemma run_time_app_one st l x :
  B64.run_time (mkRun st (l ++ [x])) = F.add (B64.run_time (mkRun st l)) x.
Proof. unfold B64.run_time. cbn [run_items]. now rewrite fold_left_app. Qed.

(** The loop of [_detect_bursts] emits the long maximal runs. *)
Lemma burst_loop_runs_b64 intervals :
  forall i s cur,
    B64.scan_reads s cur ->
    (let s' := B64.burst_loop i intervals s in
     if (current_burst_length s' >=? BURST_MIN_LENGTH)%Z
     then bursts s' ++ [B64.burst_record s'] else bursts s')
    = bursts s
      ++ map (B64.segment_of_run round1)
           (filter long_run (B64.fast_runs_from i intervals cur)).
Proof.
  induction intervals as [| x rest IH]; intros i s cur H.
  - cbn [B64.burst_loop B64.fast_runs_from]. cbv zeta.
    now apply close_burst_open_b64.
  - cbn [B64.burst_loop B64.fast_runs_from].
    destruct (Py.ltb x B64.BURST_INTERVAL_MAX) eqn:E;
      destruct (Qlt_le_dec x B64.BURST_INTERVAL_MAX) as [L | L];
      float_tests; try (exfalso; lra).
    + erewrite IH; [reflexivity |].
      destruct cur as [r |]; cbn [B64.scan_reads] in *;
        cbn [current_burst_length current_burst_time burst_start bursts
             run_items run_start].
      * destruct H as (Hl & Hn & Ht & Hs). rewrite Hl, Ht, Hs.
        rewrite len_app_one, run_time_app_one.
        repeat split; try reflexivity.
        -- destruct (run_items r); [congruence | discriminate].
        -- destruct (Py.len (run_items r) =? 0)%Z eqn:Z0; [| reflexivity].
           apply Z.eqb_eq, len_zero_nil in Z0. congruence.
      * destruct H as (Hl & Ht). rewrite Hl, Ht.
        repeat split; try reflexivity. discriminate.
    + erewrite IH with (cur := None); [| split; reflexivity].
      cbn [bursts].
      rewrite (close_burst_open_b64 s cur H), filter_app, map_app, app_assoc.
      reflexivity.
Qed.

(** [_detect_bursts] returns the long maximal runs, each speed rounded to
    one decimal where the record is built, their number and the largest of
    the rounded speeds. *)
Lemma detect_bursts_runs_b64 intervals :
  B64._detect_bursts intervals
  = let segs :=
      map (B64.segment_of_run round1)
          (filter long_run (B64.fast_runs intervals)) in
    (Py.len segs, segs, Py.max_default (map bs_avg_speed segs) 0).
Proof.
  unfold B64._detect_bursts. cbv zeta.
  pose proof (burst_loop_runs_b64 intervals 0%Z (mkBurstScan [] 0%Z 0 0%Z) None)
    as H.
  cbv zeta in H. rewrite H; [| split; reflexivity].
  reflexivity.
Qed.

Lemma max_speed_rounded_once_b64 intervals :
  snd (B64._detect_bursts intervals)
  = Py.round (B64.max_run_speed intervals) 1.
Proof.
  rewrite detect_bursts_runs_b64. cbv zeta. cbn [snd].
  unfold B64.max_run_speed.
  rewrite map_map. cbn [B64.segment_of_run bs_avg_speed]. unfold round1.
  rewrite <- max_default_round, map_map. reflexivity.
Qed.

(** ** The error of one rounding *)

Lemma round_half_even_near z :
  - (1 # 2) <= inject_Z (Py.round_half_even z) - z <= 1 # 2.
Proof.
  unfold Py.round_half_even.
  pose proof (Qfloor_le z) as H1. pose proof (Qlt_floor z) as H2.
  rewrite inject_Z_plus in H2. change (inject_Z 1) with 1 in H2.
  destruct (Qcompare_spec (z - inject_Z (Qfloor z)) (1 # 2)) as [H | H | H];
    try destruct (Z.even (Qfloor z));
    rewrite ?inject_Z_plus; change (inject_Z 1) with 1; lra.
Qed.

Lemma round_pos_near a :
  0 <= a ->
  - (inject_Z (2 ^ F.ulp_exp a) / 2) <= inject_Z (F.round_pos a) - a
  /\ inject_Z (F.round_pos a) - a <= inject_Z (2 ^ F.ulp_exp a) / 2.
Proof.
  intros Ha. unfold F.round_pos. cbv zeta.
  pose proof (ulp_exp_nonneg a) as Hk.
  pose proof (pow2_Qpos _ Hk) as Hq.
  set (p := inject_Z (2 ^ F.ulp_exp a)) in *.
  pose proof (round_half_even_near (a / p)) as [N1 N2].
  rewrite inject_Z_mult. fold p.
  set (r := inject_Z (Py.round_half_even (a / p))) in *.
  assert (E : a == a / p * p) by (field; lra).
  assert (X : p / 2 == p * (1 # 2)) by reflexivity.
  rewrite X. split; nra.
Qed.

(** One rounding moves a number of magnitude at most [B] by at most
    [B * 2^-53 + 2^-1075]. *)
Lemma round_pos_error a B :
  0 <= a -> a <= B * inject_Z F.scale ->
  - (B * inject_Z F.scale * (1 # 2 ^ 53) + (1 # 2))
    <= inject_Z (F.round_pos a) - a
  /\ inject_Z (F.round_pos a) - a
     <= B * inject_Z F.scale * (1 # 2 ^ 53) + (1 # 2).
Proof.
  intros Ha HB.
  pose proof (round_pos_near a Ha) as [N1 N2].
  pose proof (ulp_exp_nonneg a) as Hk.
  assert (X : inject_Z (2 ^ F.ulp_exp a) / 2
              == inject_Z (2 ^ F.ulp_exp a) * (1 # 2)) by reflexivity.
  rewrite X in N1, N2.
  assert (U : B * inject_Z F.scale * (1 # 2 ^ 53)
              == B * inject_Z F.scale / inject_Z (2 ^ 53)) by reflexivity.
  rewrite U.
  set (bs := B * inject_Z F.scale) in *.
  assert (H53 : 0 < inject_Z (2 ^ 53)) by reflexivity.
  assert (Hbs : 0 <= bs / inject_Z (2 ^ 53))
    by (apply Qle_shift_div_l; [exact H53 | lra]).
  destruct (Z.eq_dec (F.ulp_exp a) 0) as [E | NE].
  - rewrite E in N1, N2. change (inject_Z (2 ^ 0)) with 1 in N1, N2.
    split; lra.
  - assert (Hk' : (0 < F.ulp_exp a)%Z) by lia.
    pose proof (ulp_exp_lower a Ha Hk') as Hl.
    rewrite Z.pow_add_r, inject_Z_mult in Hl by lia.
    pose proof (pow2_Qpos _ Hk) as Hq.
    set (p := inject_Z (2 ^ F.ulp_exp a)) in *.
    assert (Hp : p * (1 # 2) <= bs / inject_Z (2 ^ 53)).
    { apply Qle_shift_div_l; [exact H53 |].
      change (inject_Z (2 ^ 53)) with (inject_Z (2 ^ 52) * 2).
      set (q := inject_Z (2 ^ 52)) in *. lra. }
    split; lra.
Qed.

Lemma b64_error x B :
  - B <= x <= B ->
  - (B * (1 # 2 ^ 53) + (1 # 2 ^ 1075)) <= F.b64 x - x
  /\ F.b64 x - x <= B * (1 # 2 ^ 53) + (1 # 2 ^ 1075).
Proof.
  intros [H1 H2]. pose proof scale_pos as Hs.
  assert (ES : (1 # 2 ^ 1075) == (1 # 2) / inject_Z F.scale) by reflexivity.
  destruct (Qlt_le_dec x 0) as [Hx | Hx].
  - rewrite (b64_neg_value x Hx).
    assert (Ha : 0 <= - x * inject_Z F.scale) by nra.
    assert (Hb : - x * inject_Z F.scale <= B * inject_Z F.scale) by nra.
    destruct (round_pos_error _ B Ha Hb) as [N1 N2].
    set (r := inject_Z (F.round_pos (- x * inject_Z F.scale))) in *.
    set (S := inject_Z F.scale) in *.
    assert (E1 : r / S - (- x) == (r - - x * S) / S) by (field; lra).
    assert (E2 : B * (1 # 2 ^ 53) + (1 # 2 ^ 1075)
                 == (B * S * (1 # 2 ^ 53) + (1 # 2)) / S)
      by (rewrite ES; field; lra).
    assert (D1 : (r - - x * S) / S <= (B * S * (1 # 2 ^ 53) + (1 # 2)) / S).
    { apply Qmult_le_compat_r; [lra |].
      apply Qlt_le_weak, Qinv_lt_0_compat, Hs. }
    assert (D2 : - ((B * S * (1 # 2 ^ 53) + (1 # 2)) / S) <= (r - - x * S) / S).
    { assert (D : (- (B * S * (1 # 2 ^ 53) + (1 # 2))) / S <= (r - - x * S) / S).
      { apply Qmult_le_compat_r; [lra |].
        apply Qlt_le_weak, Qinv_lt_0_compat, Hs. }
      assert (E3 : (- (B * S * (1 # 2 ^ 53) + (1 # 2))) / S
                   == - ((B * S * (1 # 2 ^ 53) + (1 # 2)) / S))
        by (field; lra).
      lra. }
    rewrite E2. split; lra.
  - rewrite (b64_nonneg_value x Hx).
    assert (Ha : 0 <= x * inject_Z F.scale) by nra.
    assert (Hb : x * inject_Z F.scale <= B * inject_Z F.scale) by nra.
    destruct (round_pos_error _ B Ha Hb) as [N1 N2].
    set (r := inject_Z (F.round_pos (x * inject_Z F.scale))) in *.
    set (S := inject_Z F.scale) in *.
    assert (E1 : r / S - x == (r - x * S) / S) by (field; lra).
    assert (E2 : B * (1 # 2 ^ 53) + (1 # 2 ^ 1075)
                 == (B * S * (1 # 2 ^ 53) + (1 # 2)) / S)
      by (rewrite ES; field; lra).
    assert (D1 : (r - x * S) / S <= (B * S * (1 # 2 ^ 53) + (1 # 2)) / S).
    { apply Qmult_le_compat_r; [lra |].
      apply Qlt_le_weak, Qinv_lt_0_compat, Hs. }
    assert (D2 : - ((B * S * (1 # 2 ^ 53) + (1 # 2)) / S) <= (r - x * S) / S).
    { assert (D : (- (B * S * (1 # 2 ^ 53) + (1 # 2))) / S <= (r - x * S) / S).
      { apply Qmult_le_compat_r; [lra |].
        apply Qlt_le_weak, Qinv_lt_0_compat, Hs. }
      assert (E3 : (- (B * S * (1 # 2 ^ 53) + (1 # 2))) / S
                   == - ((B * S * (1 # 2 ^ 53) + (1 # 2)) / S))
        by (field; lra).
      lra. }
    rewrite E2. split; lra.
Qed.

Lemma b64_close x :
  - (2) <= x <= 2 ->
  - (3 * F.unit_roundoff) <= F.b64 x - x <= 3 * F.unit_roundoff.
Proof.
  intros H. destruct (b64_error x 2 H) as [E1 E2].
  assert (T : 2 * (1 # 2 ^ 53) + (1 # 2 ^ 1075) <= 3 * F.unit_roundoff)
    by (apply Qle_bool_iff; vm_compute; reflexivity).
  split; lra.
Qed.

(** ** Fluency, in binary64 *)

Lemma add_mono a b a' b' : a <= a' -> b <= b' -> F.add a b <= F.add a' b'.
Proof. intros. apply b64_mono. lra. Qed.

Lemma add_nonneg a b : 0 <= a -> 0 <= b -> 0 <= F.add a b.
Proof. intros. apply b64_sign_nonneg. lra. Qed.

Lemma mul_weight_range L x :
  0 <= L -> 0 <= x <= 1 -> 0 <= F.mul L x <= F.b64 L.
Proof.
  intros HL Hx. unfold F.mul. split.
  - apply b64_sign_nonneg. nra.
  - apply b64_mono. nra.
Qed.

Lemma div_int_nonneg m n : (0 <= m)%Z -> (0 < n)%Z -> 0 <= F.div_int m n.
Proof.
  intros Hm Hn. apply b64_sign_nonneg.
  apply Qle_shift_div_l.
  - change 0 with (inject_Z 0). now rewrite <- Zlt_Qlt.
  - rewrite Qmult_0_l. change 0 with (inject_Z 0). now rewrite <- Zle_Qle.
Qed.

Lemma div_int_le_one m n : (m <= n)%Z -> (0 < n)%Z -> F.div_int m n <= 1.
Proof.
  intros Hm Hn. rewrite <- b64_one. apply b64_mono.
  apply Qle_shift_div_r.
  - change 0 with (inject_Z 0). now rewrite <- Zlt_Qlt.
  - rewrite Qmult_1_l. now rewrite <- Zle_Qle.
Qed.

(** A component [max(0, 1 - y)] of the score lies in the unit interval. *)
Lemma component_range y : 0 <= y -> 0 <= Qmax 0 (F.sub 1 y) <= 1.
Proof.
  intros Hy. apply Qmax_zero_range.
  apply Qle_trans with (F.b64 1); [apply b64_mono; lra |].
  rewrite b64_one. lra.
Qed.

Lemma consistency_unit_interval_b64 (fsum sqrt : _ -> Q) intervals :
  0 <= B64._calculate_consistency fsum sqrt intervals <= 1.
Proof.
  unfold B64._calculate_consistency.
  destruct (Py.len intervals <? 2)%Z; [lra |].
  destruct (Py.eqb _ 0); [lra |].
  rewrite max_min_clamp. apply clamp_unit_interval.
Qed.

Lemma mul_max_zero L v : F.mul L (Py.max 0 v) = F.mul L (Qmax 0 v).
Proof. apply b64_comp. now rewrite max_zero_Qmax. Qed.

Lemma calculate_fluency_formula_b64 c dr pp h :
  fst (B64._calculate_fluency c dr pp h)
  = B64.fluency_formula c dr (short_pauses pp) (medium_pauses pp)
      (long_pauses pp) h
  /\ snd (B64._calculate_fluency c dr pp h)
     = B64.fluency_band (fst (B64._calculate_fluency c dr pp h)).
Proof.
  unfold B64._calculate_fluency, B64.fluency_formula, B64.fluency_band.
  cbn [fst snd]. split.
  - replace (short_pauses pp + medium_pauses pp * 2 + long_pauses pp * 3)%Z
      with (short_pauses pp + 2 * medium_pauses pp + 3 * long_pauses pp)%Z
      by lia.
    assert (E : F.mul dr 2 = F.mul 2 dr) by (apply b64_comp; ring).
    rewrite E.
    rewrite (mul_max_zero (F.lit 0.30) (F.sub 1 (F.mul 2 dr))).
    rewrite (mul_max_zero (F.lit 0.20)
               (F.sub 1 (F.div_int (short_pauses pp + 2 * medium_pauses pp
                                    + 3 * long_pauses pp) 10))).
    rewrite (mul_max_zero (F.lit 0.20) (F.sub 1 (F.div_int h 5))).
    reflexivity.
  - unfold Py.geb.
    repeat match goal with
           | |- context [Qle_bool ?a ?b] => destruct (Qle_bool a b)
           end; reflexivity.
Qed.

(** The score lies in the unit interval: every rounding keeps the order,
    and the four weights add up to exactly 1 in binary64. *)
Lemma fluency_formula_range_b64 c dr s m l h :
  0 <= c <= 1 -> 0 <= dr -> (0 <= s)%Z -> (0 <= m)%Z -> (0 <= l)%Z ->
  (0 <= h)%Z ->
  0 <= B64.fluency_formula c dr s m l h <= 1.
Proof.
  intros Hc Hdr Hs Hm Hl Hh. unfold B64.fluency_formula.
  assert (L3 : 0 <= F.lit 0.30) by (apply Qle_bool_iff; vm_compute; reflexivity).
  assert (L2 : 0 <= F.lit 0.20) by (apply Qle_bool_iff; vm_compute; reflexivity).
  assert (D : 0 <= Qmax 0 (F.sub 1 (F.mul 2 dr)) <= 1).
  { apply component_range. apply b64_sign_nonneg. lra. }
  assert (P : 0 <= Qmax 0 (F.sub 1 (F.div_int (s + 2 * m + 3 * l) 10)) <= 1).
  { apply component_range. apply div_int_nonneg; lia. }
  assert (H : 0 <= Qmax 0 (F.sub 1 (F.div_int h 5)) <= 1).
  { apply component_range. apply div_int_nonneg; lia. }
  pose proof (mul_weight_range _ _ L3 Hc) as [A1 A2].
  pose proof (mul_weight_range _ _ L3 D) as [B1 B2].
  pose proof (mul_weight_range _ _ L2 P) as [C1 C2].
  pose proof (mul_weight_range _ _ L2 H) as [D1 D2].
  split.
  - apply add_nonneg; [apply add_nonneg; [apply add_nonneg |] |]; assumption.
  - set (w3 := F.b64 (F.lit 0.30)) in *. set (w2 := F.b64 (F.lit 0.20)) in *.
    assert (T : F.add (F.add (F.add w3 w3) w2) w2 = 1)
      by (vm_compute; reflexivity).
    apply Qle_trans with (F.add (F.add (F.add w3 w3) w2) w2);
      [| rewrite T; apply Qle_refl].
    apply add_mono; [apply add_mono; [apply add_mono |] |]; assumption.
Qed.

(** *** The score against the real-number formula *)

Lemma unit_roundoff_small : 0 < F.unit_roundoff /\ F.unit_roundoff <= 1 # 1000.
Proof. split; [reflexivity | apply Qle_bool_iff; reflexivity]. Qed.

(** A component [max(0, 1 - y)] computed on floats is within six units of
    roundoff of its real value. *)
Lemma component_close y :
  0 <= y ->
  - (6 * F.unit_roundoff)
    <= Qmax 0 (F.sub 1 (F.b64 y)) - Qmax 0 (1 - y)
    <= 6 * F.unit_roundoff.
Proof.
  intros Hy. destruct unit_roundoff_small as [U0 U1].
  set (u := F.unit_roundoff) in *.
  assert (T2 : F.b64 2 = 2) by (vm_compute; reflexivity).
  assert (Tm : F.b64 (- (1)) = - (1)) by (vm_compute; reflexivity).
  pose proof (b64_sign_nonneg y Hy) as Y0.
  unfold F.sub.
  destruct (Qlt_le_dec y 2) as [H | H].
  - assert (Y2 : F.b64 y <= 2).
    { apply Qle_trans with (F.b64 2); [apply b64_mono; lra |].
      rewrite T2. apply Qle_refl. }
    assert (By : - (2) <= y <= 2) by lra.
    pose proof (b64_close y By) as C1. fold u in C1.
    assert (Bz : - (2) <= 1 - F.b64 y <= 2) by lra.
    pose proof (b64_close _ Bz) as C2. fold u in C2.
    set (yh := F.b64 y) in *. set (z := F.b64 (1 - yh)) in *.
    destruct (Q.max_spec 0 z) as [[? ->] | [? ->]];
      destruct (Q.max_spec 0 (1 - y)) as [[? ->] | [? ->]]; lra.
  - assert (Y2 : 2 <= F.b64 y).
    { apply Qle_trans with (F.b64 2); [| apply b64_mono; lra].
      rewrite T2. apply Qle_refl. }
    assert (Z1 : F.b64 (1 - F.b64 y) <= - (1)).
    { apply Qle_trans with (F.b64 (- (1))); [apply b64_mono; lra |].
      rewrite Tm. apply Qle_refl. }
    set (yh := F.b64 y) in *. set (z := F.b64 (1 - yh)) in *.
    destruct (Q.max_spec 0 z) as [[? ->] | [? ->]];
      destruct (Q.max_spec 0 (1 - y)) as [[? ->] | [? ->]]; lra.
Qed.

(** A weighted component: the weight is a rounded literal and the product
    is rounded. *)
Lemma weighted_close L w xh x d :
  0 <= w <= 1 -> - F.unit_roundoff <= L - w <= F.unit_roundoff ->
  0 <= L <= 1 -> 0 <= xh <= 1 -> - d <= xh - x <= d ->
  - (4 * F.unit_roundoff + w * d) <= F.mul L xh - w * x
  /\ F.mul L xh - w * x <= 4 * F.unit_roundoff + w * d.
Proof.
  intros Hw HL HL1 Hx Hd. destruct unit_roundoff_small as [U0 U1].
  set (u := F.unit_roundoff) in *.
  assert (B : - (2) <= L * xh <= 2) by nra.
  pose proof (b64_close _ B) as C. fold u in C.
  unfold F.mul. set (r := F.b64 (L * xh)) in *.
  assert (P1 : (L - w) * xh <= u) by nra.
  assert (P2 : - u <= (L - w) * xh) by nra.
  assert (P3 : w * (xh - x) <= w * d) by nra.
  assert (P4 : - (w * d) <= w * (xh - x)) by nra.
  split; nra.
Qed.

(** The binary64 score is within [2^-48] of the real-number formula. *)
Lemma fluency_formula_close c dr s m l h :
  0 <= c <= 1 -> 0 <= dr -> (0 <= s)%Z -> (0 <= m)%Z -> (0 <= l)%Z ->
  (0 <= h)%Z ->
  Qabs (B64.fluency_formula c dr s m l h - fluency_formula c dr s m l h)
  <= 32 * F.unit_roundoff.
Proof.
  intros Hc Hdr Hs Hm Hl Hh.
  destruct unit_roundoff_small as [U0 U1].
  unfold B64.fluency_formula, fluency_formula.
  assert (W3 : 0 <= 0.30 <= 1) by lra.
  assert (W2 : 0 <= 0.20 <= 1) by lra.
  assert (L3 : - F.unit_roundoff <= F.lit 0.30 - 0.30 <= F.unit_roundoff)
    by (split; apply Qle_bool_iff; vm_compute; reflexivity).
  assert (L2 : - F.unit_roundoff <= F.lit 0.20 - 0.20 <= F.unit_roundoff)
    by (split; apply Qle_bool_iff; vm_compute; reflexivity).
  assert (R3 : 0 <= F.lit 0.30 <= 1)
    by (split; apply Qle_bool_iff; vm_compute; reflexivity).
  assert (R2 : 0 <= F.lit 0.20 <= 1)
    by (split; apply Qle_bool_iff; vm_compute; reflexivity).
  assert (V3 : F.b64 (F.lit 0.30) <= 31 # 100)
    by (apply Qle_bool_iff; vm_compute; reflexivity).
  assert (V2 : F.b64 (F.lit 0.20) <= 21 # 100)
    by (apply Qle_bool_iff; vm_compute; reflexivity).
  assert (Y1 : 0 <= 2 * dr) by lra.
  assert (Y2 : 0 <= inject_Z (s + 2 * m + 3 * l) / 10).
  { apply Qle_shift_div_l; [reflexivity |].
    rewrite Qmult_0_l. change 0 with (inject_Z 0). rewrite <- Zle_Qle. lia. }
  assert (Y3 : 0 <= inject_Z h / 5).
  { apply Qle_shift_div_l; [reflexivity |].
    rewrite Qmult_0_l. change 0 with (inject_Z 0). now rewrite <- Zle_Qle. }
  pose proof (component_close _ Y1) as K1.
  pose proof (component_close _ Y2) as K2.
  pose proof (component_close _ Y3) as K3.
  pose proof (component_range _ (b64_sign_nonneg _ Y1)) as G1.
  pose proof (component_range _ (b64_sign_nonneg _ Y2)) as G2.
  pose proof (component_range _ (b64_sign_nonneg _ Y3)) as G3.
  change (F.b64 (2 * dr)) with (F.mul 2 dr) in K1, G1.
  change (F.b64 (inject_Z (s + 2 * m + 3 * l) / 10))
    with (F.div_int (s + 2 * m + 3 * l) 10) in K2, G2.
  change (F.b64 (inject_Z h / 5)) with (F.div_int h 5) in K3, G3.
  set (u := F.unit_roundoff) in *.
  set (D := Qmax 0 (F.sub 1 (F.mul 2 dr))) in *.
  set (P := Qmax 0 (F.sub 1 (F.div_int (s + 2 * m + 3 * l) 10))) in *.
  set (H := Qmax 0 (F.sub 1 (F.div_int h 5))) in *.
  set (D' := Qmax 0 (1 - 2 * dr)) in *.
  set (P' := Qmax 0 (1 - inject_Z (s + 2 * m + 3 * l) / 10)) in *.
  set (H' := Qmax 0 (1 - inject_Z h / 5)) in *.
  assert (Kc : - 0 <= c - c <= 0) by lra.
  assert (K1' : - (6 * u) <= D - D' <= 6 * u) by lra.
  assert (K2' : - (6 * u) <= P - P' <= 6 * u) by lra.
  assert (K3' : - (6 * u) <= H - H' <= 6 * u) by lra.
  destruct (weighted_close _ _ _ _ _ W3 L3 R3 Hc Kc) as [A1 A2].
  destruct (weighted_close _ _ _ _ _ W3 L3 R3 G1 K1') as [B1 B2].
  destruct (weighted_close _ _ _ _ _ W2 L2 R2 G2 K2') as [C1 C2].
  destruct (weighted_close _ _ _ _ _ W2 L2 R2 G3 K3') as [D1 D2].
  fold u in A1, A2, B1, B2, C1, C2, D1, D2.
  destruct (mul_weight_range _ _ (proj1 R3) Hc) as [A3 A4].
  destruct (mul_weight_range _ _ (proj1 R3) G1) as [B3 B4].
  destruct (mul_weight_range _ _ (proj1 R2) G2) as [C3 C4].
  destruct (mul_weight_range _ _ (proj1 R2) G3) as [D3 D4].
  set (t1 := F.mul (F.lit 0.30) c) in *.
  set (t2 := F.mul (F.lit 0.30) D) in *.
  set (t3 := F.mul (F.lit 0.20) P) in *.
  set (t4 := F.mul (F.lit 0.20) H) in *.
  unfold F.add.
  assert (S1 : - (2) <= t1 + t2 <= 2) by lra.
  pose proof (b64_close _ S1) as E1. fold u in E1.
  set (s1 := F.b64 (t1 + t2)) in *.
  assert (S2 : - (2) <= s1 + t3 <= 2) by lra.
  pose proof (b64_close _ S2) as E2. fold u in E2.
  set (s2 := F.b64 (s1 + t3)) in *.
  assert (S3 : - (2) <= s2 + t4 <= 2) by lra.
  pose proof (b64_close _ S3) as E3. fold u in E3.
  set (s3 := F.b64 (s2 + t4)) in *.
  apply Qabs_Qle_condition. split; lra.
Qed.

Lemma deletion_ratio_b64 self :
  events self <> [] ->
  snd (fst (B64._analyze_deletions self))
  = F.div_int (fst (fst (B64._analyze_deletions self))) (Py.len (events self)).
Proof.
  intros H. unfold B64._analyze_deletions. cbn [fst snd].
  destruct (events self); [congruence | reflexivity].
Qed.

Lemma deletion_ratio_nonneg_b64 self :
  0 <= snd (fst (B64._analyze_deletions self)).
Proof.
  unfold B64._analyze_deletions. cbn [fst snd].
  destruct (events self) as [| e l] eqn:E; [lra |].
  apply div_int_nonneg; [apply len_nonneg | unfold Py.len; cbn; lia].
Qed.

Lemma fluency_band_cases score :
  (F.lit 0.8 <= score -> B64.fluency_band score = "very_fluent")
  /\ (F.lit 0.6 <= score -> score < F.lit 0.8 ->
      B64.fluency_band score = "fluent")
  /\ (F.lit 0.4 <= score -> score < F.lit 0.6 ->
      B64.fluency_band score = "normal")
  /\ (score < F.lit 0.4 -> B64.fluency_band score = "hesitant").
Proof.
  assert (O1 : F.lit 0.4 < F.lit 0.6) by (vm_compute; reflexivity).
  assert (O2 : F.lit 0.6 < F.lit 0.8) by (vm_compute; reflexivity).
  unfold B64.fluency_band.
  set (a := F.lit 0.8) in *. set (b := F.lit 0.6) in *.
  set (c := F.lit 0.4) in *.
  repeat split; intros;
    repeat match goal with
           | |- context [Qle_bool ?x ?y] =>
               let E := fresh "E" in
               destruct (Qle_bool x y) eqn:E;
               [apply Qle_bool_iff in E
               | assert (y < x) by
                   (destruct (Qlt_le_dec y x) as [L | L];
                    [exact L | apply Qle_bool_iff in L; congruence])]
           end; try reflexivity; exfalso; lra.
Qed.

(** C8: on a non-empty session the fluency score is
    [0.30*stability + 0.30*deletion_score + 0.20*pause_score
     + 0.20*hesitation_score] evaluated in binary64, with stability the
    consistency, [deletion_score = max(0, 1 - 2*deletion_ratio)],
    [pause_score = max(0, 1 - (short + 2*medium + 3*long)/10)] and
    [hesitation_score = max(0, 1 - hesitation_count/5)]; it is within
    [32 * 2^-53] of the real value of that formula and lies in [0, 1]; and
    the level is "very_fluent" from the float 0.8, "fluent" from 0.6,
    "normal" from 0.4 and "hesitant" below, each lower bound included.  The
    profile holds the score rounded to three decimals. *)
Theorem fluency_correct :
  forall (fsum : list Q -> Q) (sqrt : Q -> Q) end_time now_iso final_text self,
    nonempty_session self ->
    let p :=
      snd (B64.finish_monitoring fsum sqrt end_time now_iso final_text self) in
    let stability :=
      B64._calculate_consistency fsum sqrt (B64.session_intervals self) in
    let ratio := F.div_int (deletion_count p) (total_keystrokes p) in
    let s := short_pauses (pause_pattern p) in
    let m := medium_pauses (pause_pattern p) in
    let l := long_pauses (pause_pattern p) in
    let h := hesitation_count p in
    let score := B64.fluency_formula stability ratio s m l h in
    (fluency_score p = Py.round score 3
     /\ consistency p = Py.round stability 3
     /\ deletion_ratio p = Py.round ratio 3)
    /\ Qabs (score - fluency_formula stability ratio s m l h)
       <= 32 * F.unit_roundoff
    /\ (0 <= score <= 1 /\ 0 <= fluency_score p <= 1)
    /\ (F.lit 0.8 <= score -> fluency_level p = "very_fluent")
    /\ (F.lit 0.6 <= score -> score < F.lit 0.8 -> fluency_level p = "fluent")
    /\ (F.lit 0.4 <= score -> score < F.lit 0.6 -> fluency_level p = "normal")
    /\ (score < F.lit 0.4 -> fluency_level p = "hesitant").
Proof.
  intros fsum sqrt end_time now_iso final_text self Hne
         p stability ratio s m l h score.
  destruct (finish_monitoring_nonempty_b64 fsum sqrt end_time now_iso
              final_text self Hne) as (start & Hs & Hp).
  subst score s m l h ratio p. rewrite Hp, analyze_fields_b64. cbv zeta.
  profile_fields.
  destruct Hne as [Hev _].
  rewrite <- (deletion_ratio_b64 self Hev).
  set (dr := snd (fst (B64._analyze_deletions self))).
  set (pp := _analyze_pauses (B64.session_intervals self)).
  set (h := fst (fst (_map_hesitations (B64.session_intervals self)))).
  destruct (calculate_fluency_formula_b64 stability dr pp h) as [Hf Hl].
  fold stability. rewrite Hl, Hf.
  assert (Hc : 0 <= stability <= 1) by apply consistency_unit_interval_b64.
  assert (Hdr : 0 <= dr) by apply deletion_ratio_nonneg_b64.
  assert (H1 : (0 <= short_pauses pp)%Z)
    by (subst pp; rewrite analyze_pauses_buckets; cbn; lia).
  assert (H2 : (0 <= medium_pauses pp)%Z)
    by (subst pp; rewrite analyze_pauses_buckets; cbn; lia).
  assert (H3 : (0 <= long_pauses pp)%Z)
    by (subst pp; rewrite analyze_pauses_buckets; cbn; lia).
  assert (H4 : (0 <= h)%Z)
    by (subst h; rewrite map_hesitations_points; cbn; apply len_nonneg).
  pose proof (fluency_formula_range_b64 _ _ _ _ _ _ Hc Hdr H1 H2 H3 H4) as Hr.
  pose proof (fluency_formula_close _ _ _ _ _ _ Hc Hdr H1 H2 H3 H4) as Hk.
  set (score := B64.fluency_formula stability dr (short_pauses pp)
                  (medium_pauses pp) (long_pauses pp) h) in *.
  split; [repeat split |].
  split; [exact Hk |].
  split; [split; [exact Hr | now apply round_unit_interval] |].
  apply fluency_band_cases.
Qed.

(** Three keystrokes sixteen seconds apart: the real value of the formula
    is [0.3 + 0.3 + 0.2*0.4 + 0.2*0.6 = 0.8], the floats add up to
    [0.7999999999999999], and the level is "fluent". *)
Lemma fluency_correct_witness :
  let self :=
    mkRhythmDetector
      [mkTypingEvent "type" "a" 100; mkTypingEvent "type" "b" 116;
       mkTypingEvent "type" "c" 132]
      true (Some 99) in
  let p :=
    snd (B64.finish_monitoring F.sum_fold F.sqrt_b64 140 "2025-01-01T00:02:20"
           (text_of_string "abc") self) in
  nonempty_session self
  /\ fluency_formula 1 0 0 0 2 2 == 0.8
  /\ fluency_level p = "fluent"
  /\ fluency_score p == 0.8.
Proof.
  intros self p.
  assert (H : nonempty_session self) by (split; [discriminate | reflexivity]).
  split; [exact H |]. split; [reflexivity |].
  pose proof (fluency_correct F.sum_fold F.sqrt_b64 140 "2025-01-01T00:02:20"
                (text_of_string "abc") self H) as T.
  cbv zeta in T.
  destruct T as [[T1 _] [_ [_ [_ [T5 _]]]]].
  split.
  - apply T5; [apply Qle_bool_iff |]; vm_compute; reflexivity.
  - subst p. rewrite T1. vm_compute. reflexivity.
Defined.

(** ** Rounding at assembly, in binary64 *)

(** C2, amended: on a non-empty session the scalar float fields of the
    profile are the binary64 values rounded once, when the result is
    assembled, and the fluency scorer and the rhythm classifier consume the
    unrounded consistency, deletion ratio and speed.  The floats inside
    nested records are rounded where the record is built: a burst
    segment's [avg_speed] to one decimal in the burst detector, a
    hesitation's [duration] to two decimals in the hesitation mapper, the
    two numbers of [text_rhythm] in the text analyzer.  [max_burst_speed]
    is the maximum of the already rounded segment speeds, rounded again at
    assembly, which is the full-precision maximum rounded once. *)
Theorem rounding_points :
  forall (fsum : list Q -> Q) (sqrt : Q -> Q) end_time now_iso final_text
         self start,
    nonempty_session self ->
    start_time self = Some start ->
    let p :=
      snd (B64.finish_monitoring fsum sqrt end_time now_iso final_text self) in
    let intervals := B64.session_intervals self in
    let c := B64._calculate_consistency fsum sqrt intervals in
    let duration := F.sub end_time start in
    let cpm :=
      if Qlt_le_dec 0 duration
      then F.mul (F.div (F.of_int (Py.len final_text)) duration) 60
      else 0 in
    let ratio := F.div_int (deletion_count p) (total_keystrokes p) in
    (duration_seconds p = Py.round duration 2
     /\ chars_per_minute p = Py.round cpm 1
     /\ consistency p = Py.round c 3
     /\ avg_interval p
        = Py.round
            match intervals with
            | [] => 0
            | _ => F.div (fsum intervals) (F.of_int (Py.len intervals))
            end 3
     /\ deletion_ratio p = Py.round ratio 3
     /\ keystroke_ratio p
        = Py.round (if (0 <? actual_chars p)%Z
                    then F.div_int (total_keystrokes p) (actual_chars p)
                    else 0) 2)
    /\ (fluency_score p
        = Py.round
            (B64.fluency_formula c ratio
               (short_pauses (pause_pattern p)) (medium_pauses (pause_pattern p))
               (long_pauses (pause_pattern p)) (hesitation_count p)) 3
        /\ rhythm_type p
           = B64._classify_rhythm_type cpm c (pattern (pause_pattern p)))
    /\ (burst_segments p
        = map (B64.segment_of_run round1)
              (filter long_run (B64.fast_runs intervals))
        /\ max_burst_speed p
           = Py.max_default (map bs_avg_speed (burst_segments p)) 0
        /\ max_burst_speed p = Py.round (B64.max_run_speed intervals) 1)
    /\ hesitations p = map hesitation_record (hesitation_points intervals)
    /\ (avg_sentence_length (text_rhythm p)
        = Py.round (F.div_int (Py.len final_text)
                      (sentence_count (text_rhythm p))) 1
        /\ punctuation_rate (text_rhythm p)
           = Py.round
               match final_text with
               | [] => 0
               | _ => F.div_int (Py.len (filter is_punctuation final_text))
                        (Py.len final_text)
               end 3).
Proof.
  intros fsum sqrt end_time now_iso final_text self start Hne Hst
         p intervals c duration cpm ratio.
  destruct (finish_monitoring_nonempty_b64 fsum sqrt end_time now_iso
              final_text self Hne) as (start' & Hs & Hp).
  assert (start' = start) by congruence. subst start'.
  subst ratio p. rewrite Hp, analyze_fields_b64. cbv zeta. profile_fields.
  fold intervals. fold duration. fold c.
  assert (E : (if Py.gtb duration 0
               then F.mul (F.div (F.of_int (Py.len final_text)) duration) 60
               else 0)
              = cpm).
  { subst cpm. destruct (Py.gtb duration 0) eqn:G;
      destruct (Qlt_le_dec 0 duration);
      float_tests; try reflexivity; exfalso; lra. }
  rewrite E.
  destruct Hne as [Hev _].
  rewrite <- (deletion_ratio_b64 self Hev).
  split; [| split; [| split; [| split]]].
  - repeat split. now rewrite Z.gtb_ltb.
  - split; [| reflexivity].
    f_equal. apply calculate_fluency_formula_b64.
  - rewrite max_speed_rounded_once_b64, round_idem.
    rewrite detect_bursts_runs_b64. cbv zeta. cbn [fst snd].
    split; [reflexivity |]. split; [| reflexivity].
    rewrite map_map. cbn [B64.segment_of_run bs_avg_speed]. unfold round1.
    unfold B64.max_run_speed.
    rewrite <- (map_map B64.run_speed (fun x => Py.round x 1)).
    now rewrite max_default_round.
  - rewrite map_hesitations_points. reflexivity.
  - unfold B64._analyze_text_rhythm. cbv zeta.
    cbn [avg_sentence_length punctuation_rate sentence_count].
    split; [reflexivity |].
    destruct final_text; reflexivity.
Qed.

(** Quotients of small integers that sit on a decimal tie as real numbers
    and off it as floats: the float nearest to 1/40 lies above 0.025, the
    one nearest to 1/80 above 0.0125 and the one nearest to 49/20 above
    2.45, so [round] goes up where the real quotient would go to the even
    neighbour. *)
Lemma quotients_off_the_tie :
  (Py.round (F.div_int 1 40) 2 == 0.03 /\ Py.round (1 / 40) 2 == 0.02)
  /\ (Py.round (F.div_int 1 80) 3 == 0.013 /\ Py.round (1 / 80) 3 == 0.012)
  /\ (Py.round (F.div_int 49 20) 1 == 2.5 /\ Py.round (49 / 20) 1 == 2.4).
Proof. repeat split; vm_compute; reflexivity. Qed.

(** One keystroke for a final text of forty code points: the profile
    stores the keystroke ratio 0.03. *)
Lemma rounding_points_witness :
  let self :=
    mkRhythmDetector [mkTypingEvent "type" "a" 100] true (Some 99) in
  let p :=
    snd (B64.finish_monitoring F.sum_fold F.sqrt_b64 101 "2025-01-01T00:00:02"
           (repeat 97%N 40) self) in
  (nonempty_session self /\ start_time self = Some 99)
  /\ keystroke_ratio p == 0.03.
Proof.
  intros self p.
  assert (H : nonempty_session self) by (split; [discriminate | reflexivity]).
  split; [split; [exact H | reflexivity] |].
  pose proof (rounding_points F.sum_fold F.sqrt_b64 101 "2025-01-01T00:00:02"
                (repeat 97%N 40) self 99 H eq_refl) as T.
  cbv zeta in T.
  destruct T as [[_ [_ [_ [_ [_ T6]]]]] _].
  subst p. rewrite T6. vm_compute. reflexivity.
Defined.

(** ** Text rhythm, in binary64 *)

(** X15: The category is decided on the unrounded average sentence length and
    punctuation rate, both binary64 quotients of two counts, row by row:
    short sentences give "concise" or "staccato", long ones "flowing" or
    "complex", heavy punctuation in between "punctuated"; what is left,
    including long sentences with a rate in [0.05, 0.08), is "balanced".
    The rate is compared with the floats that 0.05 and 0.08 denote.  The
    two stored numbers are the quotients rounded to one and to three
    decimals. *)
Theorem text_rhythm_category_table :
  forall txt,
    let tr := B64._analyze_text_rhythm txt in
    let avg := F.div_int (Py.len txt) (sentence_count tr) in
    let rate :=
      match txt with
      | [] => 0
      | _ => F.div_int (Py.len (filter is_punctuation txt)) (Py.len txt)
      end in
    avg_sentence_length tr = Py.round avg 1
    /\ punctuation_rate tr = Py.round rate 3
    /\ (avg < 20 -> rate < F.lit 0.05 -> rhythm_category tr = "concise")
    /\ (avg < 20 -> F.lit 0.05 <= rate -> rhythm_category tr = "staccato")
    /\ (50 <= avg -> rate < F.lit 0.05 -> rhythm_category tr = "flowing")
    /\ (50 <= avg -> F.lit 0.08 <= rate -> rhythm_category tr = "complex")
    /\ (20 <= avg -> avg < 50 -> F.lit 0.08 <= rate ->
        rhythm_category tr = "punctuated")
    /\ (20 <= avg -> avg < 50 -> rate < F.lit 0.08 ->
        rhythm_category tr = "balanced")
    /\ (50 <= avg -> F.lit 0.05 <= rate -> rate < F.lit 0.08 ->
        rhythm_category tr = "balanced").
Proof.
  intros txt tr avg rate. subst tr avg rate.
  unfold B64._analyze_text_rhythm. cbv zeta.
  cbn [sentence_count punctuation_rate avg_sentence_length rhythm_category].
  set (avg := F.div_int (Py.len txt) _).
  assert (E : (if str_truthy txt
               then F.div_int (Py.len (filter is_punctuation txt)) (Py.len txt)
               else 0)
              = match txt with
                | [] => 0
                | _ => F.div_int (Py.len (filter is_punctuation txt))
                         (Py.len txt)
                end) by (destruct txt; reflexivity).
  rewrite E.
  set (rate := match txt with [] => 0 | _ => _ end).
  assert (O : F.lit 0.05 < F.lit 0.08) by (vm_compute; reflexivity).
  set (a := F.lit 0.05) in *. set (b := F.lit 0.08) in *.
  split; [reflexivity |]. split; [reflexivity |].
  destruct (Py.ltb avg 20) eqn:A; destruct (Py.ltb rate a) eqn:B;
    destruct (Py.geb rate a) eqn:C; destruct (Py.geb avg 50) eqn:D;
    destruct (Py.geb rate b) eqn:G; float_tests; cbn [andb];
    repeat split; intros; try reflexivity; exfalso; lra.
Qed.
